(** * Timetable generator: slot assignment engine (src/Core.py, src/Electives.py)

    Shallow embedding of the scheduling engine of [TimetableGenerator]
    (core engine) and [ElectivesManager] (elective engine).

    - Python's [random] module is modelled by the interface [Random]:
      [randbelow g n] is [_randbelow(n)], returning an index below [n]
      and the next generator state; [random.choice(seq)] is
      [seq[_randbelow(len(seq))]] and raises [IndexError] on an empty
      sequence.
    - The engine object is an explicit state record; methods are
      computations in a state-and-exception monad. A raised exception
      keeps the state reached so far, as Python's in-place mutations do.
    - [defaultdict(lambda: defaultdict(int))] counters are [gmap]s keyed
      by the pair of keys, read with default [0]; a [DataFrame] timetable
      is a [gmap] keyed by (section, slot, day), an absent key being a
      NaN cell; [room_bookings] is a [gmap] of [gset]s, read with
      default [{}]. *)

From stdpp Require Import base gmap strings list pretty.
From Stdlib Require Import Ascii.

Open Scope string_scope.

(** ** Python-level helpers *)

Definition nl : string := String (ascii_of_nat 10) EmptyString.

(** [s.split(c)] *)
Fixpoint split_go (c : ascii) (cur : string) (s : string) : list string :=
  match s with
  | EmptyString => [String.rev cur]
  | String a s' =>
      if Ascii.eqb a c then String.rev cur :: split_go c "" s'
      else split_go c (String a cur) s'
  end.
Definition py_split (c : ascii) (s : string) : list string := split_go c "" s.

(** [lst[i]] on a list of strings; the engine only indexes labels of
    the form "hh:mm-hh:mm" at 0 and 1, which are always in range. *)
Definition py_idx (l : list string) (i : nat) : string := default "" (l !! i).

(** ** Random number generation *)

Class Random (G : Type) := {
  randbelow : G -> nat -> nat * G;
  randbelow_lt : forall g n, 0 < n -> fst (randbelow g n) < n
}.

(** A generator reading a fixed stream of raw draws; the state is the
    position in the stream. *)
#[refine] Instance stream_random (draws : nat -> nat) : Random nat := {
  randbelow g n := (Nat.modulo (draws g) n, S g)
}.
Proof. intros g n Hn. simpl. apply Nat.mod_upper_bound. lia. Defined.

(** ** Result of a computation: a value or a raised exception *)

Inductive res (A : Type) : Type :=
| Ok (a : A)
| Raise (e : string).
Arguments Ok {A} a.
Arguments Raise {A} e.

(** ** Core engine ([TimetableGenerator]) constants *)

Definition TIME_SLOTS : list string :=
  ["08:00-09:15"; "09:30-10:45"; "11:00-12:15";
   "12:30-01:45"; "02:00-03:15"; "03:30-04:45"; "05:00-06:15"].

Definition LAB_COMBINATIONS : list (list string) :=
  [["08:00-09:15"; "09:30-10:45"]; ["09:30-10:45"; "11:00-12:15"];
   ["11:00-12:15"; "12:30-01:45"]; ["12:30-01:45"; "02:00-03:15"];
   ["02:00-03:15"; "03:30-04:45"]; ["03:30-04:45"; "05:00-06:15"]].

Definition DAYS : list string :=
  ["Monday"; "Tuesday"; "Wednesday"; "Thursday"; "Friday"; "Saturday"].

Definition MAX_CLASSES_PER_DAY : nat := 4.

(** [self.rooms] *)
Record Rooms := mkRooms {
  theory : list string;
  lab : list string;
  special : gmap string (list string)
}.

(** Messages printed by the engine (its log). *)
Inductive Msg :=
| MsgCohortPlaced (code sec day slot : string)
| MsgCohortConflict (code sec day slot : string)
| MsgInvalidSlot (slot code : string)
| MsgSchedError (code e : string).

(** ** A state-and-exception monad over an object state [S] *)

Section Monad.
Context {S : Type}.

Definition M (A : Type) : Type := S -> res A * S.

Definition ret {A} (a : A) : M A := fun st => (Ok a, st).
Definition bind {A B} (m : M A) (f : A -> M B) : M B :=
  fun st => match m st with
            | (Ok a, st') => f a st'
            | (Raise e, st') => (Raise e, st')
            end.
Definition raise {A} (e : string) : M A := fun st => (Raise e, st).
Definition get : M S := fun st => (Ok st, st).
Definition modify (f : S -> S) : M unit := fun st => (Ok tt, f st).

(** [try: ... except Exception as e: ...] *)
Definition catch {A} (m : M A) (h : string -> M A) : M A :=
  fun st => match m st with
            | (Raise e, st') => h e st'
            | r => r
            end.
End Monad.
Arguments M : clear implicits.

Notation "x <- c ;; k" := (bind c (fun x => k))
  (at level 100, c at next level, right associativity).
Notation "c ;;; k" := (bind c (fun _ => k))
  (at level 100, right associativity).

(** Objects that own the module-level generator of [random]. *)
Class HasRng (S G : Type) := {
  rng_of : S -> G;
  with_rng : G -> S -> S
}.

(** [random.choice(seq)] *)
Definition choice {S G A} `{Random G} `{HasRng S G} (l : list A) : M S A :=
  match l with
  | [] => raise "IndexError"
  | _ => fun st =>
      let (k, g') := randbelow (rng_of st) (length l) in
      match l !! k with
      | Some x => (Ok x, with_rng g' st)
      | None => (Raise "IndexError", with_rng g' st)
      end
  end.

Section Engine.
Context {G : Type} `{RG : Random G}.

(** The [TimetableGenerator] object during scheduling. *)
Record St := mkSt {
  rooms : Rooms;
  timetables : gmap (string * string * string) string;
  daily_counts : gmap (string * string) nat;
  lecture_counts : gmap (string * string) nat;
  room_bookings : gmap (string * string) (gset string);
  placed : nat;
  failed : nat;
  cohort : nat;
  log : list Msg;
  rng : G
}.

Definition set_rng (g : G) (st : St) : St :=
  mkSt (rooms st) (timetables st) (daily_counts st) (lecture_counts st)
       (room_bookings st) (placed st) (failed st) (cohort st) (log st) g.

#[global] Instance St_rng : HasRng St G := { rng_of := rng; with_rng := set_rng }.

(** Reads of the defaultdicts and of a DataFrame cell. *)
Definition cell (st : St) (sec slot day : string) : option string :=
  timetables st !! (sec, slot, day).
Definition daily (st : St) (sec day : string) : nat :=
  default 0 (daily_counts st !! (sec, day)).
Definition lectures (st : St) (sec code : string) : nat :=
  default 0 (lecture_counts st !! (sec, code)).
Definition booked (st : St) (day slot : string) : gset string :=
  default ∅ (room_bookings st !! (day, slot)).

(** [_can_place_course] *)
Definition can_place_course (st : St) (sec code day : string)
    (time_slots : list string) (max_lectures : nat) : bool :=
  if decide (max_lectures <= lectures st sec code) then false
  else if decide (MAX_CLASSES_PER_DAY <= daily st sec day) then false
  else forallb (fun slot => bool_decide (cell st sec slot day = None)) time_slots.

(** The occupant text built by [_place_course]. *)
Definition course_info (code name : string) (time_slots : list string)
    (room : string) (lecture_num total : nat) : string :=
  let info :=
    if decide (1 < total)
    then code ++ " (L" ++ pretty lecture_num ++ "/" ++ pretty total ++ ")"
              ++ nl ++ name ++ nl ++ "Room: " ++ room
    else code ++ nl ++ name ++ nl ++ "Room: " ++ room in
  if decide (1 < length time_slots)
  then let start := py_idx (py_split "-" (py_idx time_slots 0)) 0 in
       let end_ := py_idx (py_split "-" (py_idx time_slots (length time_slots - 1))) 1 in
       info ++ nl ++ "(Lab: " ++ start ++ "-" ++ end_ ++ ")"
  else info.

Definition write_cells (sec day info : string) (time_slots : list string)
    (tt : gmap (string * string * string) string) :=
  foldl (fun acc slot => <[(sec, slot, day) := info]> acc) tt time_slots.

(** [_place_course] *)
Definition place_course (sec code name day : string) (time_slots : list string)
    (room : string) (lecture_num total : nat) (st : St) : St :=
  let info := course_info code name time_slots room lecture_num total in
  mkSt (rooms st)
       (write_cells sec day info time_slots (timetables st))
       (<[(sec, day) := S (daily st sec day)]> (daily_counts st))
       (<[(sec, code) := S (lectures st sec code)]> (lecture_counts st))
       (room_bookings st) (placed st) (failed st) (cohort st) (log st) (rng st).

(** Pool selection of [_get_room]. *)
Definition room_pool (r : Rooms) (code : string) (is_lab : bool) : list string :=
  match is_lab, special r !! code with
  | true, Some p => p
  | true, None => lab r
  | false, _ => theory r
  end.

Definition book (day slot room : string) (st : St) : St :=
  mkSt (rooms st) (timetables st) (daily_counts st) (lecture_counts st)
       (<[(day, slot) := {[ room ]} ∪ booked st day slot]> (room_bookings st))
       (placed st) (failed st) (cohort st) (log st) (rng st).

(** [_get_room] *)
Definition get_room (code : string) (is_lab : bool) (day slot : string) : M St string :=
  st <- get ;;
  let pool := room_pool (rooms st) code is_lab in
  let available := filter (fun r => r ∉ booked st day slot) pool in
  match available with
  | _ :: _ =>
      room <- choice available ;;
      modify (book day slot room) ;;;
      ret room
  | [] =>
      room <- choice pool ;;
      ret (room ++ "*")
  end.

Definition incr_placed (st : St) : St :=
  mkSt (rooms st) (timetables st) (daily_counts st) (lecture_counts st)
       (room_bookings st) (S (placed st)) (failed st) (cohort st) (log st) (rng st).
Definition incr_failed (st : St) : St :=
  mkSt (rooms st) (timetables st) (daily_counts st) (lecture_counts st)
       (room_bookings st) (placed st) (S (failed st)) (cohort st) (log st) (rng st).
Definition add_log (m : Msg) (st : St) : St :=
  mkSt (rooms st) (timetables st) (daily_counts st) (lecture_counts st)
       (room_bookings st) (placed st) (failed st) (cohort st) (log st ++ [m]) (rng st).

(** [time_options] of [_place_course_lectures] *)
Definition time_options (is_lab : bool) : list (list string) :=
  if is_lab then LAB_COMBINATIONS else map (fun slot => [slot]) TIME_SLOTS.

Definition ATTEMPTS : nat := 100.

(** The retry loop [for attempt in range(100)] of one lecture index;
    [n] is the number of attempts left. *)
Fixpoint place_attempts (n : nat) (sec code name : string) (is_lab : bool)
    (lectures_needed lecture_num : nat) : M St bool :=
  match n with
  | O => ret false
  | S n' =>
      day <- choice DAYS ;;
      time_slots <- choice (time_options is_lab) ;;
      st <- get ;;
      if can_place_course st sec code day time_slots lectures_needed then
        room <- get_room code is_lab day (py_idx time_slots 0) ;;
        modify (place_course sec code name day time_slots room lecture_num lectures_needed) ;;;
        modify incr_placed ;;;
        ret true
      else place_attempts n' sec code name is_lab lectures_needed lecture_num
  end.

(** [for lecture_num in range(1, lectures_needed + 1)] *)
Fixpoint lectures_loop (nums : list nat) (sec code name : string) (is_lab : bool)
    (lectures_needed : nat) : M St unit :=
  match nums with
  | [] => ret tt
  | lecture_num :: rest =>
      ok <- place_attempts ATTEMPTS sec code name is_lab lectures_needed lecture_num ;;
      (if ok then ret tt else modify incr_failed) ;;;
      lectures_loop rest sec code name is_lab lectures_needed
  end.

(** [_place_course_lectures] *)
Definition place_course_lectures (sec code name : string) (is_lab : bool)
    (lectures_needed : nat) : M St unit :=
  lectures_loop (seq 1 lectures_needed) sec code name is_lab lectures_needed.


(** ** Cohort seeder ([schedule_cohort_courses]) *)

(** A cohort row after column matching: its section key, course code
    and name, capacity, and the (day, stripped cell text) pairs of the
    day columns present in the row. *)
Record CohortRow := mkCohortRow {
  r_sec : string;
  r_code : string;
  r_name : string;
  r_cap : nat;
  r_cells : list (string * string)
}.

Definition cohort_info (r : CohortRow) : string :=
  r_code r ++ nl ++ r_name r ++ nl ++ "(Fixed)" ++ nl ++ "Cap: " ++ pretty (r_cap r).

Definition seed_write (sec slot day info : string) (st : St) : St :=
  mkSt (rooms st) (<[(sec, slot, day) := info]> (timetables st))
       (<[(sec, day) := S (daily st sec day)]> (daily_counts st))
       (lecture_counts st) (room_bookings st) (placed st) (failed st)
       (S (cohort st)) (log st) (rng st).

(** One day column of a cohort row; the boolean is [course_placed]. *)
Definition seed_cell (r : CohortRow) (day time_slot : string) (st : St) : St * bool :=
  if decide (time_slot <> "" /\ time_slot <> "nan") then
    if decide (time_slot ∈ TIME_SLOTS) then
      match cell st (r_sec r) time_slot day with
      | None =>
          (add_log (MsgCohortPlaced (r_code r) (r_sec r) day time_slot)
             (seed_write (r_sec r) time_slot day (cohort_info r) st), true)
      | Some _ =>
          (add_log (MsgCohortConflict (r_code r) (r_sec r) day time_slot) st, false)
      end
    else (add_log (MsgInvalidSlot time_slot (r_code r)) st, false)
  else (st, false).

Fixpoint seed_cells (r : CohortRow) (cells : list (string * string)) (st : St) : St * bool :=
  match cells with
  | [] => (st, false)
  | (day, ts) :: rest =>
      let (st1, p1) := seed_cell r day ts st in
      let (st2, p2) := seed_cells r rest st1 in
      (st2, p1 || p2)
  end.

(** One cohort row. *)
Definition seed_row (r : CohortRow) (st : St) : St * bool := seed_cells r (r_cells r) st.

Fixpoint seed_rows (rows : list CohortRow) (st : St) : St :=
  match rows with
  | [] => st
  | r :: rest => seed_rows rest (fst (seed_row r st))
  end.

Definition reset_cohort (st : St) : St :=
  mkSt (rooms st) (timetables st) (daily_counts st) (lecture_counts st)
       (room_bookings st) (placed st) (failed st) 0 (log st) (rng st).

(** [schedule_cohort_courses]: the local [total_cohort_placed] is kept
    in the [cohort] statistic, which the method finally sets to it. *)
Definition schedule_cohort_courses (rows : list CohortRow) (st : St) : St :=
  seed_rows rows (reset_cohort st).

End Engine.

(** ** Room setup ([setup_rooms]) *)

(** Python's [str.strip()] on ASCII text. *)
Definition py_space (a : ascii) : bool :=
  let n := nat_of_ascii a in (Nat.leb 9 n && Nat.leb n 13) || Nat.leb 28 n && Nat.leb n 32.

Fixpoint lstrip (s : string) : string :=
  match s with
  | String a s' => if py_space a then lstrip s' else s
  | EmptyString => EmptyString
  end.
Definition py_strip (s : string) : string := String.rev (lstrip (String.rev (lstrip s))).

(** [str.lower()] on ASCII text. *)
Fixpoint py_lower (s : string) : string :=
  match s with
  | String a s' =>
      let n := nat_of_ascii a in
      String (if Nat.leb 65 n && Nat.leb n 90 then ascii_of_nat (n + 32) else a) (py_lower s')
  | EmptyString => EmptyString
  end.

(** [sub in s] *)
Fixpoint py_contains (sub s : string) : bool :=
  String.prefix sub s ||
  match s with
  | String _ s' => py_contains sub s'
  | EmptyString => false
  end.

(** [f'{i:02d}'] *)
Definition pad2 (i : nat) : string := if Nat.ltb i 10 then "0" ++ pretty i else pretty i.

(** One core input file: its [Rooms] sheet rows (room_name, room_type)
    and its [SpecialLabs] sheet rows (course_code, lab_rooms), each cell
    already passed through [str()]; [None] when the sheet is absent. *)
Record CoreFile := mkCoreFile {
  f_rooms : option (list (string * string));
  f_special : option (list (string * string))
}.

(** [list(s)] of a Python set: a listing of its elements, without
    duplicates, in an order fixed by the string hashes of the running
    interpreter. *)
Definition set_listing (enum : gset string -> list string) : Prop :=
  forall X : gset string, NoDup (enum X) /\ forall x, x ∈ enum X <-> x ∈ X.

Definition add_room_row (acc : gset string * gset string) (row : string * string) :=
  let (theory_rooms, lab_rooms) := acc in
  let room_name := py_strip (fst row) in
  let room_type := py_lower (snd row) in
  if decide (room_name <> "" /\ room_name <> "nan") then
    if py_contains "theory" room_type then ({[ room_name ]} ∪ theory_rooms, lab_rooms)
    else if py_contains "lab" room_type then (theory_rooms, {[ room_name ]} ∪ lab_rooms)
    else ({[ room_name ]} ∪ theory_rooms, lab_rooms)
  else acc.

Definition add_special_row (sp : gmap string (list string)) (row : string * string) :=
  let course := py_strip (fst row) in
  let rooms_str := py_strip (snd row) in
  if decide (course <> "" /\ rooms_str <> "") then
    <[course := map py_strip (py_split "," rooms_str)]> sp
  else sp.

Definition add_file (acc : gset string * gset string * gmap string (list string)) (f : CoreFile) :=
  let '(th, lb, sp) := acc in
  let '(th', lb') := foldl add_room_row (th, lb) (default [] (f_rooms f)) in
  (th', lb', foldl add_special_row sp (default [] (f_special f))).

Definition or_default (l d : list string) : list string := match l with [] => d | _ => l end.

Definition setup_rooms (enum : gset string -> list string) (files : list CoreFile) : Rooms :=
  let '(th, lb, sp) := foldl add_file (∅, ∅, ∅) files in
  mkRooms (or_default (enum th) (map (fun i => "T" ++ pad2 i) (seq 1 20)))
          (or_default (enum lb) (map (fun i => "L" ++ pad2 i) (seq 1 15)))
          sp.

(** Every pool [_get_room] may select is non-empty. *)
Definition rooms_ok (r : Rooms) : Prop :=
  theory r <> [] /\ lab r <> [] /\ forall c p, special r !! c = Some p -> p <> [].

(** The [TimetableGenerator] object at the start of scheduling. *)
Definition init_st {G} (r : Rooms) (g : G) : St (G := G) :=
  mkSt r ∅ ∅ ∅ ∅ 0 0 0 [] g.


(** The grid of a section: the DataFrame index [TIME_SLOTS] times its
    columns [DAYS]; [occupied tt sec] counts its non-NaN cells. *)
Definition grid_cells : list (string * string) := list_prod TIME_SLOTS DAYS.

Definition occupied (tt : gmap (string * string * string) string) (sec : string) : nat :=
  length (List.filter (fun '(slot, day) => bool_decide (is_Some (tt !! (sec, slot, day))))
            grid_cells).

(** ** Elective engine ([ElectivesManager]) *)

(** [preferred_times] of [ELECTIVE_TYPES], with the [.get] defaults. *)
Definition preferred_times (elective_type : string) : list string :=
  if decide (elective_type = "General") then ["03:30-04:45"; "05:00-06:15"]
  else if decide (elective_type = "Technical") then ["02:00-03:15"; "03:30-04:45"]
  else if decide (elective_type = "Free") then ["05:00-06:15"]
  else TIME_SLOTS.

(** An entry of [electives_pool]. *)
Record Elective := mkElective {
  el_code : string;
  el_name : string;
  el_type : string;
  el_credit_hours : nat;
  el_can_use_lab : bool
}.

Section Electives.
Context {G : Type} `{RG : Random G}.

(** The [ElectivesManager] object during scheduling. *)
Record ESt := mkESt {
  pool_theory : list string;
  pool_lab : list string;
  elective_timetables : gmap (string * string * string) string;
  erng : G
}.

Definition set_erng (g : G) (st : ESt) : ESt :=
  mkESt (pool_theory st) (pool_lab st) (elective_timetables st) g.

#[global] Instance ESt_rng : HasRng ESt G := { rng_of := erng; with_rng := set_erng }.

Definition ecell (st : ESt) (sec slot day : string) : option string :=
  elective_timetables st !! (sec, slot, day).

(** [_can_place_elective] *)
Definition can_place_elective (st : ESt) (sec day time_slot : string) : bool :=
  bool_decide (ecell st sec time_slot day = None).

(** [_get_elective_room] *)
Definition get_elective_room (el : Elective) : M ESt string :=
  st <- get ;;
  choice (if el_can_use_lab el then pool_lab st ++ pool_theory st else pool_theory st).

Definition elective_info (el : Elective) (room : string) (lecture_num total : nat) : string :=
  if decide (1 < total)
  then el_code el ++ " (L" ++ pretty lecture_num ++ "/" ++ pretty total ++ ")" ++ nl
         ++ el_name el ++ nl ++ "(Elective - " ++ el_type el ++ ")" ++ nl ++ "Room: " ++ room
  else el_code el ++ nl ++ el_name el ++ nl ++ "(Elective - " ++ el_type el ++ ")" ++ nl
         ++ "Room: " ++ room.

(** [_place_elective] *)
Definition place_elective (sec : string) (el : Elective) (day time_slot room : string)
    (lecture_num total : nat) (st : ESt) : ESt :=
  mkESt (pool_theory st) (pool_lab st)
        (<[(sec, time_slot, day) := elective_info el room lecture_num total]>
           (elective_timetables st))
        (erng st).

Definition ELECTIVE_ATTEMPTS : nat := 50.

(** [for attempt in range(50)] for one lecture index. *)
Fixpoint elective_attempts (n : nat) (sec : string) (el : Elective)
    (lecture_num lectures_needed : nat) : M ESt bool :=
  match n with
  | O => ret false
  | S n' =>
      day <- choice DAYS ;;
      time_slot <- choice (preferred_times (el_type el)) ;;
      st <- get ;;
      if can_place_elective st sec day time_slot then
        room <- get_elective_room el ;;
        modify (place_elective sec el day time_slot room lecture_num lectures_needed) ;;;
        ret true
      else elective_attempts n' sec el lecture_num lectures_needed
  end.

(** [for lecture_num in range(1, lectures_needed + 1)] with its early
    [return False]. *)
Fixpoint section_loop (nums : list nat) (sec : string) (el : Elective)
    (lectures_needed : nat) : M ESt bool :=
  match nums with
  | [] => ret true
  | lecture_num :: rest =>
      ok <- elective_attempts ELECTIVE_ATTEMPTS sec el lecture_num lectures_needed ;;
      if ok then section_loop rest sec el lectures_needed else ret false
  end.

(** [_schedule_single_section] *)
Definition schedule_single_section (sec : string) (el : Elective) : M ESt bool :=
  section_loop (seq 1 (el_credit_hours el)) sec el (el_credit_hours el).

(** The inner loop of [schedule_elective_sections] over the sections of
    one elective, threading [(scheduled_count, failed_count)]. *)
Fixpoint sections_loop (el : Elective) (secs : list string) (counts : nat * nat)
    : M ESt (nat * nat) :=
  match secs with
  | [] => ret counts
  | sec :: rest =>
      ok <- schedule_single_section sec el ;;
      sections_loop el rest
        (if ok then (S (fst counts), snd counts) else (fst counts, S (snd counts)))
  end.

(** [schedule_elective_sections]: the electives in the order of the
    priority sort, each with the section keys of [elective_sections]. *)
Fixpoint electives_loop (items : list (Elective * list string)) (counts : nat * nat)
    : M ESt (nat * nat) :=
  match items with
  | [] => ret counts
  | (el, secs) :: rest =>
      counts' <- sections_loop el secs counts ;;
      electives_loop rest counts'
  end.

Definition schedule_elective_sections (items : list (Elective * list string))
    : M ESt (nat * nat) :=
  electives_loop items (0, 0).

End Electives.


(** [ElectivesManager.setup_rooms]: the theory and lab pools built from
    the [Rooms] sheets of the core files (the same row rule as the core
    engine), with the elective defaults when a set is empty. *)
Definition esetup_rooms (enum : gset string -> list string) (files : list CoreFile)
    : list string * list string :=
  let '(th, lb) := foldl (fun acc f => foldl add_room_row acc (default [] (f_rooms f))) (∅, ∅) files in
  (or_default (enum th) (map (fun i => "Elective-T" ++ pad2 i) (seq 1 10)),
   or_default (enum lb) (map (fun i => "Elective-L" ++ pad2 i) (seq 1 5))).

(** The number of sections [schedule_elective_sections] goes through. *)
Definition section_count {A} (items : list (A * list string)) : nat :=
  sum_list (map (fun p => length p.2) items).

(** ** Batches and sections ([analyze_capacity]) *)

(** [str(i)] of a Python [int]. *)
Definition py_str_Z (z : Z) : string :=
  if Z.ltb z 0 then "-" ++ pretty (Z.to_nat (- z)) else pretty (Z.to_nat z).

(** [chr(n)] for a code point [n <= 0x10FFFF]; text is held as UTF-8
    bytes, so the character is stored as its one to four UTF-8 bytes. *)
Definition u8 (z : Z) : ascii := ascii_of_N (Z.to_N z).
Definition py_chr (n : Z) : string :=
  if Z.ltb n 128 then String (u8 n) EmptyString
  else if Z.ltb n 2048 then
    String (u8 (192 + n / 64)) (String (u8 (128 + n mod 64)) EmptyString)
  else if Z.ltb n 65536 then
    String (u8 (224 + n / 4096)) (String (u8 (128 + (n / 64) mod 64))
      (String (u8 (128 + n mod 64)) EmptyString))
  else
    String (u8 (240 + n / 262144)) (String (u8 (128 + (n / 4096) mod 64))
      (String (u8 (128 + (n / 64) mod 64)) (String (u8 (128 + n mod 64)) EmptyString))).

(** [chr] raises [ValueError] above this code point. *)
Definition MAX_CODE_POINT : Z := 1114111.

Definition STUDENTS_PER_SECTION : nat := 50.

(** A row of a [StudentCapacity] sheet: [int(row.get('semester', 0))]
    ([None] when [int()] raises) and [_safe_int(row.get('student_count', 0))]. *)
Record CapacityRow := mkCapacityRow {
  cr_semester : option Z;
  cr_student_count : Z
}.

(** A core file seen by [analyze_capacity]: its department and its
    [StudentCapacity] sheet ([None] when absent). *)
Record CapacityFile := mkCapacityFile {
  cf_department : string;
  cf_capacity : option (list CapacityRow)
}.

(** An entry of [batch_info]. *)
Record Batch := mkBatch {
  b_department : string;
  b_semester : Z;
  b_students : Z;
  b_sections : nat;
  b_section_names : list string
}.

(** [math.ceil(student_count / STUDENTS_PER_SECTION)] for a positive
    count (the float quotient is exact enough for counts below 2^50). *)
Definition ceil_div (a b : nat) : nat := (a + b - 1) / b.

Definition section_name (dept : string) (semester : Z) (i : nat) : string :=
  dept ++ "_S" ++ py_str_Z semester ++ "_Sec" ++ py_chr (65 + Z.of_nat i).

Definition batch_key (dept : string) (semester : Z) : string :=
  dept ++ "_Sem" ++ py_str_Z semester.

(** One row of the [try] block of [analyze_capacity]; an exception
    ([int()] of the semester, or [chr] past the last code point) leaves
    [batch_info] as it was. *)
Definition capacity_row (dept : string) (bi : gmap string Batch) (row : CapacityRow)
    : gmap string Batch :=
  match cr_semester row with
  | None => bi
  | Some semester =>
      if decide (semester <> 0%Z /\ (0 < cr_student_count row)%Z) then
        let students := cr_student_count row in
        let sections := ceil_div (Z.to_nat students) STUDENTS_PER_SECTION in
        if decide (MAX_CODE_POINT < 65 + (Z.of_nat sections - 1))%Z then bi
        else <[batch_key dept semester :=
                 mkBatch dept semester students sections
                   (map (section_name dept semester) (seq 0 sections))]> bi
      else bi
  end.

(** [analyze_capacity], from the [batch_info] it starts with. *)
Definition analyze_capacity (files : list CapacityFile) (bi : gmap string Batch)
    : gmap string Batch :=
  foldl (fun acc f => match cf_capacity f with
                      | None => acc
                      | Some rows => foldl (capacity_row (cf_department f)) acc rows
                      end) bi files.

(** ** Core courses ([schedule_core_courses], [_schedule_single_course]) *)

(** A [Roadmap] row of a core file, with the department of its file:
    [int(course_row.get('semester', 0))] and
    [int(course_row.get('times_needed', 1))] ([None] when [int()] raises,
    as on an empty cell), the [str()] of the code and name cells, and
    [bool(course_row.get('is_lab', False))]. *)
Record Course := mkCourse {
  c_department : string;
  c_semester : option Z;
  c_code : string;
  c_name : string;
  c_is_lab : bool;
  c_needed : option Z
}.

Section CoreCourses.
Context {G : Type} `{RG : Random G}.

(** The loop over [batch_info[batch_key]['section_names']]. *)
Definition place_sections (secs : list string) (code name : string) (is_lab : bool)
    (needed : nat) : M St unit :=
  foldr (fun sec k => place_course_lectures sec code name is_lab needed ;;; k) (ret tt) secs.

(** The [try] block of [_schedule_single_course] after [semester] is
    parsed; [range(1, lectures_needed + 1)] is empty for a negative
    [lectures_needed]. *)
Definition course_body (bi : gmap string Batch) (c : Course) (semester : Z) : M St unit :=
  let course_code := py_strip (c_code c) in
  let course_name := py_strip (c_name c) in
  match c_needed c with
  | None => raise "ValueError"
  | Some lectures_needed =>
      if decide (course_code = "" \/ course_code = "nan") then ret tt
      else match bi !! batch_key (c_department c) semester with
           | None => ret tt
           | Some b => place_sections (b_section_names b) course_code course_name (c_is_lab c)
                         (Z.to_nat lectures_needed)
           end
  end.

(** [_schedule_single_course]. When [int()] of the semester raises,
    [course_code] is not yet bound, so the [except] handler itself raises
    [UnboundLocalError], which nothing catches. *)
Definition schedule_single_course (bi : gmap string Batch) (c : Course) : M St unit :=
  match c_semester c with
  | None => raise "UnboundLocalError"
  | Some semester =>
      catch (course_body bi c semester)
        (fun e => modify (add_log (MsgSchedError (py_strip (c_code c)) e)))
  end.

(** [schedule_core_courses], over the [Roadmap] rows of the core files in
    order. *)
Fixpoint schedule_core_courses (bi : gmap string Batch) (cs : list Course) : M St unit :=
  match cs with
  | [] => ret tt
  | c :: rest => schedule_single_course bi c ;;; schedule_core_courses bi rest
  end.

End CoreCourses.

(** [run], scheduling part: rooms, capacity, then cohort seeding, then
    core courses. *)
Definition run {G} `{RG : Random G} (enum : gset string -> list string) (files : list CoreFile)
    (cap_files : list CapacityFile) (rows : list CohortRow) (courses : list Course) (g : G)
    : res unit * St :=
  schedule_core_courses (analyze_capacity cap_files ∅) courses
    (schedule_cohort_courses rows (init_st (setup_rooms enum files) g)).

(** The lectures a row asks for: one per lecture index and section of its
    batch. *)
Definition course_lectures (bi : gmap string Batch) (c : Course) (semester : Z) : nat :=
  match c_needed c with
  | None => 0
  | Some n =>
      if decide (py_strip (c_code c) = "" \/ py_strip (c_code c) = "nan") then 0
      else match bi !! batch_key (c_department c) semester with
           | None => 0
           | Some b => length (b_section_names b) * Z.to_nat n
           end
  end.

(** The lectures the rows ask for, up to the first row whose semester
    does not parse. *)
Fixpoint lecture_demand (bi : gmap string Batch) (cs : list Course) : nat :=
  match cs with
  | [] => 0
  | c :: rest =>
      match c_semester c with
      | None => 0
      | Some semester => course_lectures bi c semester + lecture_demand bi rest
      end
  end.

(** The scheduling errors logged for rows whose [times_needed] does not
    parse. *)
Definition needed_errors (cs : list Course) : list Msg :=
  map (fun c => MsgSchedError (py_strip (c_code c)) "ValueError")
      (filter (fun c => c_needed c = None) cs).

(** ** Python dicts kept in insertion order *)

(** [d.get(k)] *)
Fixpoint assoc_lookup {K V} `{EqDecision K} (k : K) (l : list (K * V)) : option V :=
  match l with
  | [] => None
  | (k', v) :: l' => if decide (k = k') then Some v else assoc_lookup k l'
  end.

(** [d[k] = v]: an existing key keeps its position, a new one goes last. *)
Fixpoint assoc_insert {K V} `{EqDecision K} (k : K) (v : V) (l : list (K * V)) : list (K * V) :=
  match l with
  | [] => [(k, v)]
  | (k', v') :: l' => if decide (k = k') then (k, v) :: l' else (k', v') :: assoc_insert k v l'
  end.

(** A loop whose body may raise. *)
Fixpoint rfold {A B} (f : A -> B -> res A) (acc : A) (l : list B) : res A :=
  match l with
  | [] => Ok acc
  | x :: l' => match f acc x with Ok acc' => rfold f acc' l' | Raise e => Raise e end
  end.

(** [sorted(l, key=key)]: a stable sort, each item going after the items
    already placed whose key is not larger. *)
Fixpoint ins_asc {A} (key : A -> nat) (x : A) (l : list A) : list A :=
  match l with
  | [] => [x]
  | y :: l' => if Nat.ltb (key x) (key y) then x :: l else y :: ins_asc key x l'
  end.
Definition sorted_by {A} (key : A -> nat) (l : list A) : list A :=
  foldl (fun acc x => ins_asc key x acc) [] l.

(** [sorted(l, key=key, reverse=True)]: stable, largest key first. *)
Fixpoint ins_desc {A} (key : A -> nat) (x : A) (l : list A) : list A :=
  match l with
  | [] => [x]
  | y :: l' => if Nat.ltb (key y) (key x) then x :: l else y :: ins_desc key x l'
  end.
Definition sorted_by_desc {A} (key : A -> nat) (l : list A) : list A :=
  foldl (fun acc x => ins_desc key x acc) [] l.

(** ** Electives pool ([process_electives_data]) *)

(** A row of an [Electives] sheet after its conversions: the three
    [str(...).strip()] texts, the two [int(...)] numbers ([None] when
    [int()] raises) and the two [bool(...)] flags. *)
Record ElectiveRow := mkElectiveRow {
  er_code : string;
  er_name : string;
  er_type : string;
  er_credit_hour : option Z;
  er_sections_count : option Z;
  er_can_use_theory : bool;
  er_can_use_lab : bool
}.

(** An entry of [core_files] as [process_electives_data] reads it: the
    department and the [Electives] sheet ([None] when absent). *)
Record ElectiveFile := mkElectiveFile {
  ef_department : string;
  ef_electives : option (list ElectiveRow)
}.

(** A value of [electives_pool]. *)
Record PoolEntry := mkPoolEntry {
  pe_name : string;
  pe_type : string;
  pe_credit_hours : Z;
  pe_sections_count : Z;
  pe_can_use_theory : bool;
  pe_can_use_lab : bool;
  pe_source_department : string;
  pe_eligible_departments : list string;
  pe_min_students : nat;
  pe_max_students : nat;
  pe_priority : string
}.

(** [ELECTIVE_TYPES.get(t, {}).get(field, default)] *)
Definition type_min_students (t : string) : nat :=
  if decide (t = "General") then 30 else if decide (t = "Technical") then 20
  else if decide (t = "Free") then 15 else 20.
Definition type_max_students (t : string) : nat :=
  if decide (t = "General") then 60 else if decide (t = "Technical") then 40
  else if decide (t = "Free") then 35 else 40.
Definition type_priority (t : string) : string :=
  if decide (t = "General") then "high" else if decide (t = "Technical") then "medium"
  else if decide (t = "Free") then "low" else "medium".

(** [related_depts.get(source_dept)] *)
Definition related_depts (d : string) : option (list string) :=
  if decide (d = "CS") then Some ["CS"; "SE"; "AI"; "DS"]
  else if decide (d = "SE") then Some ["CS"; "SE"; "AI"]
  else if decide (d = "AI") then Some ["CS"; "AI"; "DS"]
  else if decide (d = "DS") then Some ["CS"; "AI"; "DS"]
  else if decide (d = "INFS") then Some ["INFS"; "CS"]
  else if decide (d = "CB") then Some ["CB"]
  else None.

(** [_determine_eligible_departments] *)
Definition determine_eligible_departments (elective_type source_dept elective_code : string)
    : list string :=
  if decide (elective_type = "General") then ["ALL"]
  else if decide (elective_type = "Technical") then default [source_dept] (related_depts source_dept)
  else ["ALL"].

Record EStats := mkEStats {
  total_electives : nat;
  cross_dept_electives : nat
}.

Definition Pool := list (string * PoolEntry).

(** One row of the [try] block of [process_electives_data]; an [int()]
    that raises skips the row. *)
Definition process_elective_row (department : string) (acc : Pool * EStats) (row : ElectiveRow)
    : Pool * EStats :=
  let '(pool, stats) := acc in
  match er_credit_hour row, er_sections_count row with
  | Some credit_hours, Some sections_count =>
      let elective_code := er_code row in
      if decide (elective_code = "" \/ elective_code = "nan") then acc
      else
        let elective_type := er_type row in
        let eligible := determine_eligible_departments elective_type department elective_code in
        (assoc_insert elective_code
           (mkPoolEntry (er_name row) elective_type credit_hours sections_count
              (er_can_use_theory row) (er_can_use_lab row) department eligible
              (type_min_students elective_type) (type_max_students elective_type)
              (type_priority elective_type)) pool,
         mkEStats (S (total_electives stats))
           (if decide (1 < length eligible) then S (cross_dept_electives stats)
            else cross_dept_electives stats))
  | _, _ => acc
  end.

(** [process_electives_data], over [core_files] in insertion order. *)
Definition process_electives_data (files : list ElectiveFile) (acc : Pool * EStats) : Pool * EStats :=
  foldl (fun acc f => match ef_electives f with
                      | None => acc
                      | Some rows => foldl (process_elective_row (ef_department f)) acc rows
                      end) acc files.

(** [_get_available_electives_for_student] (the semester is not used). *)
Definition available_electives (pool : Pool) (dept : string) (semester : Z) : list string :=
  map fst (filter (fun p => "ALL" ∈ pe_eligible_departments p.2 \/
                            dept ∈ pe_eligible_departments p.2) pool).

(** The rows of a file's [Electives] sheet ([] when the sheet is absent). *)
Definition file_rows (f : ElectiveFile) : list ElectiveRow := default [] (ef_electives f).

(** A row that [process_electives_data] stores: both [int()] succeed and
    the code is neither empty nor ["nan"]. *)
Definition row_stored (r : ElectiveRow) : bool :=
  match er_credit_hour r, er_sections_count r with
  | Some _, Some _ => bool_decide (er_code r <> "" /\ er_code r <> "nan")
  | _, _ => false
  end.

Definition count_rows (P : string -> ElectiveRow -> bool) (files : list ElectiveFile) : nat :=
  sum_list (map (fun f => length (filter (fun r => P (ef_department f) r = true) (file_rows f))) files).

(** ** Demand and sections ([analyze_demand], [create_elective_sections]) *)

(** An entry of [student_preferences[student_key]]. *)
Record Pref := mkPref {
  pr_code : string;
  pr_priority : Z;
  pr_department : string;
  pr_semester : Z
}.

Definition Prefs := list (string * list Pref).

(** A value of [demand_analysis]: [total], [by_priority], [by_dept]. *)
Record Demand := mkDemand {
  dm_total : nat;
  dm_by_priority : list (Z * nat);
  dm_by_dept : list (string * nat)
}.

(** The [defaultdict] factory. *)
Definition new_demand : Demand := mkDemand 0 [(1%Z, 0); (2%Z, 0); (3%Z, 0)] [].

(** The three [+= 1] of one preference; [by_priority[priority]] raises
    [KeyError] for a priority other than 1, 2 and 3. *)
Definition count_pref (da : list (string * Demand)) (p : Pref) : res (list (string * Demand)) :=
  let d := default new_demand (assoc_lookup (pr_code p) da) in
  match assoc_lookup (pr_priority p) (dm_by_priority d) with
  | None => Raise "KeyError"
  | Some n =>
      Ok (assoc_insert (pr_code p)
            (mkDemand (S (dm_total d))
               (assoc_insert (pr_priority p) (S n) (dm_by_priority d))
               (assoc_insert (pr_department p)
                  (S (default 0 (assoc_lookup (pr_department p) (dm_by_dept d))))
                  (dm_by_dept d))) da)
  end.

(** The top-ten listing: [electives_pool[elective_code]['name']] and
    [demand_data['by_priority'][1]] for each printed elective. *)
Definition print_top (pool : Pool) (item : string * Demand) : res unit :=
  match assoc_lookup item.1 pool with
  | None => Raise "KeyError"
  | Some _ =>
      match assoc_lookup 1%Z (dm_by_priority item.2) with
      | None => Raise "KeyError"
      | Some _ => Ok tt
      end
  end.

(** [analyze_demand] *)
Definition analyze_demand (pool : Pool) (prefs : Prefs) : res (list (string * Demand)) :=
  match rfold count_pref [] (concat (map snd prefs)) with
  | Raise e => Raise e
  | Ok da =>
      match rfold (fun _ item => print_top pool item) tt
              (take 10 (sorted_by_desc (fun it => dm_total it.2) da)) with
      | Raise e => Raise e
      | Ok _ => Ok da
      end
  end.

(** A section of [elective_sections[elective_code]]. *)
Record ESection := mkESection {
  es_key : string;
  es_capacity : nat;
  es_enrolled : nat;
  es_department_mix : list (string * nat)
}.

Definition elective_section_key (code : string) (section_num : nat) : string :=
  "Elective_" ++ code ++ "_Sec" ++ pretty section_num.

(** [elective_sections[code].append(...)] on the [defaultdict(list)]. *)
Definition append_section (code : string) (x : ESection) (secs : list (string * list ESection))
    : list (string * list ESection) :=
  assoc_insert code (default [] (assoc_lookup code secs) ++ [x])%list secs.

(** One elective of [create_elective_sections]; [math.ceil] of a zero
    [max_students] raises [ZeroDivisionError]. The pair is
    [(elective_sections, stats['sections_created'])]. *)
Definition create_for (pool : Pool) (acc : list (string * list ESection) * nat)
    (item : string * Demand) : res (list (string * list ESection) * nat) :=
  let '(code, demand_data) := item in
  match assoc_lookup code pool with
  | None => Ok acc
  | Some info =>
      let total_demand := dm_total demand_data in
      if Nat.ltb total_demand (pe_min_students info) then Ok acc
      else
        let max_per_section := pe_max_students info in
        if decide (max_per_section = 0) then Raise "ZeroDivisionError"
        else
          let sections_needed := ceil_div total_demand max_per_section in
          Ok (foldl (fun acc section_num =>
                       (append_section code
                          (mkESection (elective_section_key code section_num) max_per_section 0
                             (dm_by_dept demand_data)) acc.1, S acc.2))
                    acc (seq 1 sections_needed))
  end.

(** [create_elective_sections] *)
Definition create_elective_sections (pool : Pool) (demand : list (string * Demand))
    (acc : list (string * list ESection) * nat) : res (list (string * list ESection) * nat) :=
  rfold (create_for pool) acc demand.

(** [{'high': 1, 'medium': 2, 'low': 3}.get(priority, 3)] *)
Definition priority_rank (p : string) : nat :=
  if decide (p = "high") then 1 else if decide (p = "medium") then 2 else 3.

(** The elective record the scheduling loop reads from a pool entry. *)
Definition pool_elective (code : string) (e : PoolEntry) : Elective :=
  mkElective code (pe_name e) (pe_type e) (Z.to_nat (pe_credit_hours e)) (pe_can_use_lab e).

(** The loop header of [schedule_elective_sections]: the pool sorted by
    priority, skipping electives without sections, each with its
    section keys. *)
Definition elective_schedule_items (pool : Pool) (secs : list (string * list ESection))
    : list (Elective * list string) :=
  omap (fun p => ss ← assoc_lookup p.1 secs; Some (pool_elective p.1 p.2, map es_key ss))
       (sorted_by (fun p => priority_rank (pe_priority p.2)) pool).

(** A data row of [_generate_capacity_report] (the utilization column,
    [demand / total_capacity * 100] formatted, is left out). *)
Record CapacityLine := mkCapacityLine {
  cl_code : string;
  cl_name : string;
  cl_demand : nat;
  cl_sections : nat;
  cl_total_capacity : nat
}.

Definition pref_count (prefs : Prefs) (code : string) : nat :=
  length (filter (fun p => pr_code p = code) (concat (map snd prefs))).

(** The data rows of [_generate_capacity_report]. *)
Definition capacity_report (pool : Pool) (secs : list (string * list ESection)) (prefs : Prefs)
    : list CapacityLine :=
  map (fun p => let sections := default [] (assoc_lookup p.1 secs) in
                mkCapacityLine p.1 (pe_name p.2) (pref_count prefs p.1) (length sections)
                  (sum_list (map es_capacity sections))) pool.

(** ** Choice analysis ([_generate_choice_analysis]) *)

(** [next((p for p in preferences if p['priority'] == q), None)] *)
Fixpoint find_priority (q : Z) (ps : list Pref) : option Pref :=
  match ps with
  | [] => None
  | p :: ps' => if decide (pr_priority p = q) then Some p else find_priority q ps'
  end.

(** [choice and choice['elective_code'] in self.elective_sections] *)
Definition choice_has_sections (secs : list (string * list ESection)) (choice : option Pref) : bool :=
  match choice with
  | Some p => bool_decide (pr_code p ∈ map fst secs)
  | None => false
  end.

(** One student of the inner loop, on [(first, second, none)]. *)
Definition choice_step (prefs : Prefs) (secs : list (string * list ESection))
    (acc : nat * nat * nat) (student_key : string) : nat * nat * nat :=
  let '(first, second, none) := acc in
  let preferences := default [] (assoc_lookup student_key prefs) in
  match preferences with
  | [] => (first, second, S none)
  | _ =>
      if choice_has_sections secs (find_priority 1%Z preferences) then (S first, second, none)
      else if choice_has_sections secs (find_priority 2%Z preferences) then (first, S second, none)
      else (first, second, S none)
  end.

Definition CHOICE_DEPARTMENTS : list string := ["CS"; "SE"; "AI"; "DS"; "INFS"; "CB"].

(** A data row of the choice analysis. *)
Record ChoiceLine := mkChoiceLine {
  ch_department : string;
  ch_total : nat;
  ch_first : nat;
  ch_second : nat;
  ch_none : nat
}.

(** The data rows of [_generate_choice_analysis]; [dept in key] is a
    substring test on the student key. *)
Definition choice_analysis (prefs : Prefs) (secs : list (string * list ESection)) : list ChoiceLine :=
  map (fun dept =>
         let dept_students := filter (fun key => py_contains dept key = true) (map fst prefs) in
         let '(first, second, none) := foldl (choice_step prefs secs) (0, 0, 0) dept_students in
         mkChoiceLine dept (length dept_students) first second none) CHOICE_DEPARTMENTS.

(** ** Department names ([_extract_department]) *)

(** [str.upper()] on ASCII text. *)
Fixpoint py_upper (s : string) : string :=
  match s with
  | String a s' =>
      let n := nat_of_ascii a in
      String (if Nat.leb 97 n && Nat.leb n 122 then ascii_of_nat (n - 32) else a) (py_upper s')
  | EmptyString => EmptyString
  end.

(** [s.replace(old, new)] for a non-empty [old]: occurrences replaced left
    to right; [skip] counts the characters left of a replaced match. *)
Fixpoint replace_go (old new : string) (skip : nat) (s : string) : string :=
  match s with
  | EmptyString => EmptyString
  | String a s' =>
      match skip with
      | S k => replace_go old new k s'
      | O => if String.prefix old s then new ++ replace_go old new (String.length old - 1) s'
             else String a (replace_go old new 0 s')
      end
  end.
Definition py_replace (old new s : string) : string := replace_go old new 0 s.

(** [s.rfind('.')] *)
Fixpoint rfind_dot (s : string) : option nat :=
  match s with
  | EmptyString => None
  | String a s' =>
      match rfind_dot s' with
      | Some i => Some (S i)
      | None => if Ascii.eqb a "." then Some 0 else None
      end
  end.

(** [Path(name).stem] of a file name without a directory part: the name
    without its last suffix, a dot that starts or ends the name not
    counting as one. *)
Definition path_stem (name : string) : string :=
  match rfind_dot name with
  | Some i => if Nat.ltb 0 i && Nat.ltb i (String.length name - 1) then String.substring 0 i name else name
  | None => name
  end.

(** The name normalisation shared by both [_extract_department]s. *)
Definition dept_normalize (name : string) : string :=
  py_replace "." "" (py_replace "_4.2" "" (py_replace " " "" name)).

(** [TimetableGenerator._extract_department] *)
Definition core_extract_department (filename : string) : string :=
  let name := py_upper (path_stem filename) in
  if py_contains "COHORT" name then
    match py_split "_" name with
    | _ :: p1 :: _ => p1
    | _ => "UNKNOWN"
    end
  else
    let name := dept_normalize name in
    if decide (name = "BSCB") then "CB"
    else if decide (name = "BSCS") then "CS"
    else if decide (name = "BSINFS") then "INFS"
    else if decide (name = "BSSE") then "SE"
    else if decide (name = "BSAI42") then "AI"
    else if decide (name = "BSAI") then "AI"
    else if decide (name = "BSDS42") then "DS"
    else if decide (name = "BSDS") then "DS"
    else name.

(** [ElectivesManager._extract_department] *)
Definition electives_extract_department (filename : string) : string :=
  let name := dept_normalize (py_upper (path_stem filename)) in
  if decide (name = "BSCB") then "CB"
  else if decide (name = "BSCS") then "CS"
  else if decide (name = "BSINFS") then "INFS"
  else if decide (name = "BSSE") then "SE"
  else if decide (name = "BSAI") then "AI"
  else if decide (name = "BSDS") then "DS"
  else name.

(** ** Invariants of the electives data *)

(** What [process_electives_data] keeps true of [electives_pool]. *)
Definition pool_ok (pool : Pool) : Prop :=
  NoDup (map fst pool) /\
  Forall (fun p => p.1 <> "" /\ p.1 <> "nan" /\
    ("ALL" ∈ pe_eligible_departments p.2 \/ pe_source_department p.2 ∈ pe_eligible_departments p.2) /\
    0 < pe_min_students p.2 /\ 0 < pe_max_students p.2) pool.

(** What the counting loop of [analyze_demand] keeps true of
    [demand_analysis] after the preferences [ps]. *)
Definition demand_inv (da : list (string * Demand)) (ps : list Pref) : Prop :=
  NoDup (map fst da) /\
  forall code,
    (is_Some (assoc_lookup code da) <-> exists p, p ∈ ps /\ pr_code p = code) /\
    let d := default new_demand (assoc_lookup code da) in
    dm_total d = length (filter (fun p => pr_code p = code) ps) /\
    map fst (dm_by_priority d) = [1%Z; 2%Z; 3%Z] /\
    (forall q, q ∈ [1%Z; 2%Z; 3%Z] ->
       assoc_lookup q (dm_by_priority d) =
       Some (length (filter (fun p => pr_code p = code /\ pr_priority p = q) ps))) /\
    (forall dept, default 0 (assoc_lookup dept (dm_by_dept d)) =
       length (filter (fun p => pr_code p = code /\ pr_department p = dept) ps)).

(** The sections [create_for] builds for one item of [demand_analysis]. *)
Definition sections_of (pool : Pool) (item : string * Demand) : list ESection :=
  match assoc_lookup item.1 pool with
  | None => []
  | Some info =>
      if Nat.ltb (dm_total item.2) (pe_min_students info) then []
      else map (fun i => mkESection (elective_section_key item.1 i) (pe_max_students info) 0
                           (dm_by_dept item.2))
               (seq 1 (ceil_div (dm_total item.2) (pe_max_students info)))
  end.

(** UTF-8 decoding of one character. *)
Definition byte_val (a : ascii) : Z := Z.of_N (N_of_ascii a).
Definition utf8_decode (s : string) : Z :=
  match s with
  | String a EmptyString => byte_val a
  | String a (String b EmptyString) => (byte_val a - 192) * 64 + (byte_val b - 128)
  | String a (String b (String c EmptyString)) =>
      (byte_val a - 224) * 4096 + (byte_val b - 128) * 64 + (byte_val c - 128)
  | String a (String b (String c (String d EmptyString))) =>
      (byte_val a - 240) * 262144 + (byte_val b - 128) * 4096
        + (byte_val c - 128) * 64 + (byte_val d - 128)
  | _ => 0
  end.

(** * Relations between engine states *)

Section Relations.
Context {G : Type}.

(** The fields the placement decisions read and write, apart from the
    generator and the room ledger. *)
Definition same_core (st st' : St (G := G)) : Prop :=
  rooms st' = rooms st /\ timetables st' = timetables st /\
  daily_counts st' = daily_counts st /\ lecture_counts st' = lecture_counts st /\
  placed st' = placed st /\ failed st' = failed st /\ cohort st' = cohort st /\
  log st' = log st.

Definition available (st : St (G := G)) (code : string) (is_lab : bool) (day slot : string) :=
  filter (fun r => r ∉ booked st day slot) (room_pool (rooms st) code is_lab).

Definition width (is_lab : bool) : nat := if is_lab then 2 else 1.

(** The relations preserved by elastic placement. *)
Definition cells_kept (st st' : St (G := G)) : Prop :=
  forall k v, timetables st !! k = Some v -> timetables st' !! k = Some v.

Definition daily_capped (st st' : St (G := G)) : Prop :=
  forall s d, daily st' s d <= Nat.max MAX_CLASSES_PER_DAY (daily st s d).

Definition course_cells (sec code : string) (is_lab : bool) (needed : nat)
    (st st' : St (G := G)) : Prop :=
  occupied (timetables st') sec =
    occupied (timetables st) sec + width is_lab * (lectures st' sec code - lectures st sec code) /\
  lectures st sec code <= lectures st' sec code /\
  lectures st' sec code <= Nat.max needed (lectures st sec code).

End Relations.

(** The room sets [setup_rooms] builds before listing them. *)
Definition room_sets (files : list CoreFile) : gset string * gset string :=
  let '(th, lb, _) := foldl add_file (∅, ∅, ∅) files in (th, lb).

(** * Concrete scenarios *)

Definition sample_draws (n : nat) : nat := n * 7 + 3.
Definition rooms0 : Rooms := mkRooms ["T01"; "T02"] ["L01"] ∅.
Definition sec0 : string := "CS_S1_SecA".
Definition st0 : St (G := nat) := init_st rooms0 0.

Definition row0 : CohortRow := mkCohortRow sec0 "CS100" "Seminar" 40 [("Monday", "08:00-09:15")].
Definition row1 : CohortRow := mkCohortRow sec0 "CS200" "Colloquium" 30 [("Monday", "08:00-09:15")].
Definition seeded0 : St (G := nat) := schedule_cohort_courses [row0] st0.
(** One batch [CS_Sem1] whose only section is [sec0]. *)
Definition cap_files0 : list CapacityFile :=
  [mkCapacityFile "CS" (Some [mkCapacityRow (Some 1%Z) 40%Z])].
Definition bi0 : gmap string Batch := analyze_capacity cap_files0 ∅.
Definition courses0 : list Course :=
  [mkCourse "CS" (Some 1%Z) "CS101" "Programming" false (Some 3%Z);
   mkCourse "CS" (Some 1%Z) "CS101L" "Programming Lab" true (Some 2%Z)].

(** A section whose six days already hold four classes each. *)
Definition st_full : St (G := nat) :=
  mkSt rooms0 ∅ (list_to_map ((fun d => ((sec0, d), 4)) <$> DAYS)) ∅ ∅ 0 0 0 [] 0.

Definition five_monday_rows : list CohortRow :=
  map (fun '(c, slot) => mkCohortRow "Cohort_CS_S1_A" c c 40 [("Monday", slot)])
    [("CS101", "08:00-09:15"); ("CS102", "09:30-10:45"); ("CS103", "11:00-12:15");
     ("CS104", "12:30-01:45"); ("CS105", "02:00-03:15")].

(** Draws for the elective scenario: [Monday] for the first 103 draws,
    [Tuesday] afterwards. *)
Definition elective_draws (n : nat) : nat := if Nat.ltb n 103 then 0 else 1.
Definition free_elective : Elective := mkElective "FE101" "Free Elective" "Free" 3 false.
Definition est0 : ESt (G := nat) := mkESt ["T01"] ["L01"] ∅ 0.
Definition esec : string := "Elective_FE101_Sec1".

Definition files2 : list CoreFile := [mkCoreFile (Some [("T1", "Theory"); ("T2", "Theory")]) None].
Definition files1 : list CoreFile := [mkCoreFile (Some [("T1", "Theory")]) None].
Definition courses2 : list Course := [mkCourse "CS" (Some 1%Z) "CS101" "Programming" false (Some 1%Z)].
(** A row whose [times_needed] cell is empty, after a valid row. *)
Definition courses_nan : list Course :=
  [mkCourse "CS" (Some 1%Z) "CS101" "Programming" false (Some 1%Z);
   mkCourse "CS" (Some 1%Z) "CS102 " "Data Structures" false None].
(** A valid row after one whose semester cell is empty. *)
Definition courses_bad_sem : list Course :=
  [mkCourse "CS" None "CS100" "Seminar" false (Some 1%Z);
   mkCourse "CS" (Some 1%Z) "CS101" "Programming" false (Some 1%Z)].
Definition reversed_listing (X : gset string) : list string := reverse (elements X).

(** A [StudentCapacity] sheet with 120 CS students in semester 5. *)
Definition cap_files_w : list CapacityFile :=
  [mkCapacityFile "CS" (Some [mkCapacityRow (Some 5%Z) 120%Z])].
Definition batch_w : Batch :=
  mkBatch "CS" 5 120 3 ["CS_S5_SecA"; "CS_S5_SecB"; "CS_S5_SecC"].

(** Two technical CS electives; 25 students take CS401 first, the first
    five of them CS402 second. *)
Definition elective_files_w : list ElectiveFile :=
  [mkElectiveFile "CS"
     (Some [mkElectiveRow "CS401" "Machine Learning" "Technical" (Some 3%Z) (Some 2%Z) true false;
            mkElectiveRow "CS402" "Compiler Construction" "Technical" (Some 3%Z) (Some 1%Z) true false])].
Definition stats_w : EStats := mkEStats 0 0.
Definition pool_w : Pool := fst (process_electives_data elective_files_w ([], stats_w)).
Definition prefs_w : Prefs :=
  map (fun i => ("CS_S5_ST" ++ pretty i,
                 if Nat.ltb i 1005 then [mkPref "CS401" 1 "CS" 5; mkPref "CS402" 2 "CS" 5]
                 else [mkPref "CS401" 1 "CS" 5]))
      (seq 1000 25).
Definition da_w : list (string * Demand) :=
  Eval vm_compute in match analyze_demand pool_w prefs_w with Ok da => da | Raise _ => [] end.
Definition created_w : list (string * list ESection) * nat :=
  Eval vm_compute in
    match create_elective_sections pool_w da_w ([], 0) with Ok r => r | Raise _ => ([], 0) end.

(** A preference with priority 4. *)
Definition bad_pref_w : Pref := mkPref "CS401" 4 "CS" 5.
Definition bad_prefs_w : Prefs := [("CS_S5_ST1000", [bad_pref_w])].

(** * Operational lemmas *)

Lemma bind_ok {S A B} (m : M S A) (f : A -> M S B) st a st' :
  m st = (Ok a, st') -> bind m f st = f a st'.
Proof. intros H. unfold bind. by rewrite H. Qed.

Lemma bind_raise {S A B} (m : M S A) (f : A -> M S B) st e st' :
  m st = (Raise e, st') -> bind m f st = (Raise e, st').
Proof. intros H. unfold bind. by rewrite H. Qed.

Section Lemmas.
Context {G : Type} `{RG : Random G}.

Lemma choice_ok {S A} `{HasRng S G} (l : list A) (st : S) :
  l <> [] -> exists x g, x ∈ l /\ choice l st = (Ok x, with_rng g st).
Proof.
  intros Hl. unfold choice. destruct l as [|a l']; [congruence|].
  pose proof (randbelow_lt (rng_of st) (length (a :: l'))) as Hlt.
  destruct (randbelow (rng_of st) (length (a :: l'))) as [k g'] eqn:Hr.
  simpl in Hlt. specialize (Hlt ltac:(lia)).
  destruct ((a :: l') !! k) as [x|] eqn:Hk.
  - exists x, g'. split; [|reflexivity]. by eapply list_elem_of_lookup_2.
  - apply lookup_ge_None in Hk. simpl in Hk. lia.
Qed.

#[local] Instance same_core_preorder : PreOrder (same_core (G := G)).
Proof.
  split.
  - intros st. repeat split.
  - intros a b c (?&?&?&?&?&?&?&?) (?&?&?&?&?&?&?&?). repeat split; congruence.
Qed.

Lemma same_core_set_rng (g : G) (st : St (G := G)) : same_core st (set_rng g st).
Proof. repeat split. Qed.

Lemma same_core_book d s r (st : St (G := G)) : same_core st (book d s r st).
Proof. repeat split. Qed.

Lemma can_place_same_core (st st' : St (G := G)) sec code day slots n :
  same_core st st' ->
  can_place_course st' sec code day slots n = can_place_course st sec code day slots n.
Proof.
  intros (_&Ht&Hd&Hl&_). unfold can_place_course, lectures, daily, cell.
  by rewrite Ht, Hd, Hl.
Qed.

(** The three outcomes of [_get_room]. *)
Lemma get_room_cases code is_lab day slot (st : St (G := G)) :
  let pool := room_pool (rooms st) code is_lab in
  (exists room g, available st code is_lab day slot <> [] /\
     room ∈ available st code is_lab day slot /\
     get_room code is_lab day slot st = (Ok room, book day slot room (set_rng g st))) \/
  (exists room g, available st code is_lab day slot = [] /\ room ∈ pool /\
     get_room code is_lab day slot st = (Ok (room ++ "*"), set_rng g st)) \/
  (pool = [] /\ get_room code is_lab day slot st = (Raise "IndexError", st)).
Proof.
  cbv zeta.
  assert (Hu : get_room code is_lab day slot st =
    (match available st code is_lab day slot with
     | _ :: _ => (room <- choice (available st code is_lab day slot) ;;
                  modify (book day slot room) ;;; ret room)
     | [] => (room <- choice (room_pool (rooms st) code is_lab) ;; ret (room ++ "*"))
     end) st) by reflexivity.
  rewrite Hu. clear Hu.
  destruct (available st code is_lab day slot) as [|a av] eqn:Hav.
  - destruct (room_pool (rooms st) code is_lab) as [|p ps] eqn:Hp.
    + right; right. split; reflexivity.
    + right; left. destruct (choice_ok (p :: ps) st) as (x & g & Hx & Hc); [done|].
      exists x, g. split; [done|]. split; [done|]. unfold bind. by rewrite Hc.
  - left. destruct (choice_ok (a :: av) st) as (x & g & Hx & Hc); [done|].
    exists x, g. split; [done|]. split; [done|]. unfold bind. rewrite Hc. reflexivity.
Qed.

Lemma get_room_same_core code is_lab day slot (st : St (G := G)) :
  same_core st (snd (get_room code is_lab day slot st)).
Proof.
  destruct (get_room_cases code is_lab day slot st)
    as [(r & g & _ & _ & ->)|[(r & g & _ & _ & ->)|(_ & ->)]]; simpl.
  - etransitivity; [apply (same_core_set_rng g)|apply same_core_book].
  - apply same_core_set_rng.
  - reflexivity.
Qed.

(** The outcomes of the retry loop of one lecture index: no commit
    (grid, counters, statistics and ledger untouched), or one commit of
    a feasible candidate drawn from the candidate space. *)
Lemma place_attempts_cases n sec code name is_lab needed lnum (st : St (G := G)) :
  let '(r, st') := place_attempts n sec code name is_lab needed lnum st in
  (r <> Ok true /\ same_core st st' /\ (r = Ok false -> room_bookings st' = room_bookings st)) \/
  (r = Ok true /\ exists day slots room st1,
     day ∈ DAYS /\ slots ∈ time_options is_lab /\
     can_place_course st1 sec code day slots needed = true /\ same_core st st1 /\
     st' = incr_placed (place_course sec code name day slots room lnum needed st1)).
Proof.
  revert st. induction n as [|n IH]; intros st.
  { left. split; [congruence|]. split; [reflexivity|done]. }
  change (place_attempts (S n) sec code name is_lab needed lnum st) with
    ((day <- choice DAYS ;;
      time_slots <- choice (time_options is_lab) ;;
      st <- get ;;
      if can_place_course st sec code day time_slots needed then
        room <- get_room code is_lab day (py_idx time_slots 0) ;;
        modify (place_course sec code name day time_slots room lnum needed) ;;;
        modify incr_placed ;;;
        ret true
      else place_attempts n sec code name is_lab needed lnum) st).
  destruct (choice_ok DAYS st) as (day & g1 & Hday & Hc1); [done|].
  rewrite (bind_ok _ _ _ _ _ Hc1).
  destruct (choice_ok (time_options is_lab) (with_rng g1 st)) as (slots & g2 & Hslots & Hc2);
    [by destruct is_lab|].
  rewrite (bind_ok _ _ _ _ _ Hc2).
  set (st2 := with_rng g2 (with_rng g1 st)).
  assert (Hst2 : same_core st st2).
  { etransitivity; [apply (same_core_set_rng g1)|apply (same_core_set_rng g2)]. }
  rewrite (bind_ok get _ st2 st2 st2) by reflexivity.
  destruct (can_place_course st2 sec code day slots needed) eqn:Hcan.
  - pose proof (get_room_same_core code is_lab day (py_idx slots 0) st2) as Hgr.
    destruct (get_room code is_lab day (py_idx slots 0) st2) as [[room|e] st3] eqn:Hg.
    + rewrite (bind_ok _ _ _ _ _ Hg). simpl.
      right. split; [reflexivity|]. exists day, slots, room, st3.
      simpl in Hgr. split; [done|]. split; [done|].
      split; [by rewrite (can_place_same_core st2 st3)|].
      split; [by etransitivity|reflexivity].
    + rewrite (bind_raise _ _ _ _ _ Hg).
      left. split; [congruence|]. split; [by etransitivity|congruence].
  - specialize (IH st2).
    destruct (place_attempts n sec code name is_lab needed lnum st2) as [r st'].
    destruct IH as [(Hr & Hc & Hb)|(Hr & day' & slots' & room & st1 & H1 & H2 & H3 & H4 & H5)].
    + left. split; [done|]. split; [by etransitivity|].
      intros Hf. rewrite Hb by done. reflexivity.
    + right. split; [done|]. exists day', slots', room, st1.
      split; [exact H1|]. split; [exact H2|]. split; [exact H3|].
      split; [etransitivity; eassumption|exact H5].
Qed.

(** ** Grid cells *)

Lemma write_cells_lookup_ne sec day info slots tt k :
  (forall x, x ∈ slots -> k <> (sec, x, day)) ->
  write_cells sec day info slots tt !! k = tt !! k.
Proof.
  unfold write_cells. revert tt. induction slots as [|x xs IH]; intros tt Hk; simpl; [done|].
  rewrite IH.
  - apply lookup_insert_ne. intros Heq. apply (Hk x); [by left|done].
  - intros y Hy. apply Hk. by right.
Qed.

Lemma write_cells_lookup_in sec day info slots tt x :
  x ∈ slots -> write_cells sec day info slots tt !! (sec, x, day) = Some info.
Proof.
  unfold write_cells. revert tt. induction slots as [|y ys IH]; intros tt Hx; simpl.
  - by apply elem_of_nil in Hx.
  - destruct (decide (x ∈ ys)) as [Hin|Hnin]; [by apply IH|].
    apply elem_of_cons in Hx as [->|Hx]; [|done].
    fold (write_cells sec day info ys (<[(sec, y, day):=info]> tt)).
    rewrite write_cells_lookup_ne.
    + apply lookup_insert_eq.
    + intros z Hz Heq. simplify_eq. done.
Qed.

Lemma count_flip {A} `{EqDecision A} (L : list A) (f g : A -> bool) (k : A) :
  NoDup L -> k ∈ L -> f k = false -> g k = true ->
  (forall x, x <> k -> g x = f x) ->
  length (List.filter g L) = S (length (List.filter f L)).
Proof.
  intros Hnd Hk Hf Hg Hfg. induction L as [|y ys IH]; [by apply elem_of_nil in Hk|].
  apply NoDup_cons in Hnd as [Hy Hnd]. simpl.
  destruct (decide (y = k)) as [->|Hne].
  - rewrite Hf, Hg. simpl. f_equal.
    clear IH Hk. induction ys as [|z zs IHz]; [done|]. simpl.
    apply not_elem_of_cons in Hy as [Hz Hy]. apply NoDup_cons in Hnd as [_ Hnd].
    rewrite Hfg by congruence. destruct (f z); simpl; auto.
  - apply elem_of_cons in Hk as [Hk|Hk]; [congruence|].
    rewrite Hfg by done. destruct (f y); simpl; auto.
Qed.

Lemma grid_cells_NoDup : NoDup grid_cells.
Proof. apply (bool_decide_unpack _). vm_compute. reflexivity. Qed.

Lemma occupied_insert (tt : gmap (string * string * string) string) sec slot day v :
  (slot, day) ∈ grid_cells -> tt !! (sec, slot, day) = None ->
  occupied (<[(sec, slot, day) := v]> tt) sec = S (occupied tt sec).
Proof.
  intros Hin Hnone. unfold occupied.
  apply (count_flip _ _ _ (slot, day)); [apply grid_cells_NoDup|done| | |].
  - simpl. rewrite Hnone. by apply bool_decide_eq_false.
  - simpl. rewrite lookup_insert_eq. by apply bool_decide_eq_true.
  - intros [x y] Hne. simpl. rewrite lookup_insert_ne; [done|congruence].
Qed.

Lemma occupied_insert_other (tt : gmap (string * string * string) string) sec sec' slot day v :
  sec' <> sec -> occupied (<[(sec', slot, day) := v]> tt) sec = occupied tt sec.
Proof.
  intros Hne. unfold occupied. f_equal. apply List.filter_ext. intros [x y].
  rewrite lookup_insert_ne; [done|congruence].
Qed.

Lemma occupied_write_cells (tt : gmap (string * string * string) string) sec day info slots :
  NoDup slots ->
  (forall x, x ∈ slots -> (x, day) ∈ grid_cells /\ tt !! (sec, x, day) = None) ->
  occupied (write_cells sec day info slots tt) sec = occupied tt sec + length slots.
Proof.
  revert tt. induction slots as [|x xs IH]; intros tt Hnd Hx; [simpl; lia|].
  apply NoDup_cons in Hnd as [Hxs Hnd].
  change (write_cells sec day info (x :: xs) tt)
    with (write_cells sec day info xs (<[(sec, x, day):=info]> tt)). simpl length.
  rewrite IH; [|done|].
  - destruct (Hx x ltac:(by left)) as [Hg Hn]. rewrite occupied_insert; [lia|done|done].
  - intros y Hy. destruct (Hx y ltac:(by right)) as [Hg Hn]. split; [done|].
    rewrite lookup_insert_ne; [done|]. intros Heq. simplify_eq. done.
Qed.

(** ** Feasibility and candidate space *)

Lemma can_place_true (st : St (G := G)) sec code day slots needed :
  can_place_course st sec code day slots needed = true ->
  lectures st sec code < needed /\ daily st sec day < MAX_CLASSES_PER_DAY /\
  forall x, x ∈ slots -> cell st sec x day = None.
Proof.
  unfold can_place_course.
  destruct (decide (needed <= lectures st sec code)); [done|].
  destruct (decide (MAX_CLASSES_PER_DAY <= daily st sec day)); [done|].
  intros Hall. split; [lia|]. split; [lia|].
  intros x Hx. apply forallb_forall with (x := x) in Hall; [|by apply list_elem_of_In].
  by apply bool_decide_eq_true in Hall.
Qed.

Lemma time_options_shape is_lab slots :
  slots ∈ time_options is_lab ->
  length slots = width is_lab /\ NoDup slots /\ Forall (fun x => x ∈ TIME_SLOTS) slots.
Proof.
  intros H. destruct is_lab; simpl in H;
    repeat (apply elem_of_cons in H as [->|H]; [split; [reflexivity|split; apply (bool_decide_unpack _); vm_compute; reflexivity]|]);
    by apply elem_of_nil in H.
Qed.

Lemma in_grid_cells slot day : slot ∈ TIME_SLOTS -> day ∈ DAYS -> (slot, day) ∈ grid_cells.
Proof.
  intros Hs Hd. unfold grid_cells. apply list_elem_of_In, in_prod; by apply list_elem_of_In.
Qed.

(** ** Invariants of the scheduling loops *)

Section Invariant.
Variable R : St (G := G) -> St (G := G) -> Prop.
Context `{PreOrder _ R}.

Lemma lectures_loop_pres nums sec code name is_lab needed :
  (forall st, R st (incr_failed st)) ->
  (forall lnum st, R st (snd (place_attempts ATTEMPTS sec code name is_lab needed lnum st))) ->
  forall st, R st (snd (lectures_loop nums sec code name is_lab needed st)).
Proof.
  intros Hf Hp. induction nums as [|l rest IH]; intros st; simpl; [reflexivity|].
  specialize (Hp l st).
  destruct (place_attempts ATTEMPTS sec code name is_lab needed l st) as [[ok|e] st1] eqn:Hpa.
  - rewrite (bind_ok _ _ _ _ _ Hpa). simpl in Hp. destruct ok.
    + rewrite (bind_ok (ret tt) _ st1 tt st1) by reflexivity. etransitivity; [exact Hp|apply IH].
    + rewrite (bind_ok (modify incr_failed) _ st1 tt (incr_failed st1)) by reflexivity.
      etransitivity; [exact Hp|]. etransitivity; [apply Hf|apply IH].
  - rewrite (bind_raise _ _ _ _ _ Hpa). exact Hp.
Qed.

Lemma place_sections_pres :
  (forall sec code name is_lab needed st,
     R st (snd (place_course_lectures sec code name is_lab needed st))) ->
  forall secs code name is_lab needed st,
    R st (snd (place_sections secs code name is_lab needed st)).
Proof.
  intros Hp secs code name is_lab needed.
  induction secs as [|sec secs IHs]; intros st1; simpl; [reflexivity|].
  specialize (Hp sec code name is_lab needed st1).
  unfold bind at 1.
  destruct (place_course_lectures sec code name is_lab needed st1)
    as [[[]|e] st2]; simpl in Hp; [|exact Hp].
  etransitivity; [exact Hp|apply IHs].
Qed.

Lemma schedule_core_courses_pres :
  (forall m st, R st (add_log m st)) ->
  (forall sec code name is_lab needed st,
     R st (snd (place_course_lectures sec code name is_lab needed st))) ->
  forall bi cs st, R st (snd (schedule_core_courses bi cs st)).
Proof.
  intros Hl Hp bi cs. induction cs as [|c cs IH]; intros st; simpl; [reflexivity|].
  assert (Hc : forall st, R st (snd (schedule_single_course bi c st))).
  { intros st0. unfold schedule_single_course.
    destruct (c_semester c) as [semester|]; [|reflexivity].
    unfold catch.
    assert (Hb : R st0 (snd (course_body bi c semester st0))).
    { unfold course_body. destruct (c_needed c); [|reflexivity].
      case_decide; [reflexivity|].
      destruct (bi !! _); [apply place_sections_pres; exact Hp|reflexivity]. }
    destruct (course_body bi c semester st0) as [[[]|e] st1]; simpl in Hb |- *; [exact Hb|].
    etransitivity; [exact Hb|apply Hl]. }
  specialize (Hc st). unfold bind at 1.
  destruct (schedule_single_course bi c st) as [[[]|e] st1]; simpl in Hc |- *; [|exact Hc].
  etransitivity; [exact Hc|apply IH].
Qed.

Lemma place_attempts_pres n sec code name is_lab needed lnum :
  (forall st st', same_core st st' -> R st st') ->
  (forall st st1 day slots room,
     day ∈ DAYS -> slots ∈ time_options is_lab ->
     can_place_course st1 sec code day slots needed = true -> same_core st st1 ->
     R st (incr_placed (place_course sec code name day slots room lnum needed st1))) ->
  forall st, R st (snd (place_attempts n sec code name is_lab needed lnum st)).
Proof.
  intros Hsame Hcommit st.
  pose proof (place_attempts_cases n sec code name is_lab needed lnum st) as Hc.
  destruct (place_attempts n sec code name is_lab needed lnum st) as [r st'].
  destruct Hc as [(_ & Hc & _)|(_ & day & slots & room & st1 & H1 & H2 & H3 & H4 & ->)].
  - by apply Hsame.
  - by apply Hcommit.
Qed.

Lemma schedule_core_courses_pres' :
  (forall st st', same_core st st' -> R st st') ->
  (forall m st, R st (add_log m st)) ->
  (forall st, R st (incr_failed st)) ->
  (forall st st1 sec code name is_lab needed lnum day slots room,
     day ∈ DAYS -> slots ∈ time_options is_lab ->
     can_place_course st1 sec code day slots needed = true -> same_core st st1 ->
     R st (incr_placed (place_course sec code name day slots room lnum needed st1))) ->
  forall bi cs st, R st (snd (schedule_core_courses bi cs st)).
Proof.
  intros Hsame Hlog Hfail Hcommit.
  apply schedule_core_courses_pres; [done|].
  intros sec code name is_lab needed st. unfold place_course_lectures.
  apply lectures_loop_pres; [done|]. intros lnum st0.
  apply place_attempts_pres; [done|]. intros. by eapply Hcommit.
Qed.
End Invariant.
End Lemmas.

Section CoreClaims.
Context {G : Type} `{RG : Random G}.

#[local] Instance cells_kept_preorder : PreOrder (cells_kept (G := G)).
Proof. split; [intros st k v H; exact H|intros a b c H1 H2 k v H; auto]. Qed.

#[local] Instance daily_capped_preorder : PreOrder (daily_capped (G := G)).
Proof.
  split; [intros st s d; lia|].
  intros a b c H1 H2 s d. specialize (H1 s d). specialize (H2 s d). lia.
Qed.

#[local] Instance course_cells_preorder sec code is_lab needed :
  PreOrder (course_cells (G := G) sec code is_lab needed).
Proof.
  split; [intros st; unfold course_cells; split; [lia|lia]|].
  intros a b c (H1 & H2 & H3) (H4 & H5 & H6). unfold course_cells.
  rewrite H4, H1. split; [|lia].
  assert (lectures c sec code - lectures a sec code =
          (lectures b sec code - lectures a sec code) +
          (lectures c sec code - lectures b sec code)) as -> by lia.
  lia.
Qed.

Lemma lectures_place_course sec code name day slots room lnum needed (st : St (G := G)) s c :
  lectures (place_course sec code name day slots room lnum needed st) s c =
  if decide ((s, c) = (sec, code)) then S (lectures st sec code) else lectures st s c.
Proof.
  unfold lectures at 1. simpl. case_decide as Hsc.
  - rewrite Hsc, lookup_insert_eq. reflexivity.
  - rewrite lookup_insert_ne; [reflexivity|congruence].
Qed.

Lemma daily_place_course sec code name day slots room lnum needed (st : St (G := G)) s d :
  daily (place_course sec code name day slots room lnum needed st) s d =
  if decide ((s, d) = (sec, day)) then S (daily st sec day) else daily st s d.
Proof.
  unfold daily at 1. simpl. case_decide as Hsd.
  - rewrite Hsd, lookup_insert_eq. reflexivity.
  - rewrite lookup_insert_ne; [reflexivity|congruence].
Qed.

Lemma same_core_lectures (st st' : St (G := G)) s c :
  same_core st st' -> lectures st' s c = lectures st s c.
Proof. intros (_&_&_&Hl&_). unfold lectures. by rewrite Hl. Qed.

Lemma same_core_daily (st st' : St (G := G)) s d :
  same_core st st' -> daily st' s d = daily st s d.
Proof. intros (_&_&Hd&_). unfold daily. by rewrite Hd. Qed.

(** Claim C1: elastic placement never changes a grid cell that is
    non-empty, whether the cohort seeder or an earlier elastic placement
    wrote it. Per occurrence: from any engine state (in particular one
    reached inside a scheduling call, after earlier lecture indices of
    the same or of other courses were placed), one lecture occurrence
    ([place_attempts]: its attempts and its commit) keeps every non-empty
    cell, since a commit only happens on a candidate whose slots are all
    empty. Over a whole call on any sequence of courses as well. *)
Theorem elastic_never_overwrites bi (cs : list Course) (st : St (G := G)) k v :
  timetables st !! k = Some v ->
  (forall n sec code name is_lab needed lnum,
     timetables (snd (place_attempts n sec code name is_lab needed lnum st)) !! k = Some v) /\
  timetables (snd (schedule_core_courses bi cs st)) !! k = Some v.
Proof.
  assert (Hsame : forall a b : St (G := G), same_core a b -> cells_kept a b).
  { intros a b (_&Ht&_) k' v' H. by rewrite Ht. }
  assert (Hcommit : forall (a st1 : St (G := G)) sec code name is_lab needed lnum day slots room,
     day ∈ DAYS -> slots ∈ time_options is_lab ->
     can_place_course st1 sec code day slots needed = true -> same_core a st1 ->
     cells_kept a (incr_placed (place_course sec code name day slots room lnum needed st1))).
  { intros a st1 sec code name is_lab needed lnum day slots room _ _ Hcan (_&Ht&_) k' v' Hk.
    apply can_place_true in Hcan as (_ & _ & Hfree). simpl.
    rewrite write_cells_lookup_ne.
    + by rewrite Ht.
    + intros x Hx ->. specialize (Hfree x Hx). unfold cell in Hfree.
      rewrite Ht in Hfree. congruence. }
  intros Hk. split.
  - intros n sec code name is_lab needed lnum.
    revert k v Hk. change (cells_kept st (snd (place_attempts n sec code name is_lab needed lnum st))).
    apply (place_attempts_pres cells_kept); [exact Hsame|].
    intros. by eapply Hcommit.
  - revert k v Hk. change (cells_kept st (snd (schedule_core_courses bi cs st))).
    apply (schedule_core_courses_pres' cells_kept).
    + exact Hsame.
    + intros m a k' v' H. exact H.
    + intros a k' v' H. exact H.
    + intros. by eapply Hcommit.
Qed.

(** Claim C2 (amended): elastic placement never raises a daily count
    above [MAX_CLASSES_PER_DAY]: after any sequence of elastic
    placements, each count is at most the larger of 4 and its value
    before; a commit requires the count to be below 4. *)
Theorem elastic_daily_bound bi (cs : list Course) (st : St (G := G)) s d :
  daily (snd (schedule_core_courses bi cs st)) s d <= Nat.max MAX_CLASSES_PER_DAY (daily st s d).
Proof.
  revert s d. change (daily_capped st (snd (schedule_core_courses bi cs st))).
  apply (schedule_core_courses_pres' daily_capped).
  - intros a b Hs s d. rewrite (same_core_daily a b) by done. lia.
  - intros m a s d. unfold daily. simpl. lia.
  - intros a s d. unfold daily. simpl. lia.
  - intros a st1 sec code name is_lab needed lnum day slots room _ _ Hcan Hs s d.
    apply can_place_true in Hcan as (_ & Hday & _).
    assert (Hip : forall x : St (G := G), daily (incr_placed x) s d = daily x s d) by reflexivity.
    rewrite Hip, daily_place_course. case_decide as Hsd.
    + injection Hsd as -> ->. rewrite (same_core_daily a st1) in Hday |- * by done.
      unfold MAX_CLASSES_PER_DAY in *. lia.
    + rewrite (same_core_daily a st1) by done. lia.
Qed.

(** Claim C3 (amended): one elastic call for course [code] in section
    [sec] with target [needed] never takes the lecture counter above
    [needed] (when it starts at or below it), and every occurrence
    fills exactly [width is_lab] empty cells of the section (one, or
    two for a lab), so a lab course may occupy up to twice [needed]
    cells. *)
Theorem elastic_course_cells sec code name is_lab needed (st : St (G := G)) :
  let st' := snd (place_course_lectures sec code name is_lab needed st) in
  occupied (timetables st') sec =
    occupied (timetables st) sec + width is_lab * (lectures st' sec code - lectures st sec code) /\
  lectures st sec code <= lectures st' sec code /\
  lectures st' sec code <= Nat.max needed (lectures st sec code).
Proof.
  cbv zeta. change (course_cells sec code is_lab needed st
                      (snd (place_course_lectures sec code name is_lab needed st))).
  unfold place_course_lectures. apply (lectures_loop_pres (course_cells sec code is_lab needed)).
  - intros a. unfold course_cells, lectures. simpl. lia.
  - intros lnum a. apply (place_attempts_pres (course_cells sec code is_lab needed)).
    + intros b c Hs. unfold course_cells. rewrite (same_core_lectures b c) by done.
      destruct Hs as (_&Ht&_). rewrite Ht. lia.
    + intros b st1 day slots room Hday Hslots Hcan Hs.
      apply can_place_true in Hcan as (Hlec & _ & Hfree).
      destruct (time_options_shape is_lab slots Hslots) as (Hlen & Hnd & Hts).
      pose proof Hs as (_&Ht&_).
      unfold course_cells.
      assert (Hip : forall x : St (G := G), lectures (incr_placed x) sec code = lectures x sec code)
        by reflexivity.
      rewrite Hip, lectures_place_course, decide_True by reflexivity.
      change (timetables (incr_placed (place_course sec code name day slots room lnum needed st1)))
        with (write_cells sec day (course_info code name slots room lnum needed) slots (timetables st1)).
      assert (Hl : lectures st1 sec code = lectures b sec code).
      { by apply same_core_lectures. }
      rewrite Hl in Hlec |- *.
      rewrite occupied_write_cells; [|done|].
      * rewrite Ht, Hlen. split; [|lia]. assert (S (lectures b sec code) - lectures b sec code = 1) as -> by lia.
        lia.
      * intros x Hx. split.
        -- apply in_grid_cells; [|done]. by eapply Forall_forall in Hts.
        -- apply Hfree. done.
Qed.


Lemma lab_span code name pair room lnum total :
  pair ∈ LAB_COMBINATIONS ->
  exists pre, course_info code name pair room lnum total =
    pre ++ nl ++ "(Lab: " ++ String.substring 0 5 (py_idx pair 0) ++ "-"
        ++ String.substring 6 5 (py_idx pair 1) ++ ")".
Proof.
  intros H. unfold course_info.
  repeat (apply elem_of_cons in H as [->|H];
          [rewrite decide_True by (simpl; lia); eexists; reflexivity|]).
  by apply elem_of_nil in H.
Qed.

(** Claim C6: a committed elastic placement writes the same occupant
    text into every slot of the chosen candidate (for a lab pair, a
    text ending with the start-end span of the pair), and increments
    the section's daily count for that day by exactly one and the
    course's lecture count by exactly one, leaving the other daily
    counts unchanged. *)
Theorem commit_writes_occurrence n sec code name is_lab needed lnum (st st' : St (G := G)) :
  place_attempts n sec code name is_lab needed lnum st = (Ok true, st') ->
  exists day slots room,
    day ∈ DAYS /\ slots ∈ time_options is_lab /\
    (forall x, x ∈ slots -> cell st' sec x day = Some (course_info code name slots room lnum needed)) /\
    daily st' sec day = S (daily st sec day) /\
    (forall s d, (s, d) <> (sec, day) -> daily st' s d = daily st s d) /\
    lectures st' sec code = S (lectures st sec code) /\
    (is_lab = true -> exists pre, course_info code name slots room lnum needed =
       pre ++ nl ++ "(Lab: " ++ String.substring 0 5 (py_idx slots 0) ++ "-"
           ++ String.substring 6 5 (py_idx slots 1) ++ ")").
Proof.
  intros Hpa.
  pose proof (place_attempts_cases n sec code name is_lab needed lnum st) as Hc.
  rewrite Hpa in Hc.
  destruct Hc as [(Hr & _)|(_ & day & slots & room & st1 & Hday & Hslots & _ & Hs & ->)];
    [congruence|].
  exists day, slots, room. split; [done|]. split; [done|].
  assert (Hip : forall x : St (G := G), daily (incr_placed x) = daily x) by reflexivity.
  assert (Hil : forall x : St (G := G), lectures (incr_placed x) = lectures x) by reflexivity.
  split; [|split; [|split; [|split]]].
  - intros x Hx. unfold cell. simpl. by apply write_cells_lookup_in.
  - rewrite Hip, daily_place_course, decide_True by reflexivity.
    by rewrite (same_core_daily st st1).
  - intros s d Hsd. rewrite Hip, daily_place_course, decide_False by done.
    by rewrite (same_core_daily st st1).
  - rewrite Hil, lectures_place_course, decide_True by reflexivity.
    by rewrite (same_core_lectures st st1).
  - intros ->. by apply lab_span.
Qed.

Lemma split_go_nonempty c cur s : split_go c cur s <> [].
Proof.
  revert cur. induction s as [|a s IH]; intros cur; simpl; [done|].
  destruct (Ascii.eqb a c); [done|apply IH].
Qed.

Lemma specials_ok_foldl rows (sp : gmap string (list string)) :
  (forall c p, sp !! c = Some p -> p <> []) ->
  forall c p, foldl add_special_row sp rows !! c = Some p -> p <> [].
Proof.
  revert sp. induction rows as [|row rows IH]; intros sp Hsp; simpl; [done|].
  apply IH. intros c p. unfold add_special_row.
  case_decide; [|apply Hsp].
  destruct (decide (c = py_strip row.1)) as [->|Hne].
  - rewrite lookup_insert_eq. intros [= <-].
    unfold py_split. destruct (split_go "," "" (py_strip row.2)) eqn:E; [|done].
    by apply split_go_nonempty in E.
  - rewrite lookup_insert_ne by congruence. apply Hsp.
Qed.

(** [setup_rooms] always yields non-empty pools. *)
Lemma setup_rooms_ok enum files : rooms_ok (setup_rooms enum files).
Proof.
  unfold setup_rooms.
  assert (Hf : forall acc, (forall c p, acc.2 !! c = Some p -> p <> []) ->
             forall c p, (foldl add_file acc files).2 !! c = Some p -> p <> []).
  { induction files as [|f fs IH]; intros acc Hacc; simpl; [done|].
    apply IH. destruct acc as [[th lb] sp]. unfold add_file.
    destruct (foldl add_room_row (th, lb) (default [] (f_rooms f))) as [th' lb'].
    simpl. apply specials_ok_foldl. exact Hacc. }
  specialize (Hf (∅, ∅, ∅) ltac:(intros c p; simpl; by rewrite lookup_empty)).
  destruct (foldl add_file (∅, ∅, ∅) files) as [[th lb] sp]. simpl in Hf.
  split; [|split].
  - simpl. by destruct (enum th).
  - simpl. by destruct (enum lb).
  - exact Hf.
Qed.

Lemma room_pool_nonempty r code is_lab : rooms_ok r -> room_pool r code is_lab <> [].
Proof.
  intros (Ht & Hl & Hs). unfold room_pool.
  destruct is_lab; [|done]. destruct (special r !! code) eqn:E; [|done]. by eapply Hs.
Qed.

(** Claim C5: with the pools built by [setup_rooms] (see
    [setup_rooms_ok]), core room allocation never raises: if a room of
    the selected pool is not booked at (day, slot), it returns such a
    room and adds it to the ledger entry of (day, slot) only; otherwise
    it returns a room of the pool with the suffix "*" and leaves the
    ledger unchanged. *)
Theorem get_room_allocation code is_lab day slot (st : St (G := G)) :
  rooms_ok (rooms st) ->
  let '(r, st') := get_room code is_lab day slot st in
  (exists room, room ∈ room_pool (rooms st) code is_lab /\
  ((available st code is_lab day slot <> [] /\ (room ∉ booked st day slot) /\ r = Ok room /\
    booked st' day slot = {[ room ]} ∪ booked st day slot /\
    (forall d s, (d, s) <> (day, slot) -> booked st' d s = booked st d s)) \/
   (available st code is_lab day slot = [] /\ r = Ok (room ++ "*") /\
    room_bookings st' = room_bookings st))).
Proof.
  intros Hok.
  destruct (get_room_cases code is_lab day slot st)
    as [(room & g & Hav & Hin & ->)|[(room & g & Hav & Hin & ->)|(Hp & _)]].
  - exists room. unfold available in Hin. apply list_elem_of_filter in Hin as [Hnb Hin].
    split; [done|]. left. split; [done|]. split; [done|]. split; [done|]. split.
    + unfold booked at 1. simpl. by rewrite lookup_insert_eq.
    + intros d s Hds. unfold booked at 1. simpl. rewrite lookup_insert_ne by congruence.
      reflexivity.
  - exists room. split; [done|]. right. done.
  - by apply (room_pool_nonempty _ code is_lab) in Hok.
Qed.

(** Claim C9: a lab occurrence books its room only at the first slot of
    its pair: the ledger entry of the second slot is left as it was, so
    a later allocation there whose pool is just that room gets the very
    same room, without the conflict suffix. *)
Theorem lab_second_slot_unbooked code day pair room code' is_lab' (st st1 : St (G := G)) :
  pair ∈ LAB_COMBINATIONS ->
  get_room code true day (py_idx pair 0) st = (Ok room, st1) ->
  booked st1 day (py_idx pair 1) = booked st day (py_idx pair 1) /\
  (room ∉ booked st day (py_idx pair 1) ->
   room_pool (rooms st1) code' is_lab' = [room] ->
   fst (get_room code' is_lab' day (py_idx pair 1) st1) = Ok room).
Proof.
  intros Hpair Hg.
  assert (Hne : py_idx pair 0 <> py_idx pair 1).
  { repeat (apply elem_of_cons in Hpair as [->|Hpair]; [vm_compute; congruence|]).
    by apply elem_of_nil in Hpair. }
  assert (Hb : booked st1 day (py_idx pair 1) = booked st day (py_idx pair 1)).
  { destruct (get_room_cases code true day (py_idx pair 0) st)
      as [(r & g & _ & _ & Hg')|[(r & g & _ & _ & Hg')|(_ & Hg')]];
      rewrite Hg' in Hg; injection Hg as _ <-; [|reflexivity|reflexivity].
    unfold booked at 1. simpl. rewrite lookup_insert_ne by congruence. reflexivity. }
  split; [exact Hb|]. intros Hnb Hpool.
  assert (Hav : available st1 code' is_lab' day (py_idx pair 1) = [room]).
  { unfold available. rewrite Hpool, Hb, filter_cons_True by done. reflexivity. }
  destruct (get_room_cases code' is_lab' day (py_idx pair 1) st1)
    as [(r & g & _ & Hin & ->)|[(r & g & Hav' & _ & _)|(Hp & _)]].
  - rewrite Hav in Hin. apply list_elem_of_singleton in Hin. by subst.
  - congruence.
  - congruence.
Qed.

Lemma seed_cell_frame (r : CohortRow) day ts (st : St (G := G)) :
  let st' := fst (seed_cell r day ts st) in
  room_bookings st' = room_bookings st /\ lecture_counts st' = lecture_counts st /\
  rng st' = rng st /\ placed st' = placed st /\ failed st' = failed st.
Proof.
  unfold seed_cell. repeat case_decide; [|done..].
  destruct (cell st (r_sec r) ts day); done.
Qed.

Lemma seed_rows_frame rows (st : St (G := G)) :
  let st' := seed_rows rows st in
  room_bookings st' = room_bookings st /\ lecture_counts st' = lecture_counts st /\
  rng st' = rng st /\ placed st' = placed st /\ failed st' = failed st.
Proof.
  revert st. induction rows as [|r rows IH]; intros st; simpl; [done|].
  destruct (IH (fst (seed_row r st))) as (H1 & H2 & H3 & H4 & H5).
  assert (Hr : forall cells (st0 : St (G := G)), let st' := fst (seed_cells r cells st0) in
    room_bookings st' = room_bookings st0 /\ lecture_counts st' = lecture_counts st0 /\
    rng st' = rng st0 /\ placed st' = placed st0 /\ failed st' = failed st0).
  { induction cells as [|[day ts] cells IHc]; intros st0; simpl; [done|].
    pose proof (seed_cell_frame r day ts st0) as (F1 & F2 & F3 & F4 & F5).
    destruct (seed_cell r day ts st0) as [st1 p1]. simpl in *.
    specialize (IHc st1). destruct (seed_cells r cells st1) as [st2 p2]. simpl in *.
    destruct IHc as (G1 & G2 & G3 & G4 & G5). repeat split; congruence. }
  destruct (Hr (r_cells r) st) as (J1 & J2 & J3 & J4 & J5). unfold seed_row in *.
  repeat split; congruence.
Qed.

(** Claim C7: a cohort entry whose target cell is occupied is rejected:
    only a conflict message is logged (the cell, the daily count and
    everything else are unchanged, nothing is raised) and the remaining
    day columns are processed from that state; and cohort seeding never
    books a room, never touches a lecture counter, the generator or the
    placed/failed statistics. *)
Theorem cohort_conflict_rejected (r : CohortRow) day ts v rest (st : St (G := G)) :
  ts ∈ TIME_SLOTS -> cell st (r_sec r) ts day = Some v ->
  let st1 := add_log (MsgCohortConflict (r_code r) (r_sec r) day ts) st in
  seed_cell r day ts st = (st1, false) /\
  timetables st1 = timetables st /\ daily_counts st1 = daily_counts st /\
  seed_cells r ((day, ts) :: rest) st = seed_cells r rest st1 /\
  (forall rows (st0 : St (G := G)), let st' := schedule_cohort_courses rows st0 in
     room_bookings st' = room_bookings st0 /\ lecture_counts st' = lecture_counts st0 /\
     rng st' = rng st0 /\ placed st' = placed st0 /\ failed st' = failed st0).
Proof.
  intros Hts Hocc st1.
  assert (Hsc : seed_cell r day ts st = (st1, false)).
  { unfold seed_cell. rewrite decide_True.
    - rewrite decide_True by done. by rewrite Hocc.
    - repeat (apply elem_of_cons in Hts as [->|Hts]; [split; vm_compute; congruence|]).
      by apply elem_of_nil in Hts. }
  split; [exact Hsc|]. split; [done|]. split; [done|]. split.
  - simpl. rewrite Hsc. destruct (seed_cells r rest st1). reflexivity.
  - intros rows st0. apply (seed_rows_frame rows (reset_cohort st0)).
Qed.
End CoreClaims.

Section ElectiveClaims.
Context {G : Type} `{RG : Random G}.

Lemma choice_any {S A} `{HasRng S G} (l : list A) (st : S) r st' :
  choice l st = (r, st') -> st' = st \/ exists g, st' = with_rng g st.
Proof.
  unfold choice. destruct l as [|a l']; [intros [= _ <-]; by left|].
  destruct (randbelow (rng_of st) (length (a :: l'))) as [k g'].
  destruct ((a :: l') !! k); intros [= _ <-]; right; by exists g'.
Qed.

Lemma preferred_times_slots t x : x ∈ preferred_times t -> x ∈ TIME_SLOTS.
Proof.
  unfold preferred_times. intros H.
  repeat case_decide; [| | |done];
  repeat (apply elem_of_cons in H as [->|H]; [unfold TIME_SLOTS; set_solver|]);
  by apply elem_of_nil in H.
Qed.

(** The outcomes of the retry loop of one elective lecture index. *)
Lemma elective_attempts_cases n sec el lnum needed (st : ESt (G := G)) :
  let '(r, st') := elective_attempts n sec el lnum needed st in
  (r <> Ok true /\ elective_timetables st' = elective_timetables st) \/
  (r = Ok true /\ exists day ts room,
     day ∈ DAYS /\ ts ∈ preferred_times (el_type el) /\ ecell st sec ts day = None /\
     elective_timetables st' =
       <[(sec, ts, day) := elective_info el room lnum needed]> (elective_timetables st)).
Proof.
  revert st. induction n as [|n IH]; intros st; [left; split; [congruence|done]|].
  change (elective_attempts (S n) sec el lnum needed st) with
    ((day <- choice DAYS ;;
      time_slot <- choice (preferred_times (el_type el)) ;;
      st <- get ;;
      if can_place_elective st sec day time_slot then
        room <- get_elective_room el ;;
        modify (place_elective sec el day time_slot room lnum needed) ;;;
        ret true
      else elective_attempts n sec el lnum needed) st).
  destruct (choice_ok DAYS st) as (day & g1 & Hday & Hc1); [done|].
  rewrite (bind_ok _ _ _ _ _ Hc1).
  destruct (choice_ok (preferred_times (el_type el)) (with_rng g1 st)) as (ts & g2 & Hts & Hc2).
  { unfold preferred_times. by repeat case_decide. }
  rewrite (bind_ok _ _ _ _ _ Hc2).
  set (st2 := with_rng g2 (with_rng g1 st)).
  assert (Ht2 : elective_timetables st2 = elective_timetables st) by reflexivity.
  rewrite (bind_ok get _ st2 st2 st2) by reflexivity.
  destruct (can_place_elective st2 sec day ts) eqn:Hcan.
  - assert (Hge : get_elective_room el st2 =
      choice (if el_can_use_lab el then pool_lab st2 ++ pool_theory st2 else pool_theory st2) st2)
      by reflexivity.
    destruct (get_elective_room el st2) as [[room|e] st3] eqn:Hc3;
      destruct (choice_any _ _ _ _ (eq_sym Hge)) as [->|[g3 ->]].
    + rewrite (bind_ok _ _ _ _ _ Hc3). right. split; [reflexivity|].
      exists day, ts, room. unfold can_place_elective in Hcan. apply bool_decide_eq_true in Hcan.
      do 3 (split; [done|]). reflexivity.
    + rewrite (bind_ok _ _ _ _ _ Hc3). right. split; [reflexivity|].
      exists day, ts, room. unfold can_place_elective in Hcan. apply bool_decide_eq_true in Hcan.
      do 3 (split; [done|]). reflexivity.
    + rewrite (bind_raise _ _ _ _ _ Hc3). left. split; [congruence|done].
    + rewrite (bind_raise _ _ _ _ _ Hc3). left. split; [congruence|done].
  - specialize (IH st2).
    destruct (elective_attempts n sec el lnum needed st2) as [r st'].
    destruct IH as [(Hr & Ht)|(Hr & day' & ts' & room & H1 & H2 & H3 & H4)].
    + left. split; [done|congruence].
    + right. split; [done|]. exists day', ts', room. rewrite <- Ht2. done.
Qed.

Lemma section_loop_app l1 l2 sec el needed (st st1 : ESt (G := G)) :
  section_loop l1 sec el needed st = (Ok true, st1) ->
  section_loop (l1 ++ l2)%list sec el needed st = section_loop l2 sec el needed st1.
Proof.
  revert st. induction l1 as [|l l1 IH]; intros st H; cbn [section_loop app] in *;
    [unfold ret in H; congruence|].
  unfold bind in *.
  destruct (elective_attempts ELECTIVE_ATTEMPTS sec el l needed st) as [[[]|e] st0];
    [by apply IH|discriminate|discriminate].
Qed.

Lemma section_loop_occupied l sec el needed (st st1 : ESt (G := G)) :
  section_loop l sec el needed st = (Ok true, st1) ->
  occupied (elective_timetables st1) sec = occupied (elective_timetables st) sec + length l.
Proof.
  revert st. induction l as [|l ls IH]; intros st H; cbn [section_loop length] in *;
    [unfold ret in H; injection H as <-; lia|].
  pose proof (elective_attempts_cases ELECTIVE_ATTEMPTS sec el l needed st) as Hc.
  unfold bind in H.
  destruct (elective_attempts ELECTIVE_ATTEMPTS sec el l needed st) as [[[]|e] st0];
    [|discriminate|discriminate].
  destruct Hc as [(Hr & _)|(_ & day & ts & room & Hd & Hts & Hnone & Ht)]; [congruence|].
  rewrite (IH st0 H), Ht, occupied_insert; [lia| |done].
  apply in_grid_cells; [|done]. by eapply preferred_times_slots.
Qed.

Lemma section_failure_stops sec el earlier lnum rest secs counts (st st1 st2 : ESt (G := G)) :
  seq 1 (el_credit_hours el) = (earlier ++ lnum :: rest)%list ->
  section_loop earlier sec el (el_credit_hours el) st = (Ok true, st1) ->
  elective_attempts ELECTIVE_ATTEMPTS sec el lnum (el_credit_hours el) st1 = (Ok false, st2) ->
  schedule_single_section sec el st = (Ok false, st2) /\
  elective_timetables st2 = elective_timetables st1 /\
  sections_loop el (sec :: secs) counts st = sections_loop el secs (fst counts, S (snd counts)) st2.
Proof.
  intros Hseq Hdone Hfail.
  assert (Hs : schedule_single_section sec el st = (Ok false, st2)).
  { unfold schedule_single_section. rewrite Hseq, (section_loop_app _ _ _ _ _ _ _ Hdone).
    cbn [section_loop]. rewrite (bind_ok _ _ _ _ _ Hfail). reflexivity. }
  split; [exact Hs|]. split.
  - pose proof (elective_attempts_cases ELECTIVE_ATTEMPTS sec el lnum (el_credit_hours el) st1) as Hc.
    rewrite Hfail in Hc. destruct Hc as [(_ & Ht)|(Hr & _)]; [exact Ht|discriminate].
  - cbn [sections_loop]. rewrite (bind_ok _ _ _ _ _ Hs). reflexivity.
Qed.

(** Claim C10: an elective section is not scheduled atomically. When
    lecture index [lnum] exhausts its 50 attempts after the lecture
    indices [earlier] were placed, [_schedule_single_section] returns
    failure in the state reached so far: the remaining indices are not
    tried, the cells of the [length earlier] lectures already written stay
    in the section's timetable (no rollback), and the section adds
    exactly one to the failed-sections count. *)
Theorem elective_section_not_atomic sec el earlier lnum rest secs counts
    (st st1 st2 : ESt (G := G)) :
  seq 1 (el_credit_hours el) = (earlier ++ lnum :: rest)%list ->
  section_loop earlier sec el (el_credit_hours el) st = (Ok true, st1) ->
  elective_attempts ELECTIVE_ATTEMPTS sec el lnum (el_credit_hours el) st1 = (Ok false, st2) ->
  schedule_single_section sec el st = (Ok false, st2) /\
  elective_timetables st2 = elective_timetables st1 /\
  occupied (elective_timetables st1) sec = occupied (elective_timetables st) sec + length earlier /\
  sections_loop el (sec :: secs) counts st = sections_loop el secs (fst counts, S (snd counts)) st2.
Proof.
  intros Hseq Hdone Hfail.
  destruct (section_failure_stops sec el earlier lnum rest secs counts st st1 st2 Hseq Hdone Hfail)
    as (Hs & Ht & Hl).
  split; [exact Hs|]. split; [exact Ht|].
  split; [by apply (section_loop_occupied _ _ _ _ _ _ Hdone)|exact Hl].
Qed.

(** Claim C4 (amended). Core engine: when the 100 attempts of a lecture
    index all fail, the grid, the counters, the ledger and the placed
    count are unchanged, the failure tally grows by one, and the loop goes
    on with the remaining lecture indices. Elective sections: when a
    lecture index exhausts its 50 attempts, the failed occurrence leaves
    the grid unchanged, [_schedule_single_section] returns failure in
    that very state (the remaining indices are never tried), and the
    section adds exactly one to the failed-sections count. *)
Theorem failed_occurrence_abandoned :
  (forall sec code name is_lab needed lnum rest (st st1 : St (G := G)),
     place_attempts ATTEMPTS sec code name is_lab needed lnum st = (Ok false, st1) ->
     timetables st1 = timetables st /\ daily_counts st1 = daily_counts st /\
     lecture_counts st1 = lecture_counts st /\ room_bookings st1 = room_bookings st /\
     placed (incr_failed st1) = placed st /\ failed (incr_failed st1) = S (failed st) /\
     lectures_loop (lnum :: rest) sec code name is_lab needed st =
       lectures_loop rest sec code name is_lab needed (incr_failed st1)) /\
  (forall sec el earlier lnum rest secs counts (st st1 st2 : ESt (G := G)),
     seq 1 (el_credit_hours el) = (earlier ++ lnum :: rest)%list ->
     section_loop earlier sec el (el_credit_hours el) st = (Ok true, st1) ->
     elective_attempts ELECTIVE_ATTEMPTS sec el lnum (el_credit_hours el) st1 = (Ok false, st2) ->
     elective_timetables st2 = elective_timetables st1 /\
     schedule_single_section sec el st = (Ok false, st2) /\
     sections_loop el (sec :: secs) counts st = sections_loop el secs (fst counts, S (snd counts)) st2).
Proof.
  split.
  - intros sec code name is_lab needed lnum rest st st1 Hpa.
    pose proof (place_attempts_cases ATTEMPTS sec code name is_lab needed lnum st) as Hc.
    rewrite Hpa in Hc.
    destruct Hc as [(_ & (_&Ht&Hd&Hl&Hp&Hf&_) & Hb)|(Hr & _)]; [|discriminate].
    split; [done|]. split; [done|]. split; [done|]. split; [by apply Hb|].
    split; [done|]. split; [simpl; by rewrite Hf|].
    simpl. rewrite (bind_ok _ _ _ _ _ Hpa). reflexivity.
  - intros sec el earlier lnum rest secs counts st st1 st2 Hseq Hdone Hfail.
    destruct (section_failure_stops sec el earlier lnum rest secs counts st st1 st2 Hseq Hdone Hfail)
      as (Hs & Ht & Hl).
    split; [exact Ht|]. split; [exact Hs|exact Hl].
Qed.

End ElectiveClaims.

(** * Determinism of a run *)

(** Claim C8 (amended): a run is a function of its input, the generator
    state and the iteration order of the two room sets built by
    [setup_rooms]: two runs whose set listings agree on those sets give
    the same grids, counters and statistics. *)
Theorem run_deterministic {G} `{RG : Random G} enum1 enum2 files cap_files rows courses (g : G) :
  enum1 (room_sets files).1 = enum2 (room_sets files).1 ->
  enum1 (room_sets files).2 = enum2 (room_sets files).2 ->
  run enum1 files cap_files rows courses g = run enum2 files cap_files rows courses g.
Proof.
  unfold run, setup_rooms, room_sets.
  destruct (foldl add_file (∅, ∅, ∅) files) as [[th lb] sp]. simpl.
  intros H1 H2. by rewrite H1, H2.
Qed.

(** * Witnesses *)

(** A seminar seeded at Monday 08:00 survives the elastic placement of a
    course and a lab course in the same section; the cell lecture 1 of
    CS101 fills (Thursday 12:30) survives the occurrence of lecture 2. *)
Lemma elastic_never_overwrites_witness :
  let st1 := snd (place_attempts (RG := stream_random sample_draws) ATTEMPTS sec0 "CS101" "Programming"
                    false 3 1 seeded0) in
  let v1 := course_info "CS101" "Programming" ["12:30-01:45"] "T02" 1 3 in
  timetables seeded0 !! (sec0, "08:00-09:15", "Monday") = Some (cohort_info row0) /\
  timetables (snd (schedule_core_courses (RG := stream_random sample_draws) bi0 courses0 seeded0))
    !! (sec0, "08:00-09:15", "Monday") = Some (cohort_info row0) /\
  timetables st1 !! (sec0, "12:30-01:45", "Thursday") = Some v1 /\
  timetables (snd (place_attempts (RG := stream_random sample_draws) ATTEMPTS sec0 "CS101" "Programming"
                     false 3 2 st1)) !! (sec0, "12:30-01:45", "Thursday") = Some v1.
Proof.
  intros st1 v1.
  assert (H : timetables seeded0 !! (sec0, "08:00-09:15", "Monday") = Some (cohort_info row0))
    by (vm_compute; reflexivity).
  assert (H1 : timetables st1 !! (sec0, "12:30-01:45", "Thursday") = Some v1)
    by (vm_compute; reflexivity).
  split; [exact H|].
  split; [exact (proj2 (elastic_never_overwrites (RG := stream_random sample_draws) bi0 courses0 seeded0 _ _ H))|].
  split; [exact H1|].
  exact (proj1 (elastic_never_overwrites (RG := stream_random sample_draws) bi0 [] st1 _ _ H1)
           ATTEMPTS sec0 "CS101" "Programming" false 3 2).
Defined.

(** In a section full on every day, the first lecture of a course fails
    its 100 attempts and the loop goes on with lectures 2 and 3; in the
    elective scenario, lecture 2 of the free elective fails after
    lecture 1 was placed and the section stops there. *)
Lemma failed_occurrence_abandoned_witness :
  let X := place_attempts (RG := stream_random sample_draws) ATTEMPTS sec0 "CS101" "Programming" false 3 1 st_full in
  let Y1 := section_loop (RG := stream_random elective_draws) [1] esec free_elective 3 est0 in
  let Y2 := elective_attempts (RG := stream_random elective_draws) ELECTIVE_ATTEMPTS esec free_elective 2 3 (snd Y1) in
  X = (Ok false, snd X) /\
  (timetables (snd X) = timetables st_full /\ daily_counts (snd X) = daily_counts st_full /\
   lecture_counts (snd X) = lecture_counts st_full /\ room_bookings (snd X) = room_bookings st_full /\
   placed (incr_failed (snd X)) = placed st_full /\ failed (incr_failed (snd X)) = S (failed st_full) /\
   lectures_loop (RG := stream_random sample_draws) [1; 2; 3] sec0 "CS101" "Programming" false 3 st_full =
     lectures_loop (RG := stream_random sample_draws) [2; 3] sec0 "CS101" "Programming" false 3 (incr_failed (snd X))) /\
  seq 1 (el_credit_hours free_elective) = ([1] ++ 2 :: [3])%list /\
  Y1 = (Ok true, snd Y1) /\ Y2 = (Ok false, snd Y2) /\
  (elective_timetables (snd Y2) = elective_timetables (snd Y1) /\
   schedule_single_section (RG := stream_random elective_draws) esec free_elective est0 = (Ok false, snd Y2) /\
   sections_loop (RG := stream_random elective_draws) free_elective [esec] (0, 0) est0 =
     sections_loop (RG := stream_random elective_draws) free_elective [] (0, 1) (snd Y2)).
Proof.
  intros X Y1 Y2.
  assert (H : X = (Ok false, snd X)) by (vm_compute; reflexivity).
  assert (H0 : seq 1 (el_credit_hours free_elective) = ([1] ++ 2 :: [3])%list) by reflexivity.
  assert (H1 : Y1 = (Ok true, snd Y1)) by (vm_compute; reflexivity).
  assert (H2 : Y2 = (Ok false, snd Y2)) by (vm_compute; reflexivity).
  split; [exact H|].
  split; [exact (proj1 (failed_occurrence_abandoned (RG := stream_random sample_draws))
                  sec0 "CS101" "Programming" false 3 1 [2; 3] st_full (snd X) H)|].
  split; [exact H0|]. split; [exact H1|]. split; [exact H2|].
  exact (proj2 (failed_occurrence_abandoned (RG := stream_random elective_draws))
           esec free_elective [1] 2 [3] [] (0, 0) est0 (snd Y1) (snd Y2) H0 H1 H2).
Defined.

(** Allocation of a theory room on Monday 08:00 from the two-room pool. *)
Lemma get_room_allocation_witness :
  rooms_ok (rooms st0) /\
  let '(r, st') := get_room (RG := stream_random sample_draws) "CS101" false "Monday" "08:00-09:15" st0 in
  (exists room, room ∈ room_pool (rooms st0) "CS101" false /\
  ((available st0 "CS101" false "Monday" "08:00-09:15" <> [] /\
    (room ∉ booked st0 "Monday" "08:00-09:15") /\ r = Ok room /\
    booked st' "Monday" "08:00-09:15" = {[ room ]} ∪ booked st0 "Monday" "08:00-09:15" /\
    (forall d s, (d, s) <> ("Monday", "08:00-09:15") -> booked st' d s = booked st0 d s)) \/
   (available st0 "CS101" false "Monday" "08:00-09:15" = [] /\ r = Ok (room ++ "*") /\
    room_bookings st' = room_bookings st0))).
Proof.
  assert (H : rooms_ok (rooms st0)).
  { split; [discriminate|]. split; [discriminate|].
    intros c p Hc. simpl in Hc. rewrite lookup_empty in Hc. discriminate. }
  split; [exact H|].
  exact (get_room_allocation (RG := stream_random sample_draws) "CS101" false "Monday" "08:00-09:15" st0 H).
Defined.

(** The first attempt loop of a lab course commits an occurrence. *)
Lemma commit_writes_occurrence_witness :
  let X := place_attempts (RG := stream_random sample_draws) ATTEMPTS sec0 "CS101L" "Lab" true 2 1 st0 in
  X = (Ok true, snd X) /\
  exists day slots room,
    day ∈ DAYS /\ slots ∈ time_options true /\
    (forall x, x ∈ slots -> cell (snd X) sec0 x day = Some (course_info "CS101L" "Lab" slots room 1 2)) /\
    daily (snd X) sec0 day = S (daily st0 sec0 day) /\
    (forall s d, (s, d) <> (sec0, day) -> daily (snd X) s d = daily st0 s d) /\
    lectures (snd X) sec0 "CS101L" = S (lectures st0 sec0 "CS101L") /\
    (true = true -> exists pre, course_info "CS101L" "Lab" slots room 1 2 =
       pre ++ nl ++ "(Lab: " ++ String.substring 0 5 (py_idx slots 0) ++ "-"
           ++ String.substring 6 5 (py_idx slots 1) ++ ")").
Proof.
  intros X.
  assert (H : X = (Ok true, snd X)) by (vm_compute; reflexivity).
  split; [exact H|].
  exact (commit_writes_occurrence (RG := stream_random sample_draws)
           ATTEMPTS sec0 "CS101L" "Lab" true 2 1 st0 (snd X) H).
Defined.

(** A lab booked in the first slot of the 08:00 pair is handed out again,
    unflagged, at the second slot of the pair. *)
Lemma lab_second_slot_unbooked_witness :
  let X := get_room (RG := stream_random sample_draws) "CS101L" true "Monday" "08:00-09:15" st0 in
  ["08:00-09:15"; "09:30-10:45"] ∈ LAB_COMBINATIONS /\
  X = (Ok "L01", snd X) /\
  booked (snd X) "Monday" "09:30-10:45" = booked st0 "Monday" "09:30-10:45" /\
  ("L01" ∉ booked st0 "Monday" "09:30-10:45" ->
   room_pool (rooms (snd X)) "CS102L" true = ["L01"] ->
   fst (get_room (RG := stream_random sample_draws) "CS102L" true "Monday" "09:30-10:45" (snd X)) = Ok "L01").
Proof.
  intros X.
  assert (H1 : ["08:00-09:15"; "09:30-10:45"] ∈ LAB_COMBINATIONS) by (left; reflexivity).
  assert (H2 : X = (Ok "L01", snd X)) by (vm_compute; reflexivity).
  split; [exact H1|]. split; [exact H2|].
  exact (lab_second_slot_unbooked (RG := stream_random sample_draws)
           "CS101L" "Monday" ["08:00-09:15"; "09:30-10:45"] "L01" "CS102L" true st0 (snd X) H1 H2).
Defined.

(** A second cohort row targeting the seminar's cell is rejected. *)
Lemma cohort_conflict_rejected_witness :
  "08:00-09:15" ∈ TIME_SLOTS /\
  cell seeded0 (r_sec row1) "08:00-09:15" "Monday" = Some (cohort_info row0) /\
  let st1 := add_log (MsgCohortConflict (r_code row1) (r_sec row1) "Monday" "08:00-09:15") seeded0 in
  seed_cell row1 "Monday" "08:00-09:15" seeded0 = (st1, false) /\
  timetables st1 = timetables seeded0 /\ daily_counts st1 = daily_counts seeded0 /\
  seed_cells row1 [("Monday", "08:00-09:15")] seeded0 = seed_cells row1 [] st1 /\
  (forall rows (st0 : St (G := nat)), let st' := schedule_cohort_courses rows st0 in
     room_bookings st' = room_bookings st0 /\ lecture_counts st' = lecture_counts st0 /\
     rng st' = rng st0 /\ placed st' = placed st0 /\ failed st' = failed st0).
Proof.
  assert (H1 : "08:00-09:15" ∈ TIME_SLOTS) by (left; reflexivity).
  assert (H2 : cell seeded0 (r_sec row1) "08:00-09:15" "Monday" = Some (cohort_info row0))
    by (vm_compute; reflexivity).
  split; [exact H1|]. split; [exact H2|].
  exact (cohort_conflict_rejected row1 "Monday" "08:00-09:15" (cohort_info row0) [] seeded0 H1 H2).
Defined.

(** The free elective places lecture 1 on Monday, then lecture 2 finds
    no free Monday slot in its 50 attempts. *)
Lemma elective_section_not_atomic_witness :
  let X1 := section_loop (RG := stream_random elective_draws) [1] esec free_elective 3 est0 in
  let X2 := elective_attempts (RG := stream_random elective_draws) ELECTIVE_ATTEMPTS esec free_elective 2 3 (snd X1) in
  seq 1 (el_credit_hours free_elective) = ([1] ++ 2 :: [3])%list /\
  X1 = (Ok true, snd X1) /\ X2 = (Ok false, snd X2) /\
  schedule_single_section (RG := stream_random elective_draws) esec free_elective est0 = (Ok false, snd X2) /\
  elective_timetables (snd X2) = elective_timetables (snd X1) /\
  occupied (elective_timetables (snd X1)) esec = occupied (elective_timetables est0) esec + 1 /\
  sections_loop (RG := stream_random elective_draws) free_elective [esec] (0, 0) est0 =
    sections_loop (RG := stream_random elective_draws) free_elective [] (0, 1) (snd X2).
Proof.
  intros X1 X2.
  assert (H0 : seq 1 (el_credit_hours free_elective) = ([1] ++ 2 :: [3])%list) by reflexivity.
  assert (H1 : X1 = (Ok true, snd X1)) by (vm_compute; reflexivity).
  assert (H2 : X2 = (Ok false, snd X2)) by (vm_compute; reflexivity).
  split; [exact H0|]. split; [exact H1|]. split; [exact H2|].
  exact (elective_section_not_atomic (RG := stream_random elective_draws)
           esec free_elective [1] 2 [3] [] (0, 0) est0 (snd X1) (snd X2) H0 H1 H2).
Defined.

(** With a single theory room and no lab room, the sorted listing and
    its reverse agree on the built sets, and so do the two runs. *)
Lemma run_deterministic_witness :
  elements (room_sets files1).1 = reversed_listing (room_sets files1).1 /\
  elements (room_sets files1).2 = reversed_listing (room_sets files1).2 /\
  run (RG := stream_random sample_draws) elements files1 cap_files0 [] courses2 0 =
    run (RG := stream_random sample_draws) reversed_listing files1 cap_files0 [] courses2 0.
Proof.
  assert (H1 : elements (room_sets files1).1 = reversed_listing (room_sets files1).1)
    by (vm_compute; reflexivity).
  assert (H2 : elements (room_sets files1).2 = reversed_listing (room_sets files1).2)
    by (vm_compute; reflexivity).
  split; [exact H1|]. split; [exact H2|].
  exact (run_deterministic (RG := stream_random sample_draws)
           elements reversed_listing files1 cap_files0 [] courses2 0 H1 H2).
Defined.

(** * Counterexamples *)

(** Claim C2: cohort seeding has no daily ceiling: five cohort entries
    on the same Monday leave a daily count of 5. *)
Lemma cohort_daily_exceeds_max :
  MAX_CLASSES_PER_DAY < daily (schedule_cohort_courses five_monday_rows st0) "Cohort_CS_S1_A" "Monday".
Proof. apply Nat.ltb_lt. vm_compute. reflexivity. Qed.

(** Claim C3: a lab course with a target of one lecture occupies two
    cells of its section after one elastic call. *)
Lemma lab_course_cells_exceed :
  let st' := snd (place_course_lectures (RG := stream_random sample_draws) sec0 "CS101L" "Lab" true 1 st0) in
  lectures st' sec0 "CS101L" = 1 /\ 1 < occupied (timetables st') sec0.
Proof. split; [vm_compute; reflexivity|apply Nat.ltb_lt; vm_compute; reflexivity]. Qed.

(** Claim C4: an elective section stops at its first failed lecture:
    lecture 2 of the free elective fails, lecture 3 is never tried
    (no draw is made after the 103rd), although from the returned state
    it would be placed. *)
Lemma elective_failure_skips_rest :
  let X := schedule_single_section (RG := stream_random elective_draws) esec free_elective est0 in
  fst X = Ok false /\ erng (snd X) = 103 /\ occupied (elective_timetables (snd X)) esec = 1 /\
  fst (elective_attempts (RG := stream_random elective_draws) ELECTIVE_ATTEMPTS esec free_elective 3 3 (snd X)) = Ok true.
Proof. vm_compute. repeat split. Qed.

(** Claim C8: the room pools are [list(set)], in an order that depends
    on the interpreter's string hashes. Both the sorted listing and its
    reverse are listings of a set, yet with the same input and the same
    generator the two runs fill different grids. *)
Lemma room_order_changes_grid :
  set_listing elements /\ set_listing reversed_listing /\
  timetables (snd (run (RG := stream_random sample_draws) elements files2 cap_files0 [] courses2 0)) <>
  timetables (snd (run (RG := stream_random sample_draws) reversed_listing files2 cap_files0 [] courses2 0)).
Proof.
  split; [|split].
  - intros X. split; [apply NoDup_elements|]. intros x. apply elem_of_elements.
  - intros X. split.
    + unfold reversed_listing. rewrite (reverse_Permutation (elements X)). apply NoDup_elements.
    + intros x. unfold reversed_listing. rewrite elem_of_reverse. apply elem_of_elements.
  - apply (bool_decide_eq_false _). vm_compute. reflexivity.
Qed.

(** * Further properties of the core engine *)

Section CoreExtra.
Context {G : Type} `{RG : Random G}.

Lemma place_attempts_no_raise n sec code name is_lab needed lnum (st : St (G := G)) :
  rooms_ok (rooms st) ->
  exists b, fst (place_attempts n sec code name is_lab needed lnum st) = Ok b.
Proof.
  revert st. induction n as [|n IH]; intros st Hok; [by exists false|].
  change (place_attempts (S n) sec code name is_lab needed lnum st) with
    ((day <- choice DAYS ;;
      time_slots <- choice (time_options is_lab) ;;
      st <- get ;;
      if can_place_course st sec code day time_slots needed then
        room <- get_room code is_lab day (py_idx time_slots 0) ;;
        modify (place_course sec code name day time_slots room lnum needed) ;;;
        modify incr_placed ;;;
        ret true
      else place_attempts n sec code name is_lab needed lnum) st).
  destruct (choice_ok DAYS st) as (day & g1 & _ & Hc1); [done|].
  rewrite (bind_ok _ _ _ _ _ Hc1).
  destruct (choice_ok (time_options is_lab) (with_rng g1 st)) as (slots & g2 & _ & Hc2);
    [by destruct is_lab|].
  rewrite (bind_ok _ _ _ _ _ Hc2).
  set (st2 := with_rng g2 (with_rng g1 st)).
  assert (Hr2 : rooms st2 = rooms st) by reflexivity.
  rewrite (bind_ok get _ st2 st2 st2) by reflexivity.
  destruct (can_place_course st2 sec code day slots needed).
  - destruct (get_room_cases code is_lab day (py_idx slots 0) st2)
      as [(r & g & _ & _ & Hg)|[(r & g & _ & _ & Hg)|(Hp & _)]].
    + rewrite (bind_ok _ _ _ _ _ Hg). by exists true.
    + rewrite (bind_ok _ _ _ _ _ Hg). by exists true.
    + rewrite Hr2 in Hp. by apply (room_pool_nonempty _ code is_lab) in Hok.
  - apply IH. by rewrite Hr2.
Qed.

Lemma lectures_loop_accounting nums sec code name is_lab needed (st : St (G := G)) :
  rooms_ok (rooms st) ->
  let '(r, st') := lectures_loop nums sec code name is_lab needed st in
  r = Ok tt /\ rooms st' = rooms st /\ log st' = log st /\
  placed st' + failed st' = placed st + failed st + length nums.
Proof.
  revert st. induction nums as [|l rest IH]; intros st Hok.
  { simpl. split; [done|]. split; [done|]. split; [done|]. lia. }
  cbn [lectures_loop length].
  destruct (place_attempts_no_raise ATTEMPTS sec code name is_lab needed l st Hok) as [b Hb].
  pose proof (place_attempts_cases ATTEMPTS sec code name is_lab needed l st) as Hc.
  destruct (place_attempts ATTEMPTS sec code name is_lab needed l st) as [r1 st1] eqn:Hpa.
  simpl in Hb. subst r1.
  rewrite (bind_ok _ _ _ _ _ Hpa).
  assert (Hstep : rooms st1 = rooms st /\ log st1 = log st /\
     placed st1 + failed st1 + (if b then 0 else 1) = placed st + failed st + 1).
  { destruct Hc as [(Hne & (Hr&_&_&_&Hp&Hf&_&Hl) & _)
                   |(Htrue & day & slots & room & st0 & _ & _ & _ & (Hr&_&_&_&Hp&Hf&_&Hl) & ->)].
    - destruct b; [congruence|]. split; [done|]. split; [done|]. lia.
    - injection Htrue as ->. simpl. split; [done|]. split; [done|]. lia. }
  destruct b.
  - rewrite (bind_ok (ret tt) _ st1 tt st1) by reflexivity.
    destruct Hstep as (Hr & Hl & Hn).
    specialize (IH st1 ltac:(by rewrite Hr)).
    destruct (lectures_loop rest sec code name is_lab needed st1) as [r2 st2].
    destruct IH as (-> & Hr2 & Hl2 & Hn2). split; [done|]. split; [congruence|].
    split; [congruence|]. lia.
  - rewrite (bind_ok (modify incr_failed) _ st1 tt (incr_failed st1)) by reflexivity.
    destruct Hstep as (Hr & Hl & Hn).
    specialize (IH (incr_failed st1) ltac:(simpl; by rewrite Hr)).
    destruct (lectures_loop rest sec code name is_lab needed (incr_failed st1)) as [r2 st2].
    destruct IH as (-> & Hr2 & Hl2 & Hn2). simpl in Hr2, Hl2, Hn2.
    split; [done|]. split; [congruence|]. split; [congruence|]. lia.
Qed.

Lemma place_sections_accounting secs code name is_lab needed (st : St (G := G)) :
  rooms_ok (rooms st) ->
  let '(r, st') := place_sections secs code name is_lab needed st in
  r = Ok tt /\ rooms st' = rooms st /\ log st' = log st /\
  placed st' + failed st' = placed st + failed st + length secs * needed.
Proof.
  revert st. induction secs as [|sec secs IHs]; intros st1 Hok1.
  { simpl. split; [done|]. split; [done|]. split; [done|]. lia. }
  cbn [place_sections foldr]. fold (place_sections secs code name is_lab needed).
  pose proof (lectures_loop_accounting (seq 1 needed) sec code name is_lab needed st1 Hok1) as Hl.
  change (lectures_loop (seq 1 needed) sec code name is_lab needed st1)
    with (place_course_lectures sec code name is_lab needed st1) in Hl.
  destruct (place_course_lectures sec code name is_lab needed st1) as [r2 st2] eqn:Hll.
  destruct Hl as (-> & Hr2 & Hl2 & Hn2).
  rewrite (bind_ok _ _ _ _ _ Hll).
  specialize (IHs st2 ltac:(by rewrite Hr2)).
  destruct (place_sections secs code name is_lab needed st2) as [r3 st3].
  destruct IHs as (-> & Hr3 & Hl3 & Hn3). rewrite length_seq in Hn2.
  split; [done|]. split; [congruence|]. split; [congruence|]. simpl. lia.
Qed.

Lemma needed_errors_cons c cs : needed_errors (c :: cs) = (needed_errors [c] ++ needed_errors cs)%list.
Proof. unfold needed_errors. rewrite !filter_cons. by case_decide. Qed.

Lemma schedule_single_course_accounting bi c semester (st : St (G := G)) :
  rooms_ok (rooms st) -> c_semester c = Some semester ->
  let '(r, st') := schedule_single_course bi c st in
  r = Ok tt /\ rooms st' = rooms st /\ log st' = (log st ++ needed_errors [c])%list /\
  placed st' + failed st' = placed st + failed st + course_lectures bi c semester.
Proof.
  intros Hok Hsem. unfold schedule_single_course. rewrite Hsem. unfold catch, course_body, course_lectures.
  unfold needed_errors. rewrite filter_cons, filter_nil.
  destruct (c_needed c) as [n|]; simpl.
  - rewrite app_nil_r.
    case_decide; [simpl; split; [done|]; split; [done|]; split; [done|]; lia|].
    destruct (bi !! _) as [b|]; [|simpl; split; [done|]; split; [done|]; split; [done|]; lia].
    pose proof (place_sections_accounting (b_section_names b) (py_strip (c_code c)) (py_strip (c_name c))
                  (c_is_lab c) (Z.to_nat n) st Hok) as Ha.
    destruct (place_sections _ _ _ _ _ st) as [r st'].
    destruct Ha as (-> & Ha). split; [done|]. exact Ha.
  - split; [done|]. split; [done|]. split; [done|]. lia.
Qed.

Lemma schedule_core_courses_accounting bi cs (st : St (G := G)) :
  rooms_ok (rooms st) ->
  let '(r, st') := schedule_core_courses bi cs st in
  rooms st' = rooms st /\
  placed st' + failed st' = placed st + failed st + lecture_demand bi cs /\
  (Forall (fun c => is_Some (c_semester c)) cs -> r = Ok tt /\ log st' = (log st ++ needed_errors cs)%list) /\
  (Exists (fun c => c_semester c = None) cs -> r = Raise "UnboundLocalError").
Proof.
  revert st. induction cs as [|c cs IH]; intros st Hok.
  { simpl. split; [done|]. split; [lia|]. split.
    - intros _. split; [done|]. by rewrite app_nil_r.
    - intros H. inversion H. }
  cbn [schedule_core_courses lecture_demand].
  destruct (c_semester c) as [semester|] eqn:Hsem.
  - pose proof (schedule_single_course_accounting bi c semester st Hok Hsem) as Hs.
    destruct (schedule_single_course bi c st) as [r1 st1] eqn:Hsc.
    destruct Hs as (-> & Hr1 & Hl1 & Hn1).
    rewrite (bind_ok _ _ _ _ _ Hsc).
    specialize (IH st1 ltac:(by rewrite Hr1)).
    destruct (schedule_core_courses bi cs st1) as [r2 st2].
    destruct IH as (Hr2 & Hn2 & Hall & Hex).
    split; [congruence|]. split; [lia|]. split.
    + intros Hf. apply Forall_cons in Hf as [_ Hf].
      destruct (Hall Hf) as [-> Hl2]. split; [done|].
      rewrite Hl2, Hl1, (needed_errors_cons c cs). by rewrite app_assoc.
    + intros He. apply Exists_cons in He as [He|He]; [congruence|]. exact (Hex He).
  - unfold schedule_single_course. rewrite Hsem. simpl.
    split; [done|]. split; [lia|]. split.
    + intros Hf. apply Forall_cons in Hf as [[x Hx] _]. congruence.
    + intros _. done.
Qed.

Lemma seed_rows_rooms rows (st : St (G := G)) : rooms (seed_rows rows st) = rooms st.
Proof.
  revert st. induction rows as [|r rows IH]; intros st; simpl; [done|].
  rewrite IH. unfold seed_row.
  generalize st. induction (r_cells r) as [|[day ts] cells IHc]; intros st0; simpl; [done|].
  assert (H1 : rooms (fst (seed_cell r day ts st0)) = rooms st0).
  { unfold seed_cell. repeat case_decide; [|done..].
    destruct (cell st0 (r_sec r) ts day); done. }
  destruct (seed_cell r day ts st0) as [st1 p1]. simpl in H1.
  specialize (IHc st1). destruct (seed_cells r cells st1) as [st2 p2]. simpl in *.
  congruence.
Qed.

(** X1: when the semester of every roadmap row parses, a run ends
    normally (with the room pools built by [setup_rooms], elastic
    placement raises nothing), and the core phase logs exactly one
    scheduling error per row whose [times_needed] does not parse, in row
    order, and nothing else. *)
Theorem run_no_scheduling_error enum files cap_files rows courses (g : G) :
  Forall (fun c => is_Some (c_semester c)) courses ->
  fst (run enum files cap_files rows courses g) = Ok tt /\
  log (snd (run enum files cap_files rows courses g)) =
    (log (schedule_cohort_courses rows (init_st (setup_rooms enum files) g)) ++ needed_errors courses)%list.
Proof.
  intros Hall. unfold run.
  assert (Hok : rooms_ok (rooms (schedule_cohort_courses rows (init_st (setup_rooms enum files) g)))).
  { unfold schedule_cohort_courses. rewrite seed_rows_rooms. apply setup_rooms_ok. }
  pose proof (schedule_core_courses_accounting (analyze_capacity cap_files ∅) courses _ Hok) as Ha.
  destruct (schedule_core_courses _ courses _) as [r st'].
  destruct Ha as (_ & _ & Hf & _). exact (Hf Hall).
Qed.

(** X16: a roadmap row whose semester does not parse makes the run
    raise [UnboundLocalError]: the [except] handler of
    [_schedule_single_course] reads [course_code] before it is bound. *)
Theorem run_semester_unbound enum files cap_files rows courses (g : G) :
  Exists (fun c => c_semester c = None) courses ->
  fst (run enum files cap_files rows courses g) = Raise "UnboundLocalError".
Proof.
  intros Hex. unfold run.
  assert (Hok : rooms_ok (rooms (schedule_cohort_courses rows (init_st (setup_rooms enum files) g)))).
  { unfold schedule_cohort_courses. rewrite seed_rows_rooms. apply setup_rooms_ok. }
  pose proof (schedule_core_courses_accounting (analyze_capacity cap_files ∅) courses _ Hok) as Ha.
  destruct (schedule_core_courses _ courses _) as [r st'].
  destruct Ha as (_ & _ & _ & He). exact (He Hex).
Qed.

(** X2: every lecture index of every section of every scheduled row
    ends as exactly one placement or one failure: at the end of a run,
    [placed + failed] is the number of lectures the rows ask for (up to
    the first row whose semester does not parse), whatever the cohort
    rows. *)
Theorem run_placed_plus_failed enum files cap_files rows courses (g : G) :
  placed (snd (run enum files cap_files rows courses g)) +
  failed (snd (run enum files cap_files rows courses g)) =
  lecture_demand (analyze_capacity cap_files ∅) courses.
Proof.
  unfold run.
  set (st1 := schedule_cohort_courses rows (init_st (setup_rooms enum files) g)).
  assert (Hok : rooms_ok (rooms st1)).
  { unfold st1, schedule_cohort_courses. rewrite seed_rows_rooms. apply setup_rooms_ok. }
  pose proof (seed_rows_frame rows (reset_cohort (init_st (setup_rooms enum files) g)))
    as (_ & _ & _ & Hp & Hf).
  pose proof (schedule_core_courses_accounting (analyze_capacity cap_files ∅) courses st1 Hok) as Ha.
  destruct (schedule_core_courses _ courses st1) as [r st'].
  destruct Ha as (_ & Hn & _). simpl.
  unfold st1, schedule_cohort_courses in Hn. rewrite Hp, Hf in Hn. simpl in Hn. lia.
Qed.

Lemma seed_cell_size (r : CohortRow) day ts (st : St (G := G)) :
  size (timetables (fst (seed_cell r day ts st))) + cohort st =
  size (timetables st) + cohort (fst (seed_cell r day ts st)).
Proof.
  unfold seed_cell. repeat case_decide; simpl; [|lia..].
  destruct (cell st (r_sec r) ts day) eqn:Hc; simpl; [lia|].
  rewrite map_size_insert_None by exact Hc. lia.
Qed.

Lemma seed_cell_step (r : CohortRow) day ts (st : St (G := G)) :
  let st' := fst (seed_cell r day ts st) in
  (timetables st' = timetables st /\ cohort st' = cohort st) \/
  (exists k v, timetables st !! k = None /\ timetables st' = <[k := v]> (timetables st) /\
               cohort st' = S (cohort st)).
Proof.
  unfold seed_cell. repeat case_decide; simpl; [|left; done..].
  destruct (cell st (r_sec r) ts day) eqn:Hc; simpl; [left; done|].
  right. eexists _, _. split; [exact Hc|]. split; reflexivity.
Qed.

Lemma seed_rows_kept rows (st : St (G := G)) k v :
  timetables st !! k = Some v -> timetables (seed_rows rows st) !! k = Some v.
Proof.
  revert st. induction rows as [|r rows IH]; intros st Hk; simpl; [exact Hk|].
  apply IH. unfold seed_row. revert st Hk.
  induction (r_cells r) as [|[day ts] cells IHc]; intros st0 Hk; simpl; [exact Hk|].
  pose proof (seed_cell_step r day ts st0) as Hs.
  destruct (seed_cell r day ts st0) as [st1 p1]. simpl in Hs.
  specialize (IHc st1). destruct (seed_cells r cells st1) as [st2 p2]. simpl in *.
  apply IHc. destruct Hs as [(-> & _)|(k' & v' & Hn & -> & _)]; [exact Hk|].
  rewrite lookup_insert_ne; [exact Hk|]. intros ->. congruence.
Qed.

(** X3: cohort seeding never overwrites a non-empty cell, and the
    [cohort] statistic it sets is the number of cells it wrote: each
    seeding step, from any state, either writes nothing and leaves the
    count, or fills one previously empty cell and counts it once. *)
Theorem cohort_stat_counts_cells rows (st : St (G := G)) :
  let st' := schedule_cohort_courses rows st in
  (forall k v, timetables st !! k = Some v -> timetables st' !! k = Some v) /\
  size (timetables st') = size (timetables st) + cohort st' /\
  (forall r day ts (s : St (G := G)),
     let s' := fst (seed_cell r day ts s) in
     (timetables s' = timetables s /\ cohort s' = cohort s) \/
     (exists k v, timetables s !! k = None /\ timetables s' = <[k := v]> (timetables s) /\
                  cohort s' = S (cohort s))).
Proof.
  cbv zeta. split; [|split].
  - intros k v Hk. unfold schedule_cohort_courses. by apply seed_rows_kept.
  - unfold schedule_cohort_courses.
    assert (Hgen : forall rows (st0 : St (G := G)),
      size (timetables (seed_rows rows st0)) + cohort st0 =
      size (timetables st0) + cohort (seed_rows rows st0)).
    { clear. intros rows. induction rows as [|r rows IH]; intros st0; simpl; [lia|].
      assert (Hr : forall cells (st1 : St (G := G)),
        size (timetables (fst (seed_cells r cells st1))) + cohort st1 =
        size (timetables st1) + cohort (fst (seed_cells r cells st1))).
      { intros cells. induction cells as [|[day ts] cells IHc]; intros st1; simpl; [lia|].
        pose proof (seed_cell_size r day ts st1) as H1.
        destruct (seed_cell r day ts st1) as [st2 p1]. simpl in H1.
        specialize (IHc st2). destruct (seed_cells r cells st2) as [st3 p2]. simpl in *. lia. }
      specialize (Hr (r_cells r) st0). specialize (IH (fst (seed_row r st0))).
      unfold seed_row in *. lia. }
    specialize (Hgen rows (reset_cohort st)). simpl in Hgen. lia.
  - intros r day ts s. exact (seed_cell_step r day ts s).
Qed.

End CoreExtra.

(** * Further properties of the elective engine *)

Section ElectiveExtra.
Context {G : Type} `{RG : Random G}.

Lemma elective_attempts_no_raise n sec el lnum needed (st : ESt (G := G)) :
  pool_theory st <> [] ->
  let '(r, st') := elective_attempts n sec el lnum needed st in
  (exists b, r = Ok b) /\ pool_theory st' = pool_theory st /\ pool_lab st' = pool_lab st.
Proof.
  revert st. induction n as [|n IH]; intros st Hne.
  { simpl. split; [by exists false|done]. }
  change (elective_attempts (S n) sec el lnum needed st) with
    ((day <- choice DAYS ;;
      time_slot <- choice (preferred_times (el_type el)) ;;
      st <- get ;;
      if can_place_elective st sec day time_slot then
        room <- get_elective_room el ;;
        modify (place_elective sec el day time_slot room lnum needed) ;;;
        ret true
      else elective_attempts n sec el lnum needed) st).
  destruct (choice_ok DAYS st) as (day & g1 & _ & Hc1); [done|].
  rewrite (bind_ok _ _ _ _ _ Hc1).
  destruct (choice_ok (preferred_times (el_type el)) (with_rng g1 st)) as (ts & g2 & _ & Hc2).
  { unfold preferred_times. by repeat case_decide. }
  rewrite (bind_ok _ _ _ _ _ Hc2).
  set (st2 := with_rng g2 (with_rng g1 st)).
  assert (Hp2 : pool_theory st2 = pool_theory st /\ pool_lab st2 = pool_lab st) by done.
  rewrite (bind_ok get _ st2 st2 st2) by reflexivity.
  destruct (can_place_elective st2 sec day ts).
  - set (pool := if el_can_use_lab el then (pool_lab st2 ++ pool_theory st2)%list else pool_theory st2).
    assert (Hpool : pool <> []).
    { unfold pool. destruct Hp2 as [-> ->].
      destruct (el_can_use_lab el); [|done].
      destruct (pool_theory st); [done|]. by destruct (pool_lab st). }
    destruct (choice_ok pool st2 Hpool) as (room & g3 & _ & Hc3).
    assert (Hge : get_elective_room el st2 = (Ok room, with_rng g3 st2)) by exact Hc3.
    rewrite (bind_ok _ _ _ _ _ Hge). simpl. split; [by exists true|done].
  - specialize (IH st2 ltac:(by destruct Hp2 as [-> _])).
    destruct (elective_attempts n sec el lnum needed st2) as [r st'].
    destruct IH as (Hr & H1 & H2). destruct Hp2 as [H3 H4].
    split; [done|]. split; congruence.
Qed.

Lemma section_loop_no_raise nums sec el needed (st : ESt (G := G)) :
  pool_theory st <> [] ->
  let '(r, st') := section_loop nums sec el needed st in
  (exists b, r = Ok b) /\ pool_theory st' = pool_theory st /\ pool_lab st' = pool_lab st.
Proof.
  revert st. induction nums as [|l rest IH]; intros st Hne.
  { simpl. split; [by exists true|done]. }
  cbn [section_loop].
  pose proof (elective_attempts_no_raise ELECTIVE_ATTEMPTS sec el l needed st Hne) as Ha.
  destruct (elective_attempts ELECTIVE_ATTEMPTS sec el l needed st) as [r1 st1] eqn:He.
  destruct Ha as ([b ->] & H1 & H2). rewrite (bind_ok _ _ _ _ _ He).
  destruct b.
  - specialize (IH st1 ltac:(by rewrite H1)).
    destruct (section_loop rest sec el needed st1) as [r2 st2].
    destruct IH as (Hr & H3 & H4). split; [done|]. split; congruence.
  - simpl. split; [by exists false|done].
Qed.

Lemma sections_loop_counts el secs counts (st : ESt (G := G)) :
  pool_theory st <> [] ->
  let '(r, st') := sections_loop el secs counts st in
  (exists s f, r = Ok (s, f) /\ s + f = fst counts + snd counts + length secs) /\
  pool_theory st' = pool_theory st /\ pool_lab st' = pool_lab st.
Proof.
  revert st counts. induction secs as [|sec secs IH]; intros st counts Hne.
  { simpl. split; [|done]. exists (fst counts), (snd counts). split; [by destruct counts|lia]. }
  cbn [sections_loop length].
  pose proof (section_loop_no_raise (seq 1 (el_credit_hours el)) sec el (el_credit_hours el) st Hne)
    as Ha.
  change (section_loop (seq 1 (el_credit_hours el)) sec el (el_credit_hours el) st)
    with (schedule_single_section sec el st) in Ha.
  destruct (schedule_single_section sec el st) as [r1 st1] eqn:Hs.
  destruct Ha as ([b ->] & H1 & H2). rewrite (bind_ok _ _ _ _ _ Hs).
  match goal with |- context [sections_loop el secs ?c st1] =>
    specialize (IH st1 c ltac:(by rewrite H1));
    destruct (sections_loop el secs c st1) as [r2 st2] end.
  destruct IH as ((s & f & -> & Hsf) & H3 & H4).
  split; [|split; congruence]. exists s, f. split; [done|].
  destruct b; simpl in Hsf; lia.
Qed.

Lemma electives_loop_counts items (st : ESt (G := G)) counts :
  pool_theory st <> [] ->
  let '(r, st') := electives_loop items counts st in
  exists s f, r = Ok (s, f) /\ s + f = fst counts + snd counts + section_count items.
Proof.
  revert st counts. induction items as [|[el secs] items IH]; intros st counts Hne.
  { simpl. exists (fst counts), (snd counts). unfold section_count. simpl.
    split; [by destruct counts|lia]. }
  cbn [electives_loop].
  pose proof (sections_loop_counts el secs counts st Hne) as Ha.
  destruct (sections_loop el secs counts st) as [r1 st1] eqn:Hs.
  destruct Ha as ((s & f & -> & Hsf) & H1 & _). rewrite (bind_ok _ _ _ _ _ Hs).
  specialize (IH st1 (s, f) ltac:(by rewrite H1)).
  destruct (electives_loop items (s, f) st1) as [r2 st2].
  destruct IH as (s' & f' & -> & Hsf'). exists s', f'. split; [done|].
  unfold section_count in *. simpl in *. lia.
Qed.

Lemma esetup_theory_nonempty enum files : fst (esetup_rooms enum files) <> [].
Proof.
  unfold esetup_rooms. destruct (foldl _ (∅, ∅) files) as [th lb]. simpl.
  by destruct (enum th).
Qed.

Lemma schedule_from_setup_counts enum files items tt (g : G) :
  let '(th, lb) := esetup_rooms enum files in
  let '(r, st') := schedule_elective_sections items (mkESt th lb tt g) in
  exists s f, r = Ok (s, f) /\ s + f = section_count items.
Proof.
  pose proof (esetup_theory_nonempty enum files) as Hth.
  destruct (esetup_rooms enum files) as [th lb]. simpl in Hth.
  unfold schedule_elective_sections.
  pose proof (electives_loop_counts items (mkESt th lb tt g) (0, 0) Hth) as H.
  destruct (electives_loop items (0, 0) _) as [r st']. exact H.
Qed.

(** X4: elective scheduling over the pools built by
    [ElectivesManager.setup_rooms] never raises, and every section it
    goes through is counted exactly once, as scheduled or as failed. *)
Theorem elective_scheduling_counts enum files items tt (g : G) :
  let '(th, lb) := esetup_rooms enum files in
  let '(r, st') := schedule_elective_sections items (mkESt th lb tt g) in
  exists s f, r = Ok (s, f) /\ s + f = section_count items.
Proof. exact (schedule_from_setup_counts enum files items tt g). Qed.

End ElectiveExtra.

(** * Batches and sections *)

Section Utf8.
Local Open Scope Z_scope.

Lemma byte_val_u8 z : (0 <= z < 256)%Z -> byte_val (u8 z) = z.
Proof.
  intros Hz. unfold byte_val, u8. rewrite Ascii.N_ascii_embedding; [lia|].
  apply N2Z.inj_lt. rewrite Z2N.id; lia.
Qed.

Lemma py_chr_decode n : (0 <= n <= MAX_CODE_POINT)%Z -> utf8_decode (py_chr n) = n.
Proof.
  unfold MAX_CODE_POINT, py_chr. intros Hn.
  pose proof (Z.div_mod n 64 ltac:(lia)) as E1. pose proof (Z.mod_pos_bound n 64 ltac:(lia)) as B1.
  assert (H4096 : n / 4096 = n / 64 / 64) by (rewrite Z.div_div by lia; reflexivity).
  assert (H262144 : n / 262144 = n / 64 / 64 / 64) by (rewrite !Z.div_div by lia; reflexivity).
  rewrite H4096, H262144.
  set (m1 := n / 64) in *. set (d := n mod 64) in *.
  assert (0 <= m1) by (apply Z.div_pos; lia).
  pose proof (Z.div_mod m1 64 ltac:(lia)) as E2. pose proof (Z.mod_pos_bound m1 64 ltac:(lia)) as B2.
  set (m2 := m1 / 64) in *. set (c := m1 mod 64) in *.
  assert (0 <= m2) by (apply Z.div_pos; lia).
  pose proof (Z.div_mod m2 64 ltac:(lia)) as E3. pose proof (Z.mod_pos_bound m2 64 ltac:(lia)) as B3.
  set (m3 := m2 / 64) in *. set (b := m2 mod 64) in *.
  assert (0 <= m3) by (apply Z.div_pos; lia).
  destruct (Z.ltb_spec n 128).
  { simpl. rewrite byte_val_u8; lia. }
  destruct (Z.ltb_spec n 2048).
  { simpl. rewrite !byte_val_u8 by lia. lia. }
  destruct (Z.ltb_spec n 65536).
  { simpl. rewrite !byte_val_u8 by lia. lia. }
  simpl. rewrite !byte_val_u8 by lia. lia.
Qed.

End Utf8.

Lemma string_app_cancel (p a b : string) : (p ++ a = p ++ b) -> a = b.
Proof. induction p as [|x p IH]; simpl; [done|]. intros H. injection H. exact IH. Qed.

Lemma section_name_inj dept sem i j :
  (65 + Z.of_nat i <= MAX_CODE_POINT)%Z -> (65 + Z.of_nat j <= MAX_CODE_POINT)%Z ->
  section_name dept sem i = section_name dept sem j -> i = j.
Proof.
  unfold section_name. intros Hi Hj H.
  do 4 apply string_app_cancel in H.
  apply (f_equal utf8_decode) in H. rewrite !py_chr_decode in H by lia. lia.
Qed.

Lemma capacity_row_ok dept bi row key b :
  capacity_row dept bi row !! key = Some b ->
  bi !! key = Some b \/
  (key = batch_key (b_department b) (b_semester b) /\ b_semester b <> 0%Z /\
   (0 < b_students b)%Z /\
   b_sections b = ceil_div (Z.to_nat (b_students b)) STUDENTS_PER_SECTION /\
   (65 + (Z.of_nat (b_sections b) - 1) <= MAX_CODE_POINT)%Z /\
   b_section_names b = map (section_name (b_department b) (b_semester b)) (seq 0 (b_sections b))).
Proof.
  unfold capacity_row. destruct (cr_semester row) as [sem|]; [|by left].
  case_decide as Hc; [|by left]. case_decide as Hm; [by left|].
  destruct (decide (key = batch_key dept sem)) as [->|Hne].
  - rewrite lookup_insert_eq. intros [= <-]. right. cbn [b_department b_semester b_students b_sections b_section_names].
    split; [done|]. split; [tauto|]. split; [tauto|]. split; [done|]. split; [apply Z.nlt_ge; exact Hm|done].
  - rewrite lookup_insert_ne by congruence. by left.
Qed.

(** X5: every batch [analyze_capacity] records has a non-zero semester
    and a positive student count, is stored under the key
    [{dept}_Sem{semester}], gets just enough sections of 50 for its
    students ([50 * (sections - 1) < students <= 50 * sections]), and
    has one section name per section, all distinct. *)
Theorem analyze_capacity_batches files key b :
  analyze_capacity files ∅ !! key = Some b ->
  key = batch_key (b_department b) (b_semester b) /\ b_semester b <> 0%Z /\
  (0 < b_students b)%Z /\
  STUDENTS_PER_SECTION * (b_sections b - 1) < Z.to_nat (b_students b) <=
    STUDENTS_PER_SECTION * b_sections b /\
  length (b_section_names b) = b_sections b /\ NoDup (b_section_names b).
Proof.
  assert (Hgen : forall files bi, analyze_capacity files bi !! key = Some b ->
    bi !! key = Some b \/
    (key = batch_key (b_department b) (b_semester b) /\ b_semester b <> 0%Z /\
     (0 < b_students b)%Z /\
     b_sections b = ceil_div (Z.to_nat (b_students b)) STUDENTS_PER_SECTION /\
     (65 + (Z.of_nat (b_sections b) - 1) <= MAX_CODE_POINT)%Z /\
     b_section_names b = map (section_name (b_department b) (b_semester b)) (seq 0 (b_sections b)))).
  { clear files. intros files. induction files as [|f files IH]; intros bi H; [by left|].
    simpl in H. apply IH in H as [H|H]; [|by right].
    destruct (cf_capacity f) as [rows|]; [|by left].
    revert bi H. induction rows as [|row rows IHr]; intros bi H; [by left|].
    simpl in H. apply IHr in H as [H|H]; [|by right].
    apply capacity_row_ok in H as [H|H]; [by left|by right]. }
  intros H. apply Hgen in H as [H|(Hk & Hs & Hp & Hn & Hm & Hnames)];
    [by rewrite lookup_empty in H|].
  split; [done|]. split; [done|]. split; [done|]. split.
  - rewrite Hn. unfold ceil_div, STUDENTS_PER_SECTION.
    set (x := Z.to_nat (b_students b)).
    assert (0 < x) by (unfold x; lia).
    pose proof (Nat.div_mod_eq (x + 50 - 1) 50). pose proof (Nat.mod_upper_bound (x + 50 - 1) 50).
    lia.
  - rewrite Hnames. split; [by rewrite length_map, length_seq|].
    apply NoDup_fmap_2_strong; [|apply NoDup_seq].
    intros i j Hi Hj Heq. apply list_elem_of_In, in_seq in Hi. apply list_elem_of_In, in_seq in Hj.
    apply (section_name_inj (b_department b) (b_semester b) i j); [lia|lia|done].
Qed.

(** * Electives pool *)

Section Assoc.
Context {K V : Type} `{EqDecision K}.

Lemma assoc_insert_In (k : K) (v : V) l x :
  In x (assoc_insert k v l) -> x = (k, v) \/ In x l.
Proof.
  induction l as [|[k' v'] l IH]; simpl; [intuition|].
  destruct (decide (k = k')) as [->|]; simpl; [intuition|].
  intros [<-|H]; [by right; left|]. destruct (IH H); [by left|by right; right].
Qed.

Lemma assoc_insert_keys (k : K) (v : V) l :
  map fst (assoc_insert k v l) =
  if decide (k ∈ map fst l) then map fst l else (map fst l ++ [k])%list.
Proof.
  induction l as [|[k' v'] l IH]; simpl.
  - done || (case_decide as H; [by apply elem_of_nil in H|done]).
  - destruct (decide (k = k')) as [->|Hne]; simpl.
    + rewrite decide_True; [done|by left].
    + rewrite IH. destruct (decide (k ∈ map fst l)) as [Hin|Hin].
      * rewrite decide_True; [done|by right].
      * rewrite decide_False; [done|]. intros Hk%elem_of_cons. tauto.
Qed.

Lemma assoc_insert_NoDup (k : K) (v : V) l :
  NoDup (map fst l) -> NoDup (map fst (assoc_insert k v l)).
Proof.
  intros Hl. rewrite assoc_insert_keys. case_decide as Hin; [done|].
  apply NoDup_app. split; [done|]. split; [|apply NoDup_singleton].
  intros x Hx ->%list_elem_of_singleton. done.
Qed.

Lemma assoc_insert_has (k : K) (v : V) l : In (k, v) (assoc_insert k v l).
Proof.
  induction l as [|[k' v'] l IH]; simpl; [by left|].
  destruct (decide (k = k')); simpl; [by left|by right].
Qed.

Lemma assoc_lookup_In (k : K) (v : V) l : assoc_lookup k l = Some v -> In (k, v) l.
Proof.
  induction l as [|[k' v'] l IH]; simpl; [done|].
  destruct (decide (k = k')) as [->|]; [intros [= ->]; by left|]. intros H; right; auto.
Qed.

Lemma In_assoc_lookup (k : K) (v : V) l :
  NoDup (map fst l) -> In (k, v) l -> assoc_lookup k l = Some v.
Proof.
  induction l as [|[k' v'] l IH]; simpl; [done|]. intros Hnd%NoDup_cons.
  destruct Hnd as [Hnot Hnd]. intros [[= -> ->]|H].
  - by rewrite decide_True.
  - rewrite decide_False; [by apply IH|]. intros ->. apply Hnot.
    apply list_elem_of_In, in_map_iff. by exists (k', v).
Qed.

Lemma assoc_lookup_None (k : K) (l : list (K * V)) :
  k ∉ map fst l -> assoc_lookup k l = None.
Proof.
  induction l as [|[k' v'] l IH]; simpl; [done|]. intros Hk.
  rewrite decide_False; [apply IH|]; intros ?; apply Hk; [by right|subst; by left].
Qed.

Lemma assoc_lookup_insert (k k' : K) (v : V) l :
  assoc_lookup k (assoc_insert k' v l) = if decide (k = k') then Some v else assoc_lookup k l.
Proof.
  induction l as [|[k'' v''] l IH]; simpl.
  - by destruct (decide (k = k')).
  - destruct (decide (k' = k'')) as [->|Hne]; simpl.
    + destruct (decide (k = k'')); done.
    + destruct (decide (k = k'')) as [->|]; [by rewrite decide_False|]. done.
Qed.

End Assoc.

Lemma own_department_eligible t d c :
  "ALL" ∈ determine_eligible_departments t d c \/ d ∈ determine_eligible_departments t d c.
Proof.
  unfold determine_eligible_departments, related_depts.
  repeat case_decide; subst; simpl; (left; by left) || (right; set_solver).
Qed.

Lemma eligible_cross t d c :
  1 < length (determine_eligible_departments t d c) <->
  t = "Technical" /\ d ∈ ["CS"; "SE"; "AI"; "DS"; "INFS"].
Proof.
  unfold determine_eligible_departments.
  destruct (decide (t = "General")) as [->|Hg].
  { simpl. split; [lia|]. intros [Ht _]. discriminate Ht. }
  destruct (decide (t = "Technical")) as [->|Ht]; cycle 1.
  { simpl. split; [lia|]. tauto. }
  unfold related_depts.
  destruct (decide (d = "CS")) as [->|H1]; [simpl; split; [intros _; split; [done|set_solver]|lia]|].
  destruct (decide (d = "SE")) as [->|H2]; [simpl; split; [intros _; split; [done|set_solver]|lia]|].
  destruct (decide (d = "AI")) as [->|H3]; [simpl; split; [intros _; split; [done|set_solver]|lia]|].
  destruct (decide (d = "DS")) as [->|H4]; [simpl; split; [intros _; split; [done|set_solver]|lia]|].
  destruct (decide (d = "INFS")) as [->|H5]; [simpl; split; [intros _; split; [done|set_solver]|lia]|].
  split; [destruct (decide (d = "CB")); simpl; lia|].
  intros [_ Hd]. repeat (apply elem_of_cons in Hd as [Hd|Hd]; [congruence|]).
  by apply elem_of_nil in Hd.
Qed.

Lemma process_row_pool_ok d acc r : pool_ok acc.1 -> pool_ok (process_elective_row d acc r).1.
Proof.
  destruct acc as [pool stats]. unfold process_elective_row.
  destruct (er_credit_hour r), (er_sections_count r); try done.
  case_decide as Hc; [done|]. intros [Hnd Hall]. simpl. split; [by apply assoc_insert_NoDup|].
  apply Forall_forall. intros x Hx%list_elem_of_In%assoc_insert_In. destruct Hx as [->|Hx].
  - simpl. split; [tauto|]. split; [tauto|]. split; [apply own_department_eligible|].
    unfold type_min_students, type_max_students. split; repeat case_decide; lia.
  - eapply Forall_forall in Hall; [exact Hall|]. by apply list_elem_of_In.
Qed.

Lemma process_pool_ok files acc : pool_ok acc.1 -> pool_ok (process_electives_data files acc).1.
Proof.
  revert acc. induction files as [|f files IH]; intros acc H; simpl; [done|].
  apply IH. destruct (ef_electives f) as [rows|]; [|done].
  revert acc H. induction rows as [|r rows IHr]; intros acc H; simpl; [done|].
  apply IHr. by apply process_row_pool_ok.
Qed.

Lemma pool_ok_empty : pool_ok [].
Proof. split; [constructor|constructor]. Qed.

(** X6: in the pool [process_electives_data] builds, no elective code is
    empty or ["nan"], every elective is offered to the students of its
    own source department, and the list [_get_available_electives_for_student]
    returns names each elective at most once. *)
Theorem electives_available_to_source files stats0 dept sem :
  let pool := fst (process_electives_data files ([], stats0)) in
  NoDup (available_electives pool dept sem) /\
  Forall (fun p => p.1 <> "" /\ p.1 <> "nan" /\
                   p.1 ∈ available_electives pool (pe_source_department p.2) sem) pool.
Proof.
  simpl. destruct (process_pool_ok files ([], stats0) pool_ok_empty) as [Hnd Hall].
  set (pool := (process_electives_data files ([], stats0)).1) in *. split.
  - unfold available_electives. eapply sublist_NoDup; [exact Hnd|].
    apply fmap_sublist, sublist_filter.
  - apply Forall_forall. intros [code e] Hin. eapply Forall_forall in Hall; [|exact Hin].
    simpl in *. destruct Hall as (H1 & H2 & H3 & _). split; [done|]. split; [done|].
    unfold available_electives. apply list_elem_of_In, in_map_iff. exists (code, e).
    split; [done|]. apply list_elem_of_In, list_elem_of_filter. by split.
Qed.

Lemma process_row_stats d acc r :
  total_electives (process_elective_row d acc r).2 =
    total_electives acc.2 + (if row_stored r then 1 else 0) /\
  cross_dept_electives (process_elective_row d acc r).2 =
    cross_dept_electives acc.2 +
    (if row_stored r && bool_decide (er_type r = "Technical" /\ d ∈ ["CS"; "SE"; "AI"; "DS"; "INFS"])
     then 1 else 0).
Proof.
  destruct acc as [pool stats]. unfold process_elective_row, row_stored.
  destruct (er_credit_hour r), (er_sections_count r); simpl; try lia.
  case_decide as Hc; simpl.
  - rewrite bool_decide_false; [simpl; lia|]. tauto.
  - rewrite bool_decide_true; [|tauto]. simpl. split; [lia|].
    case_decide as Hx; case_bool_decide as Hy; simpl;
      rewrite ?eligible_cross in Hx; tauto || lia.
Qed.

Lemma filter_length_cons_bool {A} (P : A -> bool) x l :
  length (filter (fun r => P r = true) (x :: l)) =
  (if P x then 1 else 0) + length (filter (fun r => P r = true) l).
Proof. rewrite filter_cons. destruct (P x); case_decide; simpl; done. Qed.

(** X7: [process_electives_data] adds one to [total_electives] for each
    row it stores (both [int()] succeed and the code is neither empty nor
    ["nan"]), and one to [cross_dept_electives] exactly for the stored
    rows of type ["Technical"] from CS, SE, AI, DS or INFS: General and
    Free electives, eligible to ['ALL'], are never counted as
    cross-department. *)
Theorem process_electives_stats files acc :
  let stats := snd (process_electives_data files acc) in
  total_electives stats =
    total_electives acc.2 + count_rows (fun _ r => row_stored r) files /\
  cross_dept_electives stats =
    cross_dept_electives acc.2 +
    count_rows (fun d r => row_stored r &&
      bool_decide (er_type r = "Technical" /\ d ∈ ["CS"; "SE"; "AI"; "DS"; "INFS"])) files.
Proof.
  simpl. revert acc. induction files as [|f files IH]; intros acc; simpl; [unfold count_rows; simpl; lia|].
  destruct (IH (match ef_electives f with
                | Some rows => foldl (process_elective_row (ef_department f)) acc rows
                | None => acc end)) as [IH1 IH2].
  unfold process_electives_data in IH1, IH2 |- *. rewrite IH1, IH2. unfold count_rows. simpl.
  unfold file_rows. destruct (ef_electives f) as [rows|]; simpl; [|lia].
  clear IH IH1 IH2. revert acc. induction rows as [|r rows IHr]; intros acc; simpl; [lia|].
  destruct (IHr (process_elective_row (ef_department f) acc r)) as [IHa IHb].
  rewrite !filter_length_cons_bool.
  destruct (process_row_stats (ef_department f) acc r) as [Ha Hb]. lia.
Qed.

(** * Demand analysis *)

Lemma filter_one {A} (P : A -> Prop) `{forall x, Decision (P x)} (x : A) :
  filter P [x] = if decide (P x) then [x] else [].
Proof. rewrite filter_cons. by destruct (decide (P x)). Qed.

Lemma demand_inv_nil : demand_inv [] [].
Proof.
  split; [constructor|]. intros code. simpl. split.
  { split; [by intros []|]. intros (p & Hp & _). by apply elem_of_nil in Hp. }
  split; [done|]. split; [done|]. split; [|done].
  intros q Hq. repeat (apply elem_of_cons in Hq as [->|Hq]; [done|]). by apply elem_of_nil in Hq.
Qed.

Lemma count_pref_step da ps p da' :
  demand_inv da ps -> count_pref da p = Ok da' ->
  pr_priority p ∈ [1%Z; 2%Z; 3%Z] /\ demand_inv da' (ps ++ [p]).
Proof.
  intros [Hnd Hinv] Hc. unfold count_pref in Hc.
  destruct (Hinv (pr_code p)) as (Hsome & Htot & Hkeys & Hprio & Hdept).
  set (d := default new_demand (assoc_lookup (pr_code p) da)) in *.
  destruct (assoc_lookup (pr_priority p) (dm_by_priority d)) as [n|] eqn:Hq; [|done].
  injection Hc as <-.
  assert (Hqin : pr_priority p ∈ [1%Z; 2%Z; 3%Z]).
  { rewrite <- Hkeys. apply assoc_lookup_In in Hq. apply list_elem_of_In, in_map_iff.
    by exists (pr_priority p, n). }
  split; [done|]. split; [by apply assoc_insert_NoDup|].
  intros code. rewrite assoc_lookup_insert.
  destruct (decide (code = pr_code p)) as [->|Hne]; simpl.
  - split.
    { split; [intros _; exists p; split; [apply elem_of_app; right; by left|done]|done]. }
    rewrite !filter_app, !length_app, !filter_one. rewrite decide_True by done. simpl.
    split; [rewrite Htot; lia|].
    split; [rewrite assoc_insert_keys, decide_True; [done|by rewrite Hkeys]|].
    split.
    + intros q Hq'. rewrite assoc_lookup_insert, filter_app, length_app, filter_one.
      destruct (decide (q = pr_priority p)) as [->|Hqne].
      * rewrite decide_True by done. rewrite Hprio in Hq by done. injection Hq as <-.
        simpl. f_equal. lia.
      * rewrite decide_False by (intros [_ ?]; congruence). rewrite Hprio by done.
        simpl. f_equal. lia.
    + intros dept. rewrite assoc_lookup_insert, filter_app, length_app, filter_one.
      destruct (decide (dept = pr_department p)) as [->|Hdne].
      * rewrite decide_True by done. simpl. rewrite Hdept. lia.
      * rewrite decide_False by (intros [_ ?]; congruence). rewrite Hdept. simpl. lia.
  - destruct (Hinv code) as (Hs' & Ht' & Hk' & Hp' & Hd'). split.
    { rewrite Hs'. split; intros (p' & Hp & Hc).
      - exists p'. split; [apply elem_of_app; by left|done].
      - apply elem_of_app in Hp as [Hp|Hp]; [by exists p'|].
        apply list_elem_of_singleton in Hp as ->. congruence. }
    rewrite !filter_app, !length_app, !filter_one. rewrite decide_False by congruence.
    simpl. split; [rewrite Ht'; lia|]. split; [done|]. split.
    + intros q Hq'. rewrite filter_app, length_app, filter_one.
      rewrite decide_False by (intros [? _]; congruence). rewrite Hp' by done. simpl. f_equal. lia.
    + intros dept. rewrite filter_app, length_app, filter_one.
      rewrite decide_False by (intros [? _]; congruence). rewrite Hd'. simpl. lia.
Qed.

Lemma count_pref_raise da ps p e :
  demand_inv da ps -> count_pref da p = Raise e ->
  e = "KeyError" /\ pr_priority p ∉ [1%Z; 2%Z; 3%Z].
Proof.
  intros [_ Hinv] Hc. unfold count_pref in Hc.
  destruct (Hinv (pr_code p)) as (_ & _ & Hkeys & Hprio & _).
  destruct (assoc_lookup (pr_priority p) _) as [n|] eqn:Hq; [done|].
  injection Hc as <-. split; [done|]. intros Hin. rewrite Hprio in Hq by done. done.
Qed.

Lemma count_pref_some da ps p :
  demand_inv da ps -> pr_priority p ∈ [1%Z; 2%Z; 3%Z] -> exists da', count_pref da p = Ok da'.
Proof.
  intros [_ Hinv] Hp. unfold count_pref.
  destruct (Hinv (pr_code p)) as (_ & _ & _ & Hprio & _). rewrite Hprio by done. eauto.
Qed.

Lemma count_loop_ok ps : forall da ps0 da',
  demand_inv da ps0 -> rfold count_pref da ps = Ok da' ->
  Forall (fun p => pr_priority p ∈ [1%Z; 2%Z; 3%Z]) ps /\ demand_inv da' (ps0 ++ ps)%list.
Proof.
  induction ps as [|p ps IH]; intros da ps0 da' Hinv H; simpl in H.
  - injection H as <-. rewrite app_nil_r. by split.
  - destruct (count_pref da p) as [da1|e] eqn:Hc; [|done].
    destruct (count_pref_step da ps0 p da1 Hinv Hc) as [Hp Hinv1].
    destruct (IH da1 (ps0 ++ [p])%list da' Hinv1 H) as [Hall Hfin].
    rewrite <- app_assoc in Hfin. by split; [constructor|].
Qed.

Lemma count_loop_raise ps : forall da ps0 e,
  demand_inv da ps0 -> rfold count_pref da ps = Raise e ->
  e = "KeyError" /\ Exists (fun p => pr_priority p ∉ [1%Z; 2%Z; 3%Z]) ps.
Proof.
  induction ps as [|p ps IH]; intros da ps0 e Hinv H; simpl in H; [done|].
  destruct (count_pref da p) as [da1|e'] eqn:Hc.
  - destruct (count_pref_step da ps0 p da1 Hinv Hc) as [_ Hinv1].
    destruct (IH da1 (ps0 ++ [p])%list e Hinv1 H) as [He Hex]. split; [done|]. by apply Exists_cons; right.
  - injection H as <-. destruct (count_pref_raise da ps0 p e' Hinv Hc) as [He Hp].
    split; [done|]. by apply Exists_cons; left.
Qed.

Lemma count_loop_some ps : forall da ps0,
  demand_inv da ps0 -> Forall (fun p => pr_priority p ∈ [1%Z; 2%Z; 3%Z]) ps ->
  exists da', rfold count_pref da ps = Ok da'.
Proof.
  induction ps as [|p ps IH]; intros da ps0 Hinv Hall; simpl; [eauto|].
  apply Forall_cons in Hall as [Hp Hall].
  destruct (count_pref_some da ps0 p Hinv Hp) as [da1 Hc]. rewrite Hc.
  destruct (count_pref_step da ps0 p da1 Hinv Hc) as [_ Hinv1]. by apply (IH da1 (ps0 ++ [p])%list).
Qed.

Lemma filter_length_pos {A} (P : A -> Prop) `{forall x, Decision (P x)} (l : list A) :
  0 < length (filter P l) <-> exists x, x ∈ l /\ P x.
Proof.
  induction l as [|y l IH]; simpl.
  - split; [lia|]. intros (x & Hx & _). by apply elem_of_nil in Hx.
  - rewrite filter_cons. destruct (decide (P y)) as [Hy|Hy]; simpl.
    + split; [intros _; exists y; split; [by left|done]|lia].
    + rewrite IH. split; intros (x & Hx & Hpx); exists x; split; try done.
      * by right.
      * apply elem_of_cons in Hx as [->|Hx]; [done|done].
Qed.

Lemma priority_split (ps : list Pref) code :
  Forall (fun p => pr_priority p ∈ [1%Z; 2%Z; 3%Z]) ps ->
  length (filter (fun p => pr_code p = code) ps) =
  length (filter (fun p => pr_code p = code /\ pr_priority p = 1%Z) ps) +
  length (filter (fun p => pr_code p = code /\ pr_priority p = 2%Z) ps) +
  length (filter (fun p => pr_code p = code /\ pr_priority p = 3%Z) ps).
Proof.
  induction ps as [|p ps IH]; simpl; [done|]. intros [Hp Hall]%Forall_cons.
  rewrite !filter_cons. specialize (IH Hall).
  destruct (decide (pr_code p = code)) as [Hc|Hc].
  - assert (pr_priority p = 1%Z \/ pr_priority p = 2%Z \/ pr_priority p = 3%Z) as Hq.
    { repeat (apply elem_of_cons in Hp as [Hp|Hp]; [tauto|]). by apply elem_of_nil in Hp. }
    repeat case_decide; simpl; try lia; tauto.
  - repeat case_decide; simpl; try lia; tauto.
Qed.

(** X8: when [analyze_demand] returns, [demand_analysis] has an entry
    exactly for the electives some preference names; its [total] is the
    number of preferences naming the elective, [by_priority[1]] the
    number of them with priority 1, the [by_priority] counts add up to
    the [total], and [by_dept[dept]] is the number of them from [dept]. *)
Theorem analyze_demand_counts pool prefs da :
  analyze_demand pool prefs = Ok da ->
  NoDup (map fst da) /\
  forall code,
    let d := default new_demand (assoc_lookup code da) in
    (is_Some (assoc_lookup code da) <-> 0 < pref_count prefs code) /\
    dm_total d = pref_count prefs code /\
    assoc_lookup 1%Z (dm_by_priority d) =
      Some (length (filter (fun p => pr_code p = code /\ pr_priority p = 1%Z)
                      (concat (map snd prefs)))) /\
    sum_list (map snd (dm_by_priority d)) = dm_total d /\
    (forall dept, default 0 (assoc_lookup dept (dm_by_dept d)) =
       length (filter (fun p => pr_code p = code /\ pr_department p = dept)
                 (concat (map snd prefs)))).
Proof.
  unfold analyze_demand. destruct (rfold count_pref [] _) as [da0|e] eqn:Hl; [|done].
  destruct (rfold _ tt _); [|done]. intros [= <-].
  destruct (count_loop_ok _ [] [] da0 demand_inv_nil Hl) as [Hall [Hnd Hinv]].
  simpl in Hinv. split; [done|]. intros code.
  destruct (Hinv code) as (Hs & Ht & Hk & Hp & Hd). unfold pref_count.
  split; [rewrite Hs, filter_length_pos; done|].
  split; [done|]. split; [apply Hp; by left|]. split; [|done].
  set (d := default new_demand (assoc_lookup code da0)) in *.
  destruct (dm_by_priority d) as [|[q1 n1] [|[q2 n2] [|[q3 n3] [|]]]] eqn:Hbp; try done.
  simpl in Hk. injection Hk as -> -> ->.
  pose proof (Hp 1%Z ltac:(by left)) as H1. pose proof (Hp 2%Z ltac:(by right; left)) as H2.
  pose proof (Hp 3%Z ltac:(by right; right; left)) as H3.
  simpl in H1, H2, H3. injection H1 as ->. injection H2 as ->. injection H3 as ->.
  simpl. rewrite Ht, (priority_split _ code Hall). lia.
Qed.

(** X9: a preference whose priority is not 1, 2 or 3 makes
    [analyze_demand] raise [KeyError] (at [by_priority[priority]]). *)
Theorem analyze_demand_bad_priority pool prefs p :
  p ∈ concat (map snd prefs) -> pr_priority p ∉ [1%Z; 2%Z; 3%Z] ->
  analyze_demand pool prefs = Raise "KeyError".
Proof.
  intros Hin Hbad. unfold analyze_demand.
  destruct (rfold count_pref [] _) as [da0|e] eqn:Hl.
  - destruct (count_loop_ok _ [] [] da0 demand_inv_nil Hl) as [Hall _].
    eapply Forall_forall in Hall; [|exact Hin]. done.
  - by destruct (count_loop_raise _ [] [] e demand_inv_nil Hl) as [-> _].
Qed.

Lemma ins_desc_elem {A} (key : A -> nat) x y l : x ∈ ins_desc key y l <-> x = y \/ x ∈ l.
Proof.
  induction l as [|z l IH]; simpl.
  - rewrite list_elem_of_singleton. split; [tauto|]. intros [->|Hx]; [done|by apply elem_of_nil in Hx].
  - destruct (Nat.ltb (key z) (key y)); rewrite !elem_of_cons; [tauto|]. rewrite IH. tauto.
Qed.

Lemma sorted_by_desc_elem {A} (key : A -> nat) x l : x ∈ sorted_by_desc key l -> x ∈ l.
Proof.
  unfold sorted_by_desc. cut (forall acc, x ∈ foldl (fun acc y => ins_desc key y acc) acc l ->
                                          x ∈ acc \/ x ∈ l).
  { intros Hc Hx. destruct (Hc [] Hx) as [Hn|]; [by apply elem_of_nil in Hn|done]. }
  induction l as [|y l IH]; intros acc Hx; simpl in *; [by left|].
  apply IH in Hx as [Hx|Hx]; [|by right; right].
  apply ins_desc_elem in Hx as [->|Hx]; [by right; left|by left].
Qed.

Lemma rfold_some {A B} (f : A -> B -> res A) (l : list B) :
  (forall a x, x ∈ l -> exists a', f a x = Ok a') -> forall a, exists r, rfold f a l = Ok r.
Proof.
  induction l as [|x l IH]; intros Hf a; simpl; [eauto|].
  destruct (Hf a x ltac:(by left)) as [a' ->]. apply IH. intros b y Hy. apply Hf. by right.
Qed.

(** X10: [analyze_demand] returns (raises no [KeyError]) when every
    preference has priority 1, 2 or 3 and names an elective of
    [electives_pool]. *)
Theorem analyze_demand_succeeds pool prefs :
  Forall (fun p => pr_priority p ∈ [1%Z; 2%Z; 3%Z] /\ is_Some (assoc_lookup (pr_code p) pool))
    (concat (map snd prefs)) ->
  exists da, analyze_demand pool prefs = Ok da.
Proof.
  intros Hall. unfold analyze_demand.
  assert (Hpr : Forall (fun p => pr_priority p ∈ [1%Z; 2%Z; 3%Z]) (concat (map snd prefs))).
  { eapply Forall_impl; [exact Hall|]. by intros x [? _]. }
  destruct (count_loop_some _ [] [] demand_inv_nil Hpr) as [da0 Hl]. rewrite Hl.
  destruct (count_loop_ok _ [] [] da0 demand_inv_nil Hl) as [_ [_ Hinv]]. simpl in Hinv.
  edestruct (rfold_some (fun (_ : unit) item => print_top pool item)
               (take 10 (sorted_by_desc (fun it => dm_total it.2) da0))) as [r Hr].
  2: { rewrite Hr. eauto. }
  intros _ [code d] Hx. apply elem_of_sublist with (l2 := sorted_by_desc (fun it => dm_total it.2) da0) in Hx;
    [|apply sublist_take]. apply sorted_by_desc_elem in Hx.
  destruct (Hinv code) as (Hs & _ & Hk & Hp & _).
  assert (Hl' : assoc_lookup code da0 = Some d).
  { apply In_assoc_lookup; [by destruct (count_loop_ok _ [] [] da0 demand_inv_nil Hl) as [_ [? _]]|].
    by apply list_elem_of_In. }
  unfold print_top. simpl.
  destruct (proj1 Hs ltac:(by rewrite Hl')) as (p & Hp' & <-).
  eapply Forall_forall in Hall; [|exact Hp']. destruct Hall as [_ [e ->]].
  rewrite Hl' in Hp. simpl in Hp. rewrite Hp by by left. eauto.
Qed.

(** * Elective sections *)

Lemma append_loop code (mk : nat -> ESection) (l : list nat) : forall secs n s1 n1,
  foldl (fun acc i => (append_section code (mk i) acc.1, S acc.2)) (secs, n) l = (s1, n1) ->
  n1 = n + length l /\
  (forall c, c <> code -> assoc_lookup c s1 = assoc_lookup c secs) /\
  assoc_lookup code s1 =
    match l with [] => assoc_lookup code secs
         | _ => Some (default [] (assoc_lookup code secs) ++ map mk l)%list end.
Proof.
  induction l as [|i l IH]; intros secs n s1 n1 Hf; simpl in Hf.
  { injection Hf as <- <-. simpl. split; [lia|done]. }
  destruct (IH (append_section code (mk i) secs) (S n) s1 n1 Hf) as (H1 & H2 & H3).
  split; [rewrite H1; simpl; lia|]. unfold append_section in *.
  split.
  - intros c Hc. rewrite H2 by done. rewrite assoc_lookup_insert. by rewrite decide_False.
  - rewrite H3, assoc_lookup_insert, decide_True by done. destruct l; simpl; [done|].
    by rewrite <- app_assoc.
Qed.

Lemma create_loop pool (Hp : pool_ok pool) da : NoDup (map fst da) ->
  forall secs0 n0, (forall c, c ∈ map fst da -> assoc_lookup c secs0 = None) ->
  exists secs n, rfold (create_for pool) (secs0, n0) da = Ok (secs, n) /\
    n = n0 + sum_list (map (fun it => length (sections_of pool it)) da) /\
    (forall c, c ∉ map fst da -> assoc_lookup c secs = assoc_lookup c secs0) /\
    (forall c d, In (c, d) da ->
       assoc_lookup c secs = match sections_of pool (c, d) with [] => None | ss => Some ss end).
Proof.
  induction da as [|[code d] da IH]; intros Hnd secs0 n0 Hfresh; simpl.
  { exists secs0, n0. split; [done|]. split; [lia|]. split; [done|done]. }
  apply NoDup_cons in Hnd as [Hnotin Hnd].
  assert (Hc0 : assoc_lookup code secs0 = None) by (apply Hfresh; by left).
  destruct (assoc_lookup code pool) as [info|] eqn:Hinfo.
  2: { (* not in the pool *)
    destruct (IH Hnd secs0 n0 ltac:(intros c Hc; apply Hfresh; by right))
      as (secs & n & Hr & Hn & Hout & Hin).
    exists secs, n. split; [done|]. unfold sections_of at 1. simpl. rewrite Hinfo. simpl.
    split; [done|]. split.
    - intros c Hc. apply Hout. intros ?; apply Hc; by right.
    - intros c d' [[= <- <-]|Hcd]; [|by apply Hin].
      unfold sections_of. simpl. rewrite Hinfo. rewrite Hout by done. done. }
  assert (Hmax : 0 < pe_max_students info).
  { destruct Hp as [_ Hall]. apply assoc_lookup_In in Hinfo.
    eapply Forall_forall in Hall; [|apply list_elem_of_In; exact Hinfo]. simpl in Hall. lia. }
  destruct (Nat.ltb (dm_total d) (pe_min_students info)) eqn:Hlt.
  - destruct (IH Hnd secs0 n0 ltac:(intros c Hc; apply Hfresh; by right))
      as (secs & n & Hr & Hn & Hout & Hin).
    exists secs, n. split; [done|]. unfold sections_of at 1. simpl. rewrite Hinfo, Hlt. simpl.
    split; [done|]. split.
    + intros c Hc. apply Hout. intros ?; apply Hc; by right.
    + intros c d' [[= <- <-]|Hcd]; [|by apply Hin].
      unfold sections_of. simpl. rewrite Hinfo, Hlt. rewrite Hout by done. done.
  - rewrite decide_False by lia.
    set (mk := fun i => mkESection (elective_section_key code i) (pe_max_students info) 0
                          (dm_by_dept d)).
    set (k := ceil_div (dm_total d) (pe_max_students info)).
    match goal with |- context [rfold (create_for pool) ?a da] =>
      destruct a as [s1 n1] eqn:Ha end.
    apply append_loop in Ha as (A1 & A2 & A3).
    destruct (IH Hnd s1 n1) as (secs & n & Hr & Hn & Hout & Hin).
    { intros c Hc. rewrite A2; [apply Hfresh; by right|]. intros ->. done. }
    exists secs, n. split; [exact Hr|].
    assert (Hso : sections_of pool (code, d) = map mk (seq 1 k)).
    { unfold sections_of. simpl. by rewrite Hinfo, Hlt. }
    split; [rewrite Hn, A1, Hso, length_map, length_seq; simpl; lia|].
    split.
    + intros c Hc. rewrite Hout by (intros ?; apply Hc; by right). apply A2.
      intros ->. apply Hc. by left.
    + intros c d' [[= <- <-]|Hcd]; [|by apply Hin].
      rewrite Hout by done. rewrite A3, Hso, Hc0. simpl.
      destruct (seq 1 k); done.
Qed.

Lemma ceil_div_bounds a b : 0 < b -> a <= ceil_div a b * b < a + b.
Proof.
  intros Hb. unfold ceil_div.
  pose proof (Nat.div_mod_eq (a + b - 1) b). pose proof (Nat.mod_upper_bound (a + b - 1) b).
  lia.
Qed.

Lemma ceil_div_pos a b : 0 < a -> 0 < b -> 0 < ceil_div a b.
Proof.
  intros Ha Hb. pose proof (ceil_div_bounds a b Hb). destruct (ceil_div a b); lia.
Qed.

Lemma analyze_demand_inv pool prefs da :
  analyze_demand pool prefs = Ok da ->
  Forall (fun p => pr_priority p ∈ [1%Z; 2%Z; 3%Z]) (concat (map snd prefs)) /\
  demand_inv da (concat (map snd prefs)).
Proof.
  unfold analyze_demand. destruct (rfold count_pref [] _) as [da0|e] eqn:Hl; [|done].
  destruct (rfold _ tt _); [|done]. intros [= <-].
  exact (count_loop_ok _ [] [] da0 demand_inv_nil Hl).
Qed.

(** The sections built for every elective, from [analyze_demand]'s result. *)
Lemma create_from_demand pool prefs da :
  pool_ok pool -> analyze_demand pool prefs = Ok da ->
  exists secs n, create_elective_sections pool da ([], 0) = Ok (secs, n) /\
    n = sum_list (map (fun it => length (sections_of pool it)) da) /\
    (forall c, c ∉ map fst da -> assoc_lookup c secs = None) /\
    (forall c d, In (c, d) da ->
       assoc_lookup c secs = match sections_of pool (c, d) with [] => None | ss => Some ss end) /\
    (forall c d, In (c, d) da -> dm_total d = pref_count prefs c) /\
    (forall c, c ∉ map fst da -> pref_count prefs c = 0) /\
    NoDup (map fst da).
Proof.
  intros Hp Ha. destruct (analyze_demand_inv pool prefs da Ha) as [_ [Hnd Hinv]].
  destruct (create_loop pool Hp da Hnd [] 0 ltac:(done)) as (secs & n & Hr & Hn & Hout & Hin).
  exists secs, n. split; [exact Hr|]. split; [done|]. split; [intros c Hc; by rewrite Hout|].
  split; [done|]. split.
  - intros c d Hcd. destruct (Hinv c) as (_ & Ht & _). rewrite (In_assoc_lookup c d da Hnd Hcd) in Ht.
    exact Ht.
  - split; [|done]. intros c Hc. destruct (Hinv c) as (_ & Ht & _).
    rewrite assoc_lookup_None in Ht by done. simpl in Ht. unfold pref_count. lia.
Qed.

Lemma created_sections_spec pool prefs da secs n :
  pool_ok pool -> analyze_demand pool prefs = Ok da ->
  create_elective_sections pool da ([], 0) = Ok (secs, n) ->
  forall code,
    match assoc_lookup code secs with
    | None => forall e, assoc_lookup code pool = Some e -> pref_count prefs code < pe_min_students e
    | Some ss => exists e, assoc_lookup code pool = Some e /\
        pe_min_students e <= pref_count prefs code /\
        map es_key ss = map (elective_section_key code) (seq 1 (length ss)) /\
        Forall (fun s => es_capacity s = pe_max_students e /\ es_enrolled s = 0) ss /\
        pref_count prefs code <= length ss * pe_max_students e <
          pref_count prefs code + pe_max_students e
    end.
Proof.
  intros Hp Ha Hc.
  destruct (create_from_demand pool prefs da Hp Ha)
    as (secs' & n' & Hr & _ & Hout & Hin & Htot & Hzero & Hnd).
  rewrite Hc in Hr. injection Hr as <- <-. intros code.
  assert (Hmin : forall e, assoc_lookup code pool = Some e ->
                 0 < pe_min_students e /\ 0 < pe_max_students e).
  { intros e He. destruct Hp as [_ Hall]. apply assoc_lookup_In in He.
    eapply Forall_forall in Hall; [|apply list_elem_of_In; exact He]. simpl in Hall. lia. }
  destruct (decide (code ∈ map fst da)) as [Hk|Hk].
  2: { rewrite Hout by done. intros e He. rewrite Hzero by done. by apply Hmin. }
  apply list_elem_of_In, in_map_iff in Hk as [[c d] [Hc' Hcd]]. simpl in Hc'. subst c.
  rewrite (Hin code d Hcd). specialize (Htot code d Hcd).
  unfold sections_of. simpl.
  destruct (assoc_lookup code pool) as [e|] eqn:He; [|by intros e' ?].
  destruct (Hmin e eq_refl) as [Hmin0 Hmax0].
  destruct (Nat.ltb_spec (dm_total d) (pe_min_students e)) as [Hlt|Hge].
  { intros e' [= <-]. lia. }
  pose proof (ceil_div_pos (dm_total d) (pe_max_students e) ltac:(lia) Hmax0) as Hk.
  destruct (ceil_div (dm_total d) (pe_max_students e)) as [|k'] eqn:Hkd; [lia|].
  simpl. exists e. split; [done|]. split; [lia|]. split.
  - rewrite length_map, length_seq. simpl. rewrite map_map. done.
  - split.
    + constructor; [done|]. apply Forall_forall. intros s Hs.
      apply list_elem_of_In, in_map_iff in Hs as (i & <- & _). done.
    + rewrite length_map, length_seq. simpl. rewrite <- Htot.
      pose proof (ceil_div_bounds (dm_total d) (pe_max_students e) Hmax0) as Hb.
      rewrite Hkd in Hb. lia.
Qed.

(** X11: over the pool [process_electives_data] builds and the demand
    [analyze_demand] returns, [create_elective_sections] never raises; an
    elective gets sections exactly when it is in the pool and at least
    [min_students] preferences name it; its sections are keyed
    [Elective_{code}_Sec1], [_Sec2], ..., have capacity [max_students] and
    nobody enrolled, and are just enough for the demand
    ([demand <= sections * max_students < demand + max_students]). *)
Theorem create_sections_cover_demand files stats0 prefs da :
  let pool := fst (process_electives_data files ([], stats0)) in
  analyze_demand pool prefs = Ok da ->
  exists secs created,
    create_elective_sections pool da ([], 0) = Ok (secs, created) /\
    forall code,
      match assoc_lookup code secs with
      | None => forall e, assoc_lookup code pool = Some e -> pref_count prefs code < pe_min_students e
      | Some ss => exists e, assoc_lookup code pool = Some e /\
          pe_min_students e <= pref_count prefs code /\
          map es_key ss = map (elective_section_key code) (seq 1 (length ss)) /\
          Forall (fun s => es_capacity s = pe_max_students e /\ es_enrolled s = 0) ss /\
          pref_count prefs code <= length ss * pe_max_students e <
            pref_count prefs code + pe_max_students e
      end.
Proof.
  simpl. set (pool := fst (process_electives_data files ([], stats0))).
  pose proof (process_pool_ok files ([], stats0) pool_ok_empty) as Hp. fold pool in Hp.
  intros Ha.
  destruct (create_from_demand pool prefs da Hp Ha) as (secs & n & Hr & _).
  exists secs, n. split; [exact Hr|]. exact (created_sections_spec pool prefs da secs n Hp Ha Hr).
Qed.

Lemma capacity_sum (ss : list ESection) m :
  Forall (fun s => es_capacity s = m /\ es_enrolled s = 0) ss ->
  sum_list (map es_capacity ss) = length ss * m.
Proof.
  induction ss as [|s ss IH]; simpl; [done|]. intros [[-> _] Hall]%Forall_cons.
  rewrite IH by done. lia.
Qed.

(** X12: in the capacity report, after [analyze_demand] and
    [create_elective_sections], an elective with no sections has demand
    below its [min_students] and total capacity 0, and an elective with
    sections has at least [min_students] demand and a total capacity that
    covers its demand with less than one section to spare (so the
    reported utilization never exceeds 100%). *)
Theorem capacity_report_demand_covered files stats0 prefs da secs created :
  let pool := fst (process_electives_data files ([], stats0)) in
  analyze_demand pool prefs = Ok da ->
  create_elective_sections pool da ([], 0) = Ok (secs, created) ->
  Forall (fun l => exists e, assoc_lookup (cl_code l) pool = Some e /\
     ((cl_sections l = 0 /\ cl_total_capacity l = 0 /\ cl_demand l < pe_min_students e) \/
      (0 < cl_sections l /\ pe_min_students e <= cl_demand l <= cl_total_capacity l /\
       cl_total_capacity l < cl_demand l + pe_max_students e)))
    (capacity_report pool secs prefs).
Proof.
  simpl. set (pool := fst (process_electives_data files ([], stats0))).
  pose proof (process_pool_ok files ([], stats0) pool_ok_empty) as Hp. fold pool in Hp.
  intros Ha Hc. pose proof (created_sections_spec pool prefs da secs created Hp Ha Hc) as Hspec.
  unfold capacity_report. apply Forall_forall. intros l Hl.
  apply list_elem_of_In, in_map_iff in Hl as ([code e] & <- & Hin). simpl.
  exists e. assert (He : assoc_lookup code pool = Some e).
  { apply In_assoc_lookup; [by destruct Hp|done]. }
  split; [done|]. specialize (Hspec code).
  destruct (assoc_lookup code secs) as [ss|]; simpl.
  - destruct Hspec as (e' & He' & Hmin & _ & Hcap & Hb). rewrite He in He'. injection He' as <-.
    rewrite (capacity_sum ss (pe_max_students e) Hcap).
    right. destruct ss as [|s0 ss']; simpl in Hb |- *; [|lia].
    exfalso. destruct Hp as [_ Hall]. apply assoc_lookup_In in He.
    eapply Forall_forall in Hall; [|apply list_elem_of_In; exact He]. simpl in Hall. lia.
  - left. split; [done|]. split; [done|]. by apply Hspec.
Qed.

Lemma sum_list_perm (l1 l2 : list nat) : l1 ≡ₚ l2 -> sum_list l1 = sum_list l2.
Proof. induction 1; simpl; lia. Qed.

Lemma sum_list_nonzero {A} (h : A -> nat) (K : list A) :
  sum_list (map h K) = sum_list (map h (filter (fun c => h c <> 0) K)).
Proof.
  induction K as [|c K IH]; simpl; [done|]. rewrite filter_cons.
  destruct (decide (h c <> 0)); simpl; lia.
Qed.

Lemma sum_over_keys (h : string -> nat) (K1 K2 : list string) :
  NoDup K1 -> NoDup K2 -> (forall c, h c <> 0 -> c ∈ K1 /\ c ∈ K2) ->
  sum_list (map h K1) = sum_list (map h K2).
Proof.
  intros H1 H2 Hh. rewrite (sum_list_nonzero h K1), (sum_list_nonzero h K2).
  apply sum_list_perm, Permutation_map, NoDup_Permutation; try by apply NoDup_filter.
  intros c. rewrite !list_elem_of_filter. split; intros [Hc _]; split; try done; by apply Hh.
Qed.

Lemma ins_asc_perm {A} (key : A -> nat) x l : ins_asc key x l ≡ₚ x :: l.
Proof.
  induction l as [|y l IH]; simpl; [done|].
  destruct (Nat.ltb (key x) (key y)); [done|]. rewrite IH. constructor.
Qed.

Lemma sorted_by_perm {A} (key : A -> nat) l : sorted_by key l ≡ₚ l.
Proof.
  unfold sorted_by. cut (forall acc, foldl (fun acc x => ins_asc key x acc) acc l ≡ₚ acc ++ l).
  { intros H. apply H. }
  induction l as [|x l IH]; intros acc; simpl; [by rewrite app_nil_r|].
  rewrite IH, ins_asc_perm. simpl. by rewrite Permutation_middle.
Qed.

Lemma schedule_items_count pool secs :
  section_count (elective_schedule_items pool secs) =
  sum_list (map (fun p => length (default [] (assoc_lookup p.1 secs))) pool).
Proof.
  unfold elective_schedule_items, section_count.
  pose proof (sorted_by_perm (fun p => priority_rank (pe_priority p.2)) pool) as Hperm.
  rewrite <- (sum_list_perm _ _ (Permutation_map
    (fun p : string * PoolEntry => length (default [] (assoc_lookup p.1 secs))) Hperm)).
  clear Hperm. induction (sorted_by _ pool) as [|p l IH]; simpl in *; [done|].
  destruct (assoc_lookup p.1 secs) as [ss|]; simpl; rewrite ?length_map; [f_equal|]; exact IH.
Qed.

Section PipelineCounts.
Context {G : Type} `{RG : Random G}.

(** X13: after [analyze_demand] and [create_elective_sections],
    [schedule_elective_sections] (electives in priority order over the
    pools of [setup_rooms]) goes through every created section exactly
    once: its scheduled and failed counts add up to the number of
    sections [create_elective_sections] counted in [sections_created]. *)
Theorem elective_pipeline_counts files stats0 prefs da secs created enum cfiles tt (g : G) :
  let pool := fst (process_electives_data files ([], stats0)) in
  analyze_demand pool prefs = Ok da ->
  create_elective_sections pool da ([], 0) = Ok (secs, created) ->
  let '(th, lb) := esetup_rooms enum cfiles in
  let '(r, _) := schedule_elective_sections (elective_schedule_items pool secs) (mkESt th lb tt g) in
  exists s f, r = Ok (s, f) /\ s + f = created.
Proof.
  simpl. set (pool := fst (process_electives_data files ([], stats0))).
  pose proof (process_pool_ok files ([], stats0) pool_ok_empty) as Hp. fold pool in Hp.
  intros Ha Hc.
  destruct (create_from_demand pool prefs da Hp Ha)
    as (secs' & n' & Hr & Hn & Hout & Hin & _ & _ & Hnd).
  rewrite Hc in Hr. injection Hr as <- <-.
  assert (Hcount : section_count (elective_schedule_items pool secs) = created).
  { rewrite schedule_items_count, Hn.
    set (h := fun c => length (default [] (assoc_lookup c secs))).
    assert (Hda : sum_list (map (fun it => length (sections_of pool it)) da) = sum_list (map h (map fst da))).
    { rewrite map_map. f_equal. apply map_ext_in. intros [c d] Hcd. unfold h. simpl.
      rewrite (Hin c d Hcd). by destruct (sections_of pool (c, d)). }
    rewrite Hda. transitivity (sum_list (map h (map fst pool))); [by rewrite map_map|].
    apply sum_over_keys; [by destruct Hp|done|].
    intros c Hh. unfold h in Hh.
    destruct (decide (c ∈ map fst da)) as [Hk|Hk]; [|by rewrite Hout in Hh].
    split; [|done].
    apply list_elem_of_In, in_map_iff in Hk as [[c' d] [Hc' Hcd]]. simpl in Hc'. subst c'.
    rewrite (Hin c d Hcd) in Hh. unfold sections_of in Hh. simpl in Hh.
    destruct (assoc_lookup c pool) as [e|] eqn:He; [|done].
    apply assoc_lookup_In in He. apply list_elem_of_In, in_map_iff. by exists (c, e). }
  pose proof (schedule_from_setup_counts enum cfiles (elective_schedule_items pool secs) tt g) as H.
  rewrite Hcount in H. exact H.
Qed.

End PipelineCounts.

(** * Choice analysis *)

Lemma choice_loop_sum prefs secs keys : forall f s n,
  let '(f', s', n') := foldl (choice_step prefs secs) (f, s, n) keys in
  f' + s' + n' = f + s + n + length keys.
Proof.
  induction keys as [|key keys IH]; intros f s n; simpl; [lia|].
  destruct (default [] (assoc_lookup key prefs)) as [|p ps] eqn:Hp.
  - specialize (IH f s (S n)). destruct (foldl _ _ keys) as [[f' s'] n']. lia.
  - destruct (choice_has_sections secs _); [|destruct (choice_has_sections secs _)].
    + specialize (IH (S f) s n). destruct (foldl _ _ keys) as [[f' s'] n']. lia.
    + specialize (IH f (S s) n). destruct (foldl _ _ keys) as [[f' s'] n']. lia.
    + specialize (IH f s (S n)). destruct (foldl _ _ keys) as [[f' s'] n']. lia.
Qed.

(** X14: in every department row of the choice analysis, each student
    whose key contains the department name is counted once, under first
    choice available, second choice available or no choice available:
    the three counts add up to the row's total. *)
Theorem choice_analysis_partition prefs secs :
  Forall (fun l => ch_first l + ch_second l + ch_none l = ch_total l) (choice_analysis prefs secs).
Proof.
  unfold choice_analysis. apply Forall_forall. intros l Hl.
  apply list_elem_of_In, in_map_iff in Hl as (dept & <- & _).
  pose proof (choice_loop_sum prefs secs
    (filter (fun key => py_contains dept key = true) (map fst prefs)) 0 0 0) as H.
  destruct (foldl _ _ _) as [[f s] n]. simpl. lia.
Qed.

(** * Department names *)

(** X15: for a file name whose upper-cased stem does not contain
    "COHORT", the core and the electives [_extract_department] agree
    except on the normalised names "BSAI42" and "BSDS42", which the core
    maps to "AI" and "DS" while the electives module keeps them as they
    are. *)
Theorem extract_department_agree filename :
  py_contains "COHORT" (py_upper (path_stem filename)) = false ->
  let n := dept_normalize (py_upper (path_stem filename)) in
  (n <> "BSAI42" -> n <> "BSDS42" ->
     core_extract_department filename = electives_extract_department filename) /\
  (n = "BSAI42" -> core_extract_department filename = "AI" /\
                   electives_extract_department filename = "BSAI42") /\
  (n = "BSDS42" -> core_extract_department filename = "DS" /\
                   electives_extract_department filename = "BSDS42").
Proof.
  intros Hc n. unfold core_extract_department, electives_extract_department.
  rewrite Hc. fold n. split; [|split].
  - intros H1 H2. repeat (case_decide; [done|]).
    repeat (case_decide; [congruence|]). done.
  - intros ->. done.
  - intros ->. done.
Qed.

(** * Witnesses of the further properties *)

(** 120 CS students in semester 5 give the batch [CS_Sem5] with three
    sections. *)
Lemma analyze_capacity_batches_witness :
  analyze_capacity cap_files_w ∅ !! "CS_Sem5" = Some batch_w /\
  "CS_Sem5" = batch_key (b_department batch_w) (b_semester batch_w) /\ b_semester batch_w <> 0%Z /\
  (0 < b_students batch_w)%Z /\
  STUDENTS_PER_SECTION * (b_sections batch_w - 1) < Z.to_nat (b_students batch_w) <=
    STUDENTS_PER_SECTION * b_sections batch_w /\
  length (b_section_names batch_w) = b_sections batch_w /\ NoDup (b_section_names batch_w).
Proof.
  assert (H : analyze_capacity cap_files_w ∅ !! "CS_Sem5" = Some batch_w) by (vm_compute; reflexivity).
  split; [exact H|].
  exact (analyze_capacity_batches cap_files_w "CS_Sem5" batch_w H).
Defined.

(** The demand of the electives scenario: the five CS402 preferences all
    have priority 2, so its priority-1 count is 0. *)
Lemma analyze_demand_counts_witness :
  analyze_demand pool_w prefs_w = Ok da_w /\ NoDup (map fst da_w) /\
  dm_total (default new_demand (assoc_lookup "CS402" da_w)) = pref_count prefs_w "CS402" /\
  assoc_lookup 1%Z (dm_by_priority (default new_demand (assoc_lookup "CS402" da_w))) =
    Some (length (filter (fun p => pr_code p = "CS402" /\ pr_priority p = 1%Z)
                    (concat (map snd prefs_w)))).
Proof.
  assert (H : analyze_demand pool_w prefs_w = Ok da_w) by (vm_compute; reflexivity).
  split; [exact H|].
  destruct (analyze_demand_counts pool_w prefs_w da_w H) as [Hn Hc].
  destruct (Hc "CS402") as (_ & Ht & H1 & _).
  split; [exact Hn|]. split; [exact Ht|exact H1].
Defined.

(** A preference with priority 4 makes [analyze_demand] raise. *)
Lemma analyze_demand_bad_priority_witness :
  bad_pref_w ∈ concat (map snd bad_prefs_w) /\ (pr_priority bad_pref_w ∉ [1%Z; 2%Z; 3%Z]) /\
  analyze_demand pool_w bad_prefs_w = Raise "KeyError".
Proof.
  assert (H1 : bad_pref_w ∈ concat (map snd bad_prefs_w)) by (simpl; constructor).
  assert (H2 : pr_priority bad_pref_w ∉ [1%Z; 2%Z; 3%Z]) by (apply (bool_decide_unpack _); vm_compute; reflexivity).
  split; [exact H1|]. split; [exact H2|].
  exact (analyze_demand_bad_priority pool_w bad_prefs_w bad_pref_w H1 H2).
Defined.

(** Every preference of the scenario has priority 1 or 2 and a pooled
    code, so [analyze_demand] returns. *)
Lemma analyze_demand_succeeds_witness :
  Forall (fun p => pr_priority p ∈ [1%Z; 2%Z; 3%Z] /\ is_Some (assoc_lookup (pr_code p) pool_w))
    (concat (map snd prefs_w)) /\
  exists da, analyze_demand pool_w prefs_w = Ok da.
Proof.
  assert (H : Forall (fun p => pr_priority p ∈ [1%Z; 2%Z; 3%Z] /\ is_Some (assoc_lookup (pr_code p) pool_w))
                (concat (map snd prefs_w))).
  { apply (bool_decide_unpack _). vm_compute. reflexivity. }
  split; [exact H|].
  exact (analyze_demand_succeeds pool_w prefs_w H).
Defined.

(** CS401 (demand 25, at least 20) gets sections; CS402 (demand 5) does
    not. *)
Lemma create_sections_cover_demand_witness :
  analyze_demand pool_w prefs_w = Ok da_w /\
  exists secs created,
    create_elective_sections pool_w da_w ([], 0) = Ok (secs, created) /\
    match assoc_lookup "CS402" secs with
    | None => forall e, assoc_lookup "CS402" pool_w = Some e -> pref_count prefs_w "CS402" < pe_min_students e
    | Some ss => exists e, assoc_lookup "CS402" pool_w = Some e /\
        pe_min_students e <= pref_count prefs_w "CS402" /\
        map es_key ss = map (elective_section_key "CS402") (seq 1 (length ss)) /\
        Forall (fun s => es_capacity s = pe_max_students e /\ es_enrolled s = 0) ss /\
        pref_count prefs_w "CS402" <= length ss * pe_max_students e <
          pref_count prefs_w "CS402" + pe_max_students e
    end.
Proof.
  assert (H : analyze_demand pool_w prefs_w = Ok da_w) by (vm_compute; reflexivity).
  split; [exact H|].
  destruct (create_sections_cover_demand elective_files_w stats_w prefs_w da_w H)
    as (secs & created & Hc & Hs).
  exists secs, created. split; [exact Hc|exact (Hs "CS402")].
Defined.

(** The capacity report of the scenario. *)
Lemma capacity_report_demand_covered_witness :
  analyze_demand pool_w prefs_w = Ok da_w /\
  create_elective_sections pool_w da_w ([], 0) = Ok created_w /\
  Forall (fun l => exists e, assoc_lookup (cl_code l) pool_w = Some e /\
     ((cl_sections l = 0 /\ cl_total_capacity l = 0 /\ cl_demand l < pe_min_students e) \/
      (0 < cl_sections l /\ pe_min_students e <= cl_demand l <= cl_total_capacity l /\
       cl_total_capacity l < cl_demand l + pe_max_students e)))
    (capacity_report pool_w created_w.1 prefs_w).
Proof.
  assert (H1 : analyze_demand pool_w prefs_w = Ok da_w) by (vm_compute; reflexivity).
  assert (H2 : create_elective_sections pool_w da_w ([], 0) = Ok (created_w.1, created_w.2))
    by (vm_compute; reflexivity).
  split; [exact H1|]. split; [exact H2|].
  exact (capacity_report_demand_covered elective_files_w stats_w prefs_w da_w
           created_w.1 created_w.2 H1 H2).
Defined.

(** Scheduling the sections of the scenario with the rooms of [files2]. *)
Lemma elective_pipeline_counts_witness :
  analyze_demand pool_w prefs_w = Ok da_w /\
  create_elective_sections pool_w da_w ([], 0) = Ok created_w /\
  let '(th, lb) := esetup_rooms elements files2 in
  let '(r, _) := schedule_elective_sections (RG := stream_random sample_draws)
                   (elective_schedule_items pool_w created_w.1) (mkESt th lb ∅ 0) in
  exists s f, r = Ok (s, f) /\ s + f = created_w.2.
Proof.
  assert (H1 : analyze_demand pool_w prefs_w = Ok da_w) by (vm_compute; reflexivity).
  assert (H2 : create_elective_sections pool_w da_w ([], 0) = Ok (created_w.1, created_w.2))
    by (vm_compute; reflexivity).
  split; [exact H1|]. split; [exact H2|].
  pose proof (elective_pipeline_counts (RG := stream_random sample_draws) elective_files_w stats_w
                prefs_w da_w created_w.1 created_w.2 elements files2 ∅ 0 H1 H2) as H3.
  fold pool_w in H3. exact H3.
Defined.

(** "BSDS 4.2.xlsx" normalises to "BSDS42": "DS" in the core module,
    "BSDS42" in the electives module. *)
Lemma extract_department_agree_witness :
  py_contains "COHORT" (py_upper (path_stem "BSDS 4.2.xlsx")) = false /\
  dept_normalize (py_upper (path_stem "BSDS 4.2.xlsx")) = "BSDS42" /\
  core_extract_department "BSDS 4.2.xlsx" = "DS" /\
  electives_extract_department "BSDS 4.2.xlsx" = "BSDS42".
Proof.
  assert (H1 : py_contains "COHORT" (py_upper (path_stem "BSDS 4.2.xlsx")) = false)
    by (vm_compute; reflexivity).
  assert (H2 : dept_normalize (py_upper (path_stem "BSDS 4.2.xlsx")) = "BSDS42")
    by (vm_compute; reflexivity).
  split; [exact H1|]. split; [exact H2|].
  exact (proj2 (proj2 (extract_department_agree "BSDS 4.2.xlsx" H1)) H2).
Defined.

(** The empty [times_needed] of CS102 is logged once, under its stripped
    code, and the run ends normally. *)
Lemma run_no_scheduling_error_witness :
  Forall (fun c => is_Some (c_semester c)) courses_nan /\
  needed_errors courses_nan = [MsgSchedError "CS102" "ValueError"] /\
  fst (run (RG := stream_random sample_draws) elements files1 cap_files0 [] courses_nan 0) = Ok tt /\
  log (snd (run (RG := stream_random sample_draws) elements files1 cap_files0 [] courses_nan 0)) =
    (log (schedule_cohort_courses [] (init_st (setup_rooms elements files1) 0)) ++ needed_errors courses_nan)%list.
Proof.
  assert (H : Forall (fun c => is_Some (c_semester c)) courses_nan).
  { apply (bool_decide_unpack _). vm_compute. reflexivity. }
  split; [exact H|]. split; [vm_compute; reflexivity|].
  exact (run_no_scheduling_error (RG := stream_random sample_draws) elements files1 cap_files0 [] courses_nan 0 H).
Defined.

(** The empty semester of the first row stops the run with
    [UnboundLocalError]. *)
Lemma run_semester_unbound_witness :
  Exists (fun c => c_semester c = None) courses_bad_sem /\
  fst (run (RG := stream_random sample_draws) elements files1 cap_files0 [] courses_bad_sem 0) =
    Raise "UnboundLocalError".
Proof.
  assert (H : Exists (fun c => c_semester c = None) courses_bad_sem) by (constructor; reflexivity).
  split; [exact H|].
  exact (run_semester_unbound (RG := stream_random sample_draws) elements files1 cap_files0 [] courses_bad_sem 0 H).
Defined.
